(** * xblock-poll: the bookkeeping of [PollBlock] and [SurveyBlock]

    A shallow embedding of [poll/poll.py] (Python 2).  Block fields are
    record fields, handlers are functions from the request data and the
    block to an [outcome]: either the exception that escapes the handler
    or the returned value together with the block as the handler left it.

    Python dictionaries are finite maps ([gmap]); a [List] field holding
    key/value pairs stays an association list and is turned into a
    dictionary by [py_dict], as [dict(...)] and [OrderedDict(...)] do.
    Request data is a JSON value as [json.loads] delivers it (numbers at
    their integer values).  Translated messages are kept as the message
    identifier with its format arguments.  Rendering, events and
    persistence belong to the host runtime and are left out. *)

From Stdlib Require Import ZArith Lia.
From stdpp Require Import base option list gmap fin_maps strings sorting.

Open Scope Z_scope.

(** ** Request data *)

#[warnings="-register-all"]
Inductive json : Type :=
| JNull
| JBool (b : bool)
| JNum (n : Z)
| JStr (s : string)
| JArr (items : list json)
| JObj (members : list (string * json)).

(** ** Exceptions and handler outcomes *)

Inductive exn : Type := KeyError | TypeError | AttributeError | ValueError.

Global Instance exn_eq_dec : EqDecision exn.
Proof. solve_decision. Defined.

Inductive outcome (S A : Type) : Type :=
| Raise (e : exn)
| Return (a : A) (s : S).
Global Arguments Raise {S A} e.
Global Arguments Return {S A} a s.

(** The result of evaluating an expression that may raise. *)
Inductive tried (A : Type) : Type :=
| Throw (e : exn)
| Val (a : A).
Global Arguments Throw {A} e.
Global Arguments Val {A} a.

Global Instance tried_ret : MRet tried := @Val.
Global Instance tried_bind : MBind tried := λ A B f m,
  match m with
  | Throw e => Throw e
  | Val a => f a
  end.

(** ** Dictionaries *)

(** [dict(pairs)]: later pairs overwrite earlier ones. *)
Definition py_dict {V} (pairs : list (string * V)) : gmap string V :=
  foldl (λ d kv, <[kv.1 := kv.2]> d) ∅ pairs.

(** [d.keys()], a list (Python 2). *)
Definition keys {V} (d : gmap string V) : list string := (map_to_list d).*1.

(** [d.items()]. *)
Definition items {V} (d : gmap string V) : list (string * V) := map_to_list d.

(** [d[k]] for a string key. *)
Definition getitem {V} (d : gmap string V) (k : string) : tried V :=
  match d !! k with
  | Some v => Val v
  | None => Throw KeyError
  end.

(** [d[k]] where the key is a JSON value, with the key that was found:
    lists and objects are unhashable, every other non-string value is
    hashable and differs from all string keys. *)
Definition getitem_json {V} (d : gmap string V) (k : json) : tried (string * V) :=
  match k with
  | JStr s => v ← getitem d s; Val (s, v)
  | JArr _ | JObj _ => Throw TypeError
  | JNull | JBool _ | JNum _ => Throw KeyError
  end.

(** [data[k]] on request data: only an object can be subscripted by a
    string. *)
Definition subscript (data : json) (k : string) : tried json :=
  match data with
  | JObj members => getitem (py_dict members) k
  | _ => Throw TypeError
  end.

(** [d[k] += n] on a dictionary of counters. *)
Definition iadd (d : gmap string Z) (k : string) (n : Z) : tried (gmap string Z) :=
  match d !! k with
  | Some c => Val (<[k := c + n]> d)
  | None => Throw KeyError
  end.

(** [sum(d.values())]. *)
Definition total {K} `{Countable K} (d : gmap K Z) : Z :=
  map_fold (λ _ c acc, c + acc) 0 d.

(** [sorted(l)] on unicode keys. *)
Definition sorted (l : list string) : list string := merge_sort String.le l.

(** ** Messages and results *)

Inductive message : Type :=
| AlreadyVoted
| AnswerNotIncluded
| NoKeyInAnswers (choice : json)
| VotedMaxTimes
| NotAllQuestions
| UnknownAnswer (answer_key : string) (question_key : json)
| FieldNotArray (field : string)
| NotAnObject (noun : string) (item : json)
| NoKey (noun : string) (item : json)
| NoTextOrImg (noun : string)
| NoLabel (noun : string)
| ImgAltRequired
| AtLeastOne (noun : string)
| MaxSubmissionsNotInteger
| PrivateResultsConflict
| NoQuestion.

(** The [result] dictionary of the JSON handlers; the last three keys are
    only set by [vote]. *)
Record Result : Type := {
  success : bool;
  errors : list message;
  r_can_vote : option bool;
  r_submissions_count : option Z;
  r_max_submissions : option Z;
}.

Definition new_result (ok : bool) : Result :=
  {| success := ok; errors := []; r_can_vote := None;
     r_submissions_count := None; r_max_submissions := None |}.

(** [result['success'] = b] *)
Definition set_success (b : bool) (r : Result) : Result :=
  {| success := b; errors := errors r; r_can_vote := r_can_vote r;
     r_submissions_count := r_submissions_count r;
     r_max_submissions := r_max_submissions r |}.

(** [result['errors'].append(m)] *)
Definition append_error (m : message) (r : Result) : Result :=
  {| success := success r; errors := errors r ++ [m]; r_can_vote := r_can_vote r;
     r_submissions_count := r_submissions_count r;
     r_max_submissions := r_max_submissions r |}.

Definition set_can_vote (b : bool) (r : Result) : Result :=
  {| success := success r; errors := errors r; r_can_vote := Some b;
     r_submissions_count := r_submissions_count r;
     r_max_submissions := r_max_submissions r |}.

Definition set_counts (count limit : Z) (r : Result) : Result :=
  {| success := success r; errors := errors r; r_can_vote := r_can_vote r;
     r_submissions_count := Some count;
     r_max_submissions := Some limit |}.

(** An answer or question entry: [{'label': .., 'img': .., 'img_alt': ..}]. *)
Record entry : Type := {
  label : string;
  img : option string;
  img_alt : option string;
}.

(** Truth value of a JSON value, as [bool(v)] and [if v] compute it. *)
Definition truthy (v : json) : bool :=
  match v with
  | JNull => false
  | JBool b => b
  | JNum n => negb (n =? 0)
  | JStr s => negb (String.eqb s "")
  | JArr l => match l with [] => false | _ => true end
  | JObj l => match l with [] => false | _ => true end
  end.

(** ** PollBase: the fields and helpers shared by both blocks *)

Record PollBase : Type := {
  private_results : bool;
  max_submissions : Z;
  submissions_count : Z;
  feedback : string;
  (** [self.runtime.service(self, "settings")]: the settings bucket of the
      block, when the runtime has a settings service. *)
  settings_service : option (gmap string json);
}.

Definition set_submissions_count (n : Z) (self : PollBase) : PollBase :=
  {| private_results := private_results self; max_submissions := max_submissions self;
     submissions_count := n; feedback := feedback self;
     settings_service := settings_service self |}.

(** [PollBase.can_vote] *)
Definition can_vote (self : PollBase) : bool :=
  (max_submissions self =? 0) || (submissions_count self <? max_submissions self).

(** [PollBase.img_alt_mandatory] *)
Definition img_alt_mandatory (self : PollBase) : json :=
  match settings_service self with
  | None => JBool true
  | Some xblock_settings => default (JBool true) (xblock_settings !! "IMG_ALT_MANDATORY")
  end.

(** The shape of a gathered item: [(key, {'label', 'img', 'img_alt'})]
    with images, [[key, label]] without. *)
Definition item_type (image : bool) : Type :=
  if image then (string * entry)%type else (string * string)%type.

Definition make_item (image : bool) (key label image_link image_alt : string) :
    item_type image :=
  match image with
  | true => (key, {| label := label; img := Some image_link; img_alt := Some image_alt |})
  | false => (key, label)
  end.

Section Builtins.
(** [unicode.strip] and [int] on a unicode string ([None]: ValueError). *)
Variable strip : string → string.
Variable parse_int : string → option Z.

(** [d.get(k, '').strip()] *)
Definition get_strip (d : gmap string json) (k : string) : tried string :=
  match default (JStr "") (d !! k) with
  | JStr s => Val (strip s)
  | _ => Throw AttributeError
  end.

(** [int(v)] *)
Definition py_int (v : json) : tried Z :=
  match v with
  | JNum n => Val n
  | JBool b => Val (if b then 1 else 0)
  | JStr s => match parse_int s with Some n => Val n | None => Throw ValueError end
  | JNull | JArr _ | JObj _ => Throw TypeError
  end.

(** [PollBase.get_max_submissions] *)
Definition get_max_submissions (data : gmap string json) (result : Result)
    (private_results : bool) : tried (Z * Result) :=
  '(max_submissions, result) ←
    match getitem data "max_submissions" ≫= py_int with
    | Val n => Val (n, result)
    | Throw ValueError | Throw KeyError =>
        Val (1, append_error MaxSubmissionsNotInteger (set_success false result))
    | Throw e => Throw e
    end;
  let result :=
    if negb (max_submissions =? 1) && negb private_results
    then append_error PrivateResultsConflict (set_success false result)
    else result in
  Val (max_submissions, result).

(** The body of the loop of [gather_items]. *)
Definition gather_item (self : PollBase) (noun : string) (image : bool)
    (acc : list (item_type image) * Result) (item : json) :
    tried (list (item_type image) * Result) :=
  let '(items, result) := acc in
  match item with
  | JObj members =>
    let fields := py_dict members in
    key ← get_strip fields "key";
    let result :=
      if String.eqb key ""
      then append_error (NoKey noun item) (set_success false result)
      else result in
    image_link ← get_strip fields "img";
    image_alt ← get_strip fields "img_alt";
    label ← get_strip fields "label";
    let result :=
      if String.eqb label "" then
        if image && String.eqb image_link ""
        then append_error (NoTextOrImg noun) (set_success false result)
        else if negb image
        then append_error (NoLabel noun) (set_success false result)
        else result
      else result in
    let result :=
      if negb (String.eqb image_link "") && String.eqb image_alt ""
         && truthy (img_alt_mandatory self)
      then append_error ImgAltRequired (set_success false result)
      else result in
    Val (items ++ [make_item image key label image_link image_alt], result)
  | _ => Val (items, append_error (NotAnObject noun item) (set_success false result))
  end.

Fixpoint gather_loop (self : PollBase) (noun : string) (image : bool)
    (source_items : list json) (acc : list (item_type image) * Result) :
    tried (list (item_type image) * Result) :=
  match source_items with
  | [] => Val acc
  | item :: rest =>
      acc ← gather_item self noun image acc item;
      gather_loop self noun image rest acc
  end.

(** [PollBase.gather_items] *)
Definition gather_items (self : PollBase) (data : gmap string json) (result : Result)
    (noun field : string) (image : bool) : tried (list (item_type image) * Result) :=
  let '(source_items, result) :=
    match data !! field with
    | Some (JArr l) => (l, result)
    | _ => ([], append_error (FieldNotArray field) (set_success false result))
    end in
  '(items, result) ← gather_loop self noun image source_items ([], result);
  let result :=
    match items with
    | [] => set_success false (append_error (AtLeastOne noun) result)
    | _ => result
    end in
  Val (items, result).
End Builtins.

(** ** PollBlock *)

Module Poll.

Record PollBlock : Type := {
  base : PollBase;
  display_name : string;
  question : string;
  answers : list (string * entry);
  tally : gmap string Z;
  choice : option string;
}.

Definition set_base (b : PollBase) (self : PollBlock) : PollBlock :=
  {| base := b; display_name := display_name self; question := question self;
     answers := answers self; tally := tally self; choice := choice self |}.

Definition set_tally (t : gmap string Z) (self : PollBlock) : PollBlock :=
  {| base := base self; display_name := display_name self; question := question self;
     answers := answers self; tally := t; choice := choice self |}.

Definition set_choice (c : option string) (self : PollBlock) : PollBlock :=
  {| base := base self; display_name := display_name self; question := question self;
     answers := answers self; tally := tally self; choice := c |}.

(** The first loop of [clean_tally]: add the missing answer keys. *)
Definition add_missing (ks : list string) (t : gmap string Z) : gmap string Z :=
  foldl (λ t key, match t !! key with None => <[key := 0]> t | Some _ => t end) t ks.

(** The second loop of [clean_tally]: drop the keys that are no answer. *)
Definition drop_stale (answers : gmap string entry) (ks : list string)
    (t : gmap string Z) : gmap string Z :=
  foldl (λ t key, match answers !! key with None => delete key t | Some _ => t end) t ks.

(** [PollBlock.clean_tally] *)
Definition clean_tally (self : PollBlock) : PollBlock :=
  let answers := py_dict (answers self) in
  let self := set_tally (add_missing (keys answers) (tally self)) self in
  set_tally (drop_stale answers (keys (tally self)) (tally self)) self.

(** [PollBlock.get_choice]; the empty string and [None] are falsy. *)
Definition get_choice (self : PollBlock) : outcome PollBlock (option string) :=
  match choice self with
  | Some c =>
      if negb (String.eqb c "") && bool_decide (is_Some (py_dict (answers self) !! c))
      then Return (Some c) self
      else Return None self
  | None => Return None self
  end.

(** [PollBlock.vote] *)
Definition vote (data : json) (self : PollBlock) : outcome PollBlock Result :=
  let result := new_result false in
  match get_choice self with
  | Raise e => Raise e
  | Return old_choice self =>
    if bool_decide (old_choice ≠ None) && negb (private_results (base self)) then
      Return (append_error AlreadyVoted result) self
    else
    match subscript data "choice" with
    | Throw KeyError => Return (append_error AnswerNotIncluded result) self
    | Throw e => Raise e
    | Val choice =>
      match getitem_json (py_dict (answers self)) choice with
      | Throw KeyError => Return (append_error (NoKeyInAnswers choice) result) self
      | Throw e => Raise e
      | Val (chosen, _) =>
        let self :=
          match old_choice with
          | None => set_base (set_submissions_count 0 (base self)) self
          | Some _ => self
          end in
        if negb (can_vote (base self)) then
          Return (append_error VotedMaxTimes result) self
        else
        let self := clean_tally self in
        match
          match old_choice with
          | Some old => iadd (tally self) old (-1)
          | None => Val (tally self)
          end
        with
        | Throw e => Raise e
        | Val t =>
          let self := set_choice (Some chosen) (set_tally t self) in
          match iadd (tally self) chosen 1 with
          | Throw e => Raise e
          | Val t =>
            let self := set_tally t self in
            let self :=
              set_base (set_submissions_count (submissions_count (base self) + 1)
                          (base self)) self in
            let result := set_success true result in
            let result := set_can_vote (can_vote (base self)) result in
            let result :=
              set_counts (submissions_count (base self)) (max_submissions (base self))
                result in
            Return result self
          end
        end
      end
    end
  end.

(** The dictionary serialised by [student_view_user_state]. *)
Record user_state : Type := {
  us_choice : option string;
  us_tally : gmap string Z;
  us_submissions_count : Z;
}.

(** [PollBlock.student_view_user_state] *)
Definition student_view_user_state (self : PollBlock) : outcome PollBlock user_state :=
  match get_choice self with
  | Raise e => Raise e
  | Return choice self =>
      Return {| us_choice := choice; us_tally := tally self;
                us_submissions_count := submissions_count (base self) |} self
  end.

(** One row of [tally_detail]. *)
Record row : Type := {
  count : Z;
  answer : string;
  row_img : option string;
  row_img_alt : option string;
  key : string;
  first : bool;
  is_choice : bool;
  last : bool;
  percent : Z;
}.

(** Set the flags of a row that are given as [true], and its percentage. *)
Definition mark (first' choice' last' : bool) (pct : Z) (r : row) : row :=
  {| count := count r; answer := answer r; row_img := row_img r;
     row_img_alt := row_img_alt r; key := key r;
     first := first r || first'; is_choice := is_choice r || choice';
     last := last r || last'; percent := pct |}.

(** [OrderedDict(pairs).items()]: a key keeps the place of its first
    occurrence and takes the value of its last. *)
Fixpoint od_set {V} (k : string) (v : V) (l : list (string * V)) : list (string * V) :=
  match l with
  | [] => [(k, v)]
  | (k', v') :: l => if String.eqb k' k then (k', v) :: l else (k', v') :: od_set k v l
  end.

Definition ordered_items {V} (pairs : list (string * V)) : list (string * V) :=
  foldl (λ od kv, od_set kv.1 kv.2 od) [] pairs.

(** [l.sort(key=count, reverse=True)]: stable, largest count first. *)
Fixpoint insert_by_count (r : row) (l : list row) : list row :=
  match l with
  | [] => [r]
  | r' :: l' => if count r' <? count r then r :: r' :: l' else r' :: insert_by_count r l'
  end.

Definition sort_by_count (l : list row) : list row :=
  foldl (λ acc r, insert_by_count r acc) [] l.

Definition mark_first (l : list row) : list row :=
  match l with
  | [] => []
  | r :: l => mark true false false (percent r) r :: l
  end.

Definition mark_last (l : list row) : list row :=
  match reverse l with
  | [] => []
  | r :: l => reverse (mark false false true (percent r) r :: l)
  end.

Section Rendering.
(** [markdown.markdown] and [round(count / float(total) * 100)] for a
    total other than zero. *)
Variable markdown : string → string.
Variable round_percent : Z → Z → Z.

(** [PollBase.markdown_items] *)
Definition markdown_items (items : list (string * entry)) : list (string * entry) :=
  (λ kv, (kv.1, {| label := markdown (label kv.2); img := img kv.2;
                   img_alt := img_alt kv.2 |})) <$> items.

(** The first loop of [tally_detail]. *)
Fixpoint detail_rows (source_tally : gmap string Z) (answers : list (string * entry))
    (acc : list row * Z) : tried (list row * Z) :=
  match answers with
  | [] => Val acc
  | (key, value) :: rest =>
      count ← getitem source_tally key;
      detail_rows source_tally rest
        (acc.1 ++ [{| count := count; answer := label value; row_img := img value;
                      row_img_alt := img_alt value; key := key; first := false;
                      is_choice := false; last := false; percent := 0 |}],
         acc.2 + count)
  end.

(** [PollBlock.tally_detail] *)
Definition tally_detail (self : PollBlock) : outcome PollBlock (list row * Z) :=
  let answers := ordered_items (markdown_items (answers self)) in
  match get_choice self with
  | Raise e => Raise e
  | Return choice self =>
    let self := clean_tally self in
    let source_tally := tally self in
    match detail_rows source_tally answers ([], 0) with
    | Throw e => Raise e
    | Val (tally, total) =>
      let tally :=
        (λ answer,
           mark false (bool_decide (Some (key answer) = choice)) false
             (if total =? 0 then 0 else round_percent (count answer) total) answer)
        <$> tally in
      let tally := sort_by_count tally in
      let tally := mark_last (mark_first tally) in
      Return (tally, total) self
    end
  end.
End Rendering.

Section Studio.
Variable strip : string → string.
Variable parse_int : string → option Z.

(** [PollBlock.studio_submit] *)
Definition studio_submit (data : json) (self : PollBlock) : outcome PollBlock Result :=
  let result := new_result true in
  match data with
  | JObj members =>
    let data := py_dict members in
    match
      question ← get_strip strip data "question";
      feedback ← get_strip strip data "feedback";
      let private_results := truthy (default (JBool false) (data !! "private_results")) in
      '(max_submissions, result) ←
        get_max_submissions parse_int data result private_results;
      display_name ← get_strip strip data "display_name";
      let result :=
        if String.eqb question ""
        then set_success false (append_error NoQuestion result)
        else result in
      '(answers, result) ← gather_items strip (base self) data result "Answer" "answers" true;
      Val (question, feedback, private_results, max_submissions, display_name,
           answers, result)
    with
    | Throw e => Raise e
    | Val (question, feedback, private_results, max_submissions, display_name,
           answers, result) =>
      if negb (success result) then Return result self
      else
        Return result
          {| base := {| private_results := private_results;
                        max_submissions := max_submissions;
                        submissions_count := submissions_count (base self);
                        feedback := feedback;
                        settings_service := settings_service (base self) |};
             display_name := display_name; question := question;
             answers := answers; tally := tally self; choice := choice self |}
    end
  | _ => Raise AttributeError
  end.
End Studio.

End Poll.

(** ** SurveyBlock *)

Module Survey.

Record SurveyBlock : Type := {
  base : PollBase;
  display_name : string;
  block_name : string;
  answers : list (string * string);
  questions : list (string * entry);
  tally : gmap string (gmap string Z);
  (** Only [vote] stores choices, after checking that every value is an
      answer key, so the stored values are strings. *)
  choices : option (gmap string string);
}.

Definition set_base (b : PollBase) (self : SurveyBlock) : SurveyBlock :=
  {| base := b; display_name := display_name self; block_name := block_name self;
     answers := answers self; questions := questions self; tally := tally self;
     choices := choices self |}.

Definition set_tally (t : gmap string (gmap string Z)) (self : SurveyBlock) : SurveyBlock :=
  {| base := base self; display_name := display_name self; block_name := block_name self;
     answers := answers self; questions := questions self; tally := t;
     choices := choices self |}.

Definition set_choices (c : option (gmap string string)) (self : SurveyBlock) : SurveyBlock :=
  {| base := base self; display_name := display_name self; block_name := block_name self;
     answers := answers self; questions := questions self; tally := tally self;
     choices := c |}.

(** [{answer: 0 for answer in answers.keys()}] *)
Definition default_answers (answers : gmap string string) : gmap string Z :=
  foldl (λ d answer, <[answer := 0]> d) ∅ (keys answers).

(** [d.update(other)] *)
Definition update (d other : gmap string Z) : gmap string Z :=
  foldl (λ d kv, <[kv.1 := kv.2]> d) d (items other).

(** The [else] branch of [clean_tally]: the counters of one question,
    brought in line with the answers. *)
Definition new_answers (default_answers existing : gmap string Z) : gmap string Z :=
  let new_answers := update default_answers existing in
  foldl (λ new_answers existing_key,
           match default_answers !! existing_key with
           | None => delete existing_key new_answers
           | Some _ => new_answers
           end) new_answers (keys existing).

(** The first loop of [clean_tally]. *)
Definition clean_questions (default_answers : gmap string Z) (ks : list string)
    (t : gmap string (gmap string Z)) : gmap string (gmap string Z) :=
  foldl (λ t key,
           match t !! key with
           | None => <[key := default_answers]> t
           | Some existing => <[key := new_answers default_answers existing]> t
           end) t ks.

(** The second loop of [clean_tally]. *)
Definition drop_stale (questions : gmap string entry) (ks : list string)
    (t : gmap string (gmap string Z)) : gmap string (gmap string Z) :=
  foldl (λ t key, match questions !! key with None => delete key t | Some _ => t end) t ks.

(** [SurveyBlock.clean_tally] *)
Definition clean_tally (self : SurveyBlock) : SurveyBlock :=
  let questions := py_dict (questions self) in
  let answers := py_dict (answers self) in
  let default_answers := default_answers answers in
  let self := set_tally (clean_questions default_answers (keys questions) (tally self)) self in
  set_tally (drop_stale questions (keys (tally self)) (tally self)) self.

(** [self.tally[key][value] += n] *)
Definition count_vote (n : Z) (t : gmap string (gmap string Z)) (key value : string) :
    tried (gmap string (gmap string Z)) :=
  counters ← getitem t key;
  counters ← iadd counters value n;
  Val (<[key := counters]> t).

(** The loop of [remove_vote]. *)
Fixpoint remove_votes (questions : gmap string entry) (answers : gmap string string)
    (pairs : list (string * string)) (t : gmap string (gmap string Z)) :
    tried (gmap string (gmap string Z)) :=
  match pairs with
  | [] => Val t
  | (key, value) :: rest =>
      t ← (if bool_decide (is_Some (questions !! key)) then
             if bool_decide (is_Some (answers !! value)) then count_vote (-1) t key value
             else Val t
           else Val t);
      remove_votes questions answers rest t
  end.

(** [SurveyBlock.remove_vote] *)
Definition remove_vote (self : SurveyBlock) : outcome SurveyBlock unit :=
  let questions := py_dict (questions self) in
  let answers := py_dict (answers self) in
  match choices self with
  | None => Raise AttributeError
  | Some choices =>
      match remove_votes questions answers (items choices) (tally self) with
      | Throw e => Raise e
      | Val t => Return () (set_choices None (set_tally t self))
      end
  end.

(** The loop of [get_choices] over the chosen values. *)
Fixpoint check_values (answers : gmap string string) (values : list string)
    (self : SurveyBlock) : outcome SurveyBlock (option (gmap string string)) :=
  match values with
  | [] => Return (choices self) self
  | value :: rest =>
      if negb (bool_decide (is_Some (answers !! value))) then
        match remove_vote self with
        | Raise e => Raise e
        | Return _ self => Return None self
        end
      else check_values answers rest self
  end.

(** [SurveyBlock.get_choices] *)
Definition get_choices (self : SurveyBlock) :
    outcome SurveyBlock (option (gmap string string)) :=
  let questions := py_dict (questions self) in
  let answers := py_dict (answers self) in
  match choices self with
  | None => Return None self
  | Some chosen =>
      if bool_decide (sorted (keys questions) ≠ sorted (keys chosen)) then
        match remove_vote self with
        | Raise e => Raise e
        | Return _ self => Return None self
        end
      else check_values answers (items chosen).*2 self
  end.

(** Truth value of a choices dictionary: [None] and [{}] are falsy. *)
Definition nonempty (c : option (gmap string string)) : bool :=
  match c with
  | Some d => negb (bool_decide (d = ∅))
  | None => false
  end.

(** [value in answers.keys()] for a submitted JSON value. *)
Definition in_keys (value : json) (ks : list string) : bool :=
  match value with
  | JStr s => bool_decide (s ∈ ks)
  | _ => false
  end.

(** The submitted mapping as stored in [self.choices]. *)
Definition as_choices (data : gmap string json) : gmap string string :=
  omap (λ v, match v with JStr s => Some s | _ => None end) data.

(** The loop of [vote] that records the choices in the tally. *)
Fixpoint record_votes (pairs : list (string * string)) (t : gmap string (gmap string Z)) :
    tried (gmap string (gmap string Z)) :=
  match pairs with
  | [] => Val t
  | (key, value) :: rest =>
      t ← count_vote 1 t key value;
      record_votes rest t
  end.

(** [SurveyBlock.vote] *)
Definition vote (data : json) (self : SurveyBlock) : outcome SurveyBlock Result :=
  let questions := py_dict (questions self) in
  let answers := py_dict (answers self) in
  let result := new_result true in
  match get_choices self with
  | Raise e => Raise e
  | Return choices' self =>
    let result :=
      if nonempty choices' && negb (private_results (base self))
      then append_error AlreadyVoted (set_success false result)
      else result in
    let self :=
      if negb (nonempty choices')
      then set_base (set_submissions_count 0 (base self)) self
      else self in
    let result :=
      if negb (can_vote (base self))
      then append_error VotedMaxTimes (set_success false result)
      else result in
    match data with
    | JObj members =>
      let data := py_dict members in
      let result :=
        if negb (bool_decide (sorted (keys data) = sorted (keys questions)))
        then append_error NotAllQuestions (set_success false result)
        else result in
      let result :=
        foldl (λ result kv,
                 if negb (in_keys kv.2 (keys answers))
                 then append_error (UnknownAnswer kv.1 kv.2) (set_success false result)
                 else result) result (items data) in
      if negb (success result) then
        Return (set_can_vote (can_vote (base self)) result) self
      else
        match
          if nonempty (choices self) then remove_vote self else Return () self
        with
        | Raise e => Raise e
        | Return _ self =>
          let self := set_choices (Some (as_choices data)) self in
          let self := clean_tally self in
          match record_votes (items (as_choices data)) (tally self) with
          | Throw e => Raise e
          | Val t =>
            let self := set_tally t self in
            let self :=
              set_base (set_submissions_count (submissions_count (base self) + 1)
                          (base self)) self in
            let result := set_can_vote (can_vote (base self)) result in
            let result :=
              set_counts (submissions_count (base self)) (max_submissions (base self))
                result in
            Return result self
          end
        end
    | _ => Raise AttributeError
    end
  end.

(** The dictionary serialised by [student_view_user_state]. *)
Record user_state : Type := {
  us_choices : option (gmap string string);
  us_tally : gmap string (gmap string Z);
  us_submissions_count : Z;
}.

(** [SurveyBlock.student_view_user_state] *)
Definition student_view_user_state (self : SurveyBlock) : outcome SurveyBlock user_state :=
  match get_choices self with
  | Raise e => Raise e
  | Return choices self =>
      Return {| us_choices := choices; us_tally := tally self;
                us_submissions_count := submissions_count (base self) |} self
  end.

Section Studio.
Variable strip : string → string.
Variable parse_int : string → option Z.

(** [SurveyBlock.studio_submit] *)
Definition studio_submit (data : json) (self : SurveyBlock) : outcome SurveyBlock Result :=
  let result := new_result true in
  match data with
  | JObj members =>
    let data := py_dict members in
    match
      feedback ← get_strip strip data "feedback";
      block_name ← get_strip strip data "display_name";
      let private_results := truthy (default (JBool false) (data !! "private_results")) in
      '(max_submissions, result) ←
        get_max_submissions parse_int data result private_results;
      '(answers, result) ← gather_items strip (base self) data result "Answer" "answers" false;
      '(questions, result) ←
        gather_items strip (base self) data result "Question" "questions" true;
      Val (feedback, block_name, private_results, max_submissions, answers, questions,
           result)
    with
    | Throw e => Raise e
    | Val (feedback, block_name, private_results, max_submissions, answers, questions,
           result) =>
      if negb (success result) then Return result self
      else
        Return result
          {| base := {| private_results := private_results;
                        max_submissions := max_submissions;
                        submissions_count := submissions_count (base self);
                        feedback := feedback;
                        settings_service := settings_service (base self) |};
             display_name := display_name self; block_name := block_name;
             answers := answers; questions := questions;
             tally := tally self; choices := choices self |}
    end
  | _ => Raise AttributeError
  end.
End Studio.

End Survey.

(** ** The validation failures of [studio_submit]

    The conditions under which [gather_items], [get_max_submissions] and
    [studio_submit] reject the submitted data, each with the message it
    appends. *)

Inductive item_failure (strip : string → string) (self : PollBase) (noun : string)
    (image : bool) (item : json) : message → Prop :=
| not_an_object :
    (∀ members, item ≠ JObj members) →
    item_failure strip self noun image item (NotAnObject noun item)
| no_key members :
    item = JObj members →
    get_strip strip (py_dict members) "key" = Val "" →
    item_failure strip self noun image item (NoKey noun item)
| no_text_or_img members :
    item = JObj members → image = true →
    get_strip strip (py_dict members) "label" = Val "" →
    get_strip strip (py_dict members) "img" = Val "" →
    item_failure strip self noun image item (NoTextOrImg noun)
| no_label members :
    item = JObj members → image = false →
    get_strip strip (py_dict members) "label" = Val "" →
    item_failure strip self noun image item (NoLabel noun)
| no_img_alt members image_link :
    item = JObj members →
    get_strip strip (py_dict members) "img" = Val image_link → image_link ≠ "" →
    get_strip strip (py_dict members) "img_alt" = Val "" →
    truthy (img_alt_mandatory self) = true →
    item_failure strip self noun image item ImgAltRequired.

Inductive items_failure (strip : string → string) (self : PollBase)
    (data : gmap string json) (noun field : string) (image : bool) : message → Prop :=
| field_not_array :
    (∀ l, data !! field ≠ Some (JArr l)) →
    items_failure strip self data noun field image (FieldNotArray field)
| bad_item l item m :
    data !! field = Some (JArr l) → item ∈ l →
    item_failure strip self noun image item m →
    items_failure strip self data noun field image m
| no_items :
    (∀ l item members, data !! field = Some (JArr l) → item ∈ l → item ≠ JObj members) →
    items_failure strip self data noun field image (AtLeastOne noun).

Inductive max_submissions_failure (parse_int : string → option Z)
    (data : gmap string json) (private_results : bool) : message → Prop :=
| max_submissions_missing :
    data !! "max_submissions" = None →
    max_submissions_failure parse_int data private_results MaxSubmissionsNotInteger
| max_submissions_not_integer s :
    data !! "max_submissions" = Some (JStr s) → parse_int s = None →
    max_submissions_failure parse_int data private_results MaxSubmissionsNotInteger
| private_results_conflict n :
    getitem data "max_submissions" ≫= py_int parse_int = Val n → n ≠ 1 →
    private_results = false →
    max_submissions_failure parse_int data private_results PrivateResultsConflict.

(** A result whose flag and messages agree. *)
Definition consistent (r : Result) : Prop := success r = false ↔ errors r ≠ [].

(** The stored choices of a survey are still valid: the same questions,
    known answers. *)
Definition still_valid (self : Survey.SurveyBlock) (c : gmap string string) : Prop :=
  dom c = list_to_set (Survey.questions self).*1 ∧
  ∀ q a, c !! q = Some a → a ∈ (Survey.answers self).*1.

(** [r'] is [r] after further validation: messages are only appended, and
    the flag stays in step with them. *)
Definition grows (r r' : Result) : Prop :=
  (∃ ms, errors r' = errors r ++ ms) ∧ (consistent r → consistent r').

(** ** Studio forms whose fields have the JSON types the handlers expect *)

(** The field is absent or a string, so that [d.get(k, '').strip()]
    evaluates. *)
Definition text_or_absent (d : gmap string json) (k : string) : Prop :=
  match d !! k with
  | None | Some (JStr _) => True
  | Some _ => False
  end.

Definition item_typed (item : json) : Prop :=
  match item with
  | JObj members =>
      text_or_absent (py_dict members) "key" ∧
      text_or_absent (py_dict members) "img" ∧
      text_or_absent (py_dict members) "img_alt" ∧
      text_or_absent (py_dict members) "label"
  | _ => True
  end.

Definition items_typed (d : gmap string json) (field : string) : Prop :=
  match d !! field with
  | Some (JArr l) => Forall item_typed l
  | _ => True
  end.

(** [int(data['max_submissions'])] raises at most ValueError or KeyError. *)
Definition max_submissions_typed (d : gmap string json) : Prop :=
  match d !! "max_submissions" with
  | Some JNull | Some (JArr _) | Some (JObj _) => False
  | _ => True
  end.

Definition poll_form_typed (data : json) : Prop :=
  match data with
  | JObj members =>
      let d := py_dict members in
      text_or_absent d "question" ∧ text_or_absent d "feedback" ∧
      text_or_absent d "display_name" ∧ max_submissions_typed d ∧
      items_typed d "answers"
  | _ => False
  end.

Definition survey_form_typed (data : json) : Prop :=
  match data with
  | JObj members =>
      let d := py_dict members in
      text_or_absent d "feedback" ∧ text_or_absent d "display_name" ∧
      max_submissions_typed d ∧ items_typed d "answers" ∧ items_typed d "questions"
  | _ => False
  end.

(** ** Example blocks and requests *)

Module Examples.

Definition plain (text : string) : entry :=
  {| label := text; img := None; img_alt := None |}.

Definition default_base : PollBase :=
  {| private_results := false; max_submissions := 1; submissions_count := 0;
     feedback := ""; settings_service := None |}.

(** A [PollBlock] with the field defaults of the class. *)
Definition default_poll : Poll.PollBlock :=
  {| Poll.base := default_base;
     Poll.display_name := "Poll";
     Poll.question := "What is your favorite color?";
     Poll.answers := [("R", plain "Red"); ("B", plain "Blue"); ("G", plain "Green");
                      ("O", plain "Other")];
     Poll.tally := {[ "R" := 0; "B" := 0; "G" := 0; "O" := 0 ]};
     Poll.choice := None |}.

(** The default poll after the user has voted "O" and the studio has
    then removed that answer. *)
Definition stale_poll : Poll.PollBlock :=
  {| Poll.base := set_submissions_count 1 default_base;
     Poll.display_name := "Poll";
     Poll.question := "What is your favorite color?";
     Poll.answers := [("R", plain "Red"); ("B", plain "Blue"); ("G", plain "Green")];
     Poll.tally := {[ "R" := 0; "B" := 0; "G" := 0; "O" := 1 ]};
     Poll.choice := Some "O" |}.

Definition vote_red : json := JObj [("choice", JStr "R")].

(** A request whose choice is a JSON array. *)
Definition vote_array : json := JObj [("choice", JArr [])].

Definition no_votes : gmap string Z := {[ "Y" := 0; "N" := 0; "M" := 0 ]}.

(** A [SurveyBlock] with the field defaults of the class. *)
Definition default_survey : Survey.SurveyBlock :=
  {| Survey.base := default_base;
     Survey.display_name := "Survey";
     Survey.block_name := "Poll";
     Survey.answers := [("Y", "Yes"); ("N", "No"); ("M", "Maybe")];
     Survey.questions :=
       [("enjoy", plain "Are you enjoying the course?");
        ("recommend", plain "Would you recommend this course to your friends?");
        ("learn", plain "Do you think you will learn a lot?")];
     Survey.tally := {[ "enjoy" := no_votes; "recommend" := no_votes; "learn" := no_votes ]};
     Survey.choices := Some ∅ |}.

Definition all_yes : json :=
  JObj [("enjoy", JStr "Y"); ("recommend", JStr "Y"); ("learn", JStr "Y")].

(** The default survey after the user has answered "Y" to everything and
    the studio has then removed the question "learn". *)
Definition revised_survey : Survey.SurveyBlock :=
  {| Survey.base := set_submissions_count 1 default_base;
     Survey.display_name := "Survey";
     Survey.block_name := "Poll";
     Survey.answers := [("Y", "Yes"); ("N", "No"); ("M", "Maybe")];
     Survey.questions :=
       [("enjoy", plain "Are you enjoying the course?");
        ("recommend", plain "Would you recommend this course to your friends?")];
     Survey.tally :=
       {[ "enjoy" := <["Y" := 1]> no_votes; "recommend" := <["Y" := 1]> no_votes;
          "learn" := <["Y" := 1]> no_votes ]};
     Survey.choices := Some {[ "enjoy" := "Y"; "recommend" := "Y"; "learn" := "Y" ]} |}.

Definition two_noes : json := JObj [("enjoy", JStr "N"); ("recommend", JStr "N")].

(** A survey whose only question was "enjoy" when this user answered it.
    The studio then replaced the question by "learn", another user voted
    (which reconciled the shared tally), and the studio added "enjoy"
    again. *)
Definition readded_survey : Survey.SurveyBlock :=
  {| Survey.base := set_submissions_count 1 default_base;
     Survey.display_name := "Survey";
     Survey.block_name := "Poll";
     Survey.answers := [("Y", "Yes"); ("N", "No"); ("M", "Maybe")];
     Survey.questions :=
       [("enjoy", plain "Are you enjoying the course?");
        ("learn", plain "Do you think you will learn a lot?")];
     Survey.tally := {[ "learn" := <["Y" := 1]> no_votes ]};
     Survey.choices := Some {[ "enjoy" := "Y" ]} |}.

(** An empty studio form. *)
Definition empty_form : json := JObj [].

(** Stand-ins for [unicode.strip] and [int] in the examples. *)
Definition no_strip (s : string) : string := s.
Definition no_int (s : string) : option Z := None.

End Examples.

(** ** Who may see private results *)

(** What [can_view_private_results] and the result handlers read from the
    host: [user_is_staff] is [None] when the runtime has no such attribute,
    [has_group_profile] is the module flag [HAS_GROUP_PROFILE],
    [extra_view_groups] the setting [XBLOCK_POLL_EXTRA_VIEW_GROUPS] (empty
    when unset) and [group_profile_exists names] the answer of the
    [GroupProfile] query for the groups of the user and the given names. *)
Record Runtime : Type := {
  user_is_staff : option bool;
  has_group_profile : bool;
  extra_view_groups : list string;
  group_profile_exists : list string → bool;
  block_id : string;
}.

(** [PollBase.can_view_private_results] *)
Definition can_view_private_results (runtime : Runtime) : bool :=
  match user_is_staff runtime with
  | None => false
  | Some true => true
  | Some false =>
      if negb (has_group_profile runtime) then false
      else
        match extra_view_groups runtime with
        | [] => false
        | group_names => group_profile_exists runtime group_names
        end
  end.

(** [PollBase.any_image]: [None] and the empty string are falsy. *)
Definition any_image (field : list (string * entry)) : bool :=
  existsb (λ kv, match img kv.2 with
                 | Some link => negb (String.eqb link "")
                 | None => false
                 end) field.

(** [total > 1] where the total may be [None] (Python 2 orders [None]
    below every number). *)
Definition plural (total : option Z) : bool :=
  match total with
  | Some n => 1 <? n
  | None => false
  end.

(** ** The read handlers of PollBlock *)

Module PollViews.

(** One item of [load_answers]. *)
Record item : Type := {
  item_key : string;
  item_text : string;
  item_img : option string;
  item_img_alt : option string;
  item_noun : string;
  item_image : bool;
}.

(** [PollBlock.load_answers] *)
Definition load_answers (self : Poll.PollBlock) : list item :=
  (λ kv, {| item_key := kv.1; item_text := label kv.2; item_img := img kv.2;
            item_img_alt := img_alt kv.2; item_noun := "answer"; item_image := true |})
  <$> Poll.answers self.

(** The dictionary returned by [student_voted]. *)
Record voted_state : Type := {
  voted : bool;
  voted_private_results : bool;
}.

(** [PollBlock.student_voted] *)
Definition student_voted (self : Poll.PollBlock) : outcome Poll.PollBlock voted_state :=
  match Poll.get_choice self with
  | Raise e => Raise e
  | Return choice self =>
      Return {| voted := bool_decide (choice ≠ None);
                voted_private_results := private_results (Poll.base self) |} self
  end.

(** The dictionary returned by [get_results]; [res_tally] is [None] for
    the empty dictionary returned when the results are withheld. *)
Record results : Type := {
  res_question : string;
  res_tally : option (list Poll.row);
  res_total : option Z;
  res_feedback : string;
  res_plural : bool;
  res_display_name : string;
  res_any_img : bool;
  res_block_id : string;
}.

Section Rendering.
Variable markdown : string → string.
Variable round_percent : Z → Z → Z.

(** [PollBlock.get_results] *)
Definition get_results (runtime : Runtime) (self : Poll.PollBlock) :
    outcome Poll.PollBlock results :=
  match
    if private_results (Poll.base self) && negb (can_view_private_results runtime)
    then Return (None, None) self
    else
      match Poll.tally_detail markdown round_percent self with
      | Raise e => Raise e
      | Return (detail, total) self => Return (Some detail, Some total) self
      end
  with
  | Raise e => Raise e
  | Return (detail, total) self =>
      Return {| res_question := markdown (Poll.question self);
                res_tally := detail;
                res_total := total;
                res_feedback := markdown (feedback (Poll.base self));
                res_plural := plural total;
                res_display_name := Poll.display_name self;
                res_any_img := any_image (Poll.answers self);
                res_block_id := block_id runtime |} self
  end.
End Rendering.

End PollViews.

(** ** The read handlers of SurveyBlock *)

Module SurveyViews.

(** One item of [load_answers]: no image fields. *)
Record answer_item : Type := {
  answer_key : string;
  answer_text : string;
  answer_noun : string;
  answer_image : bool;
}.

(** [SurveyBlock.load_answers] *)
Definition load_answers (self : Survey.SurveyBlock) : list answer_item :=
  (λ kv, {| answer_key := kv.1; answer_text := kv.2; answer_noun := "answer";
            answer_image := false |})
  <$> Survey.answers self.

(** [SurveyBlock.load_questions] *)
Definition load_questions (self : Survey.SurveyBlock) : list PollViews.item :=
  (λ kv, {| PollViews.item_key := kv.1; PollViews.item_text := label kv.2;
            PollViews.item_img := img kv.2; PollViews.item_img_alt := img_alt kv.2;
            PollViews.item_noun := "question"; PollViews.item_image := true |})
  <$> Survey.questions self.

(** [SurveyBlock.student_voted] *)
Definition student_voted (self : Survey.SurveyBlock) :
    outcome Survey.SurveyBlock PollViews.voted_state :=
  match Survey.get_choices self with
  | Raise e => Raise e
  | Return choices self =>
      Return {| PollViews.voted := bool_decide (choices ≠ None);
                PollViews.voted_private_results := private_results (Survey.base self) |}
        self
  end.

(** One answer of a question in [tally_detail]. *)
Record answer_row : Type := {
  a_count : Z;
  a_choice : bool;
  a_key : string;
  a_top : bool;
  a_percent : Z;
}.

(** One question in [tally_detail]. *)
Record question_row : Type := {
  q_label : string;
  q_img : option string;
  q_img_alt : option string;
  q_answers : list answer_row;
  q_key : string;
  q_choice : bool;
}.

(** [answer['choice'] = True] *)
Definition set_choice (answer : answer_row) : answer_row :=
  {| a_count := a_count answer; a_choice := true; a_key := a_key answer;
     a_top := a_top answer; a_percent := a_percent answer |}.

(** [answer['percent'] = p] *)
Definition set_percent (p : Z) (answer : answer_row) : answer_row :=
  {| a_count := a_count answer; a_choice := a_choice answer; a_key := a_key answer;
     a_top := a_top answer; a_percent := p |}.

(** [answer['top'] = True] *)
Definition set_top (answer : answer_row) : answer_row :=
  {| a_count := a_count answer; a_choice := a_choice answer; a_key := a_key answer;
     a_top := true; a_percent := a_percent answer |}.

Definition set_answers (answers : list answer_row) (question : question_row) :
    question_row :=
  {| q_label := q_label question; q_img := q_img question;
     q_img_alt := q_img_alt question; q_answers := answers; q_key := q_key question;
     q_choice := q_choice question |}.

(** [OrderedDict([(answer, 0) for answer, __ in self.answers])] *)
Definition default_answers (answers : list (string * string)) : list (string * Z) :=
  Poll.ordered_items ((λ kv, (kv.1, 0)) <$> answers).

(** [answer_set = OrderedDict(default_answers); answer_set.update(counters)] *)
Definition answer_set (default_answers : list (string * Z)) (counters : gmap string Z) :
    list (string * Z) :=
  foldl (λ od kv, Poll.od_set kv.1 kv.2 od) default_answers (items counters).

Section Rendering.
(** [markdown.markdown], [round(count / float(total) * 100)] for a total
    other than zero, and the counters that the iteration over the tally
    dictionary yields first (the order of a Python 2 dictionary is that of
    its hash table). *)
Variable markdown : string → string.
Variable round_percent : Z → Z → Z.
Variable first_counters : gmap string (gmap string Z) → option (gmap string Z).

(** The loop of [tally_detail] over the questions. *)
Fixpoint detail_rows (source_tally : gmap string (gmap string Z))
    (default_answers : list (string * Z)) (questions : list (string * entry))
    (tally : list question_row) : tried (list question_row) :=
  match questions with
  | [] => Val tally
  | (key, value) :: rest =>
      counters ← getitem source_tally key;
      detail_rows source_tally default_answers rest
        (tally ++
         [{| q_label := label value; q_img := img value; q_img_alt := img_alt value;
             q_answers :=
               (λ kv, {| a_count := kv.2; a_choice := false; a_key := kv.1;
                         a_top := false; a_percent := 0 |})
               <$> answer_set default_answers counters;
             q_key := key; q_choice := false |}])
  end.

(** The loop over the answers of one question: flags the chosen answer,
    sets the percentages and finds the index of the most popular answer. *)
Fixpoint scan_answers (chosen : option string) (total : Z) (answers : list answer_row)
    (index : nat) (highest : Z) (top_index : option nat) :
    list answer_row * option nat :=
  match answers with
  | [] => ([], top_index)
  | answer :: rest =>
      let answer :=
        if bool_decide (Some (a_key answer) = chosen) then set_choice answer else answer in
      let '(top_index, highest) :=
        if highest <? a_count answer then (Some index, a_count answer)
        else (top_index, highest) in
      let answer :=
        set_percent (if total =? 0 then 0 else round_percent (a_count answer) total)
          answer in
      let '(rest, top_index) := scan_answers chosen total rest (S index) highest top_index in
      (answer :: rest, top_index)
  end.

(** The body of the loop [for question in tally]. *)
Definition mark_question (choices : gmap string string) (total : Z)
    (question : question_row) : question_row :=
  let '(answers, top_index) :=
    scan_answers (choices !! q_key question) total (q_answers question) 0%nat 0 None in
  match top_index with
  | Some i => set_answers (alter set_top i answers) question
  | None => set_answers answers question
  end.

(** [SurveyBlock.tally_detail] *)
Definition tally_detail (self : Survey.SurveyBlock) :
    outcome Survey.SurveyBlock (list question_row * Z) :=
  let questions := Poll.ordered_items (Poll.markdown_items markdown (Survey.questions self)) in
  let default_answers := default_answers (Survey.answers self) in
  let choices := default ∅ (Survey.choices self) in
  let self := Survey.clean_tally self in
  let source_tally := Survey.tally self in
  let total :=
    match first_counters source_tally with
    | Some value => total value
    | None => 0
    end in
  match detail_rows source_tally default_answers questions [] with
  | Throw e => Raise e
  | Val tally => Return (mark_question choices total <$> tally, total) self
  end.

(** The dictionary returned by [get_results]. *)
Record results : Type := {
  res_answers : list (string * string);
  res_tally : option (list question_row);
  res_total : option Z;
  res_feedback : string;
  res_plural : bool;
  res_block_name : string;
  res_block_id : string;
}.

(** [SurveyBlock.get_results] *)
Definition get_results (runtime : Runtime) (self : Survey.SurveyBlock) :
    outcome Survey.SurveyBlock results :=
  match
    if private_results (Survey.base self) && negb (can_view_private_results runtime)
    then Return (None, None) self
    else
      match tally_detail self with
      | Raise e => Raise e
      | Return (detail, total) self => Return (Some detail, Some total) self
      end
  with
  | Raise e => Raise e
  | Return (detail, total) self =>
      Return {| res_answers := Survey.answers self;
                res_tally := detail;
                res_total := total;
                res_feedback := markdown (feedback (Survey.base self));
                res_plural := plural total;
                res_block_name := Survey.block_name self;
                res_block_id := block_id runtime |} self
  end.
End Rendering.

End SurveyViews.

(** ** The outcomes of PollBlock.vote *)

(** Every way in which [PollBlock.vote] can end. *)
Inductive poll_vote_end (data : json) (self : Poll.PollBlock) :
    outcome Poll.PollBlock Result → Prop :=
| vote_already_voted old :
    Poll.get_choice self = Return (Some old) self →
    private_results (Poll.base self) = false →
    poll_vote_end data self (Return (append_error AlreadyVoted (new_result false)) self)
| vote_no_object :
    (∀ members, data ≠ JObj members) →
    poll_vote_end data self (Raise TypeError)
| vote_no_choice members :
    data = JObj members → py_dict members !! "choice" = None →
    poll_vote_end data self
      (Return (append_error AnswerNotIncluded (new_result false)) self)
| vote_unhashable choice :
    subscript data "choice" = Val choice →
    ((∃ l, choice = JArr l) ∨ (∃ l, choice = JObj l)) →
    poll_vote_end data self (Raise TypeError)
| vote_unknown choice :
    subscript data "choice" = Val choice →
    (∀ l, choice ≠ JArr l) → (∀ l, choice ≠ JObj l) →
    (∀ c, choice = JStr c → c ∉ (Poll.answers self).*1) →
    poll_vote_end data self
      (Return (append_error (NoKeyInAnswers choice) (new_result false)) self)
| vote_used_up chosen old :
    subscript data "choice" = Val (JStr chosen) →
    chosen ∈ (Poll.answers self).*1 →
    Poll.get_choice self = Return old self →
    can_vote (if old is Some _ then Poll.base self
              else set_submissions_count 0 (Poll.base self)) = false →
    poll_vote_end data self
      (Return (append_error VotedMaxTimes (new_result false))
         (if old is Some _ then self
          else Poll.set_base (set_submissions_count 0 (Poll.base self)) self))
| vote_counted chosen old r self' :
    subscript data "choice" = Val (JStr chosen) →
    chosen ∈ (Poll.answers self).*1 →
    Poll.get_choice self = Return old self →
    can_vote (if old is Some _ then Poll.base self
              else set_submissions_count 0 (Poll.base self)) = true →
    success r = true → errors r = [] →
    Poll.choice self' = Some chosen →
    Poll.answers self' = Poll.answers self →
    Poll.base self' =
      set_submissions_count
        ((if old is Some _ then submissions_count (Poll.base self) else 0) + 1)
        (Poll.base self) →
    r_can_vote r = Some (can_vote (Poll.base self')) →
    r_submissions_count r = Some (submissions_count (Poll.base self')) →
    r_max_submissions r = Some (max_submissions (Poll.base self')) →
    poll_vote_end data self (Return r self').

(** ** The outcomes of SurveyBlock.vote *)

(** The block in which [SurveyBlock.vote] goes on after [get_choices]:
    without choices the submission count has been reset. *)
Definition after_choices (old : option (gmap string string))
    (selfG : Survey.SurveyBlock) : Survey.SurveyBlock :=
  if negb (Survey.nonempty old)
  then Survey.set_base (set_submissions_count 0 (Survey.base selfG)) selfG
  else selfG.

(** The four checks of [SurveyBlock.vote]. *)
Definition vote_accepted (self : Survey.SurveyBlock) (old : option (gmap string string))
    (selfG : Survey.SurveyBlock) (d : gmap string json) : Prop :=
  (Survey.nonempty old = true → private_results (Survey.base selfG) = true) ∧
  can_vote (Survey.base (after_choices old selfG)) = true ∧
  dom d = list_to_set (Survey.questions self).*1 ∧
  ∀ q v, d !! q = Some v → ∃ a, v = JStr a ∧ a ∈ (Survey.answers self).*1.

(** Every way in which [SurveyBlock.vote] can end. *)
Inductive survey_vote_end (data : json) (self : Survey.SurveyBlock) :
    outcome Survey.SurveyBlock Result → Prop :=
| survey_choices_raise e :
    Survey.get_choices self = Raise e →
    survey_vote_end data self (Raise e)
| survey_no_object old selfG :
    Survey.get_choices self = Return old selfG →
    (∀ members, data ≠ JObj members) →
    survey_vote_end data self (Raise AttributeError)
| survey_rejected old selfG members r :
    Survey.get_choices self = Return old selfG →
    data = JObj members →
    ¬ vote_accepted self old selfG (py_dict members) →
    success r = false → errors r ≠ [] →
    r_can_vote r = Some (can_vote (Survey.base (after_choices old selfG))) →
    (Survey.nonempty old = true → private_results (Survey.base selfG) = false →
     AlreadyVoted ∈ errors r) →
    (can_vote (Survey.base (after_choices old selfG)) = false →
     VotedMaxTimes ∈ errors r) →
    (dom (py_dict members) ≠ list_to_set (Survey.questions self).*1 →
     NotAllQuestions ∈ errors r) →
    (∀ q v, py_dict members !! q = Some v →
            (∀ a, v = JStr a → a ∉ (Survey.answers self).*1) →
            UnknownAnswer q v ∈ errors r) →
    survey_vote_end data self (Return r (after_choices old selfG))
| survey_remove_raise old selfG members e :
    Survey.get_choices self = Return old selfG →
    data = JObj members →
    vote_accepted self old selfG (py_dict members) →
    Survey.nonempty (Survey.choices selfG) = true →
    Survey.remove_vote (after_choices old selfG) = Raise e →
    survey_vote_end data self (Raise e)
| survey_counted old selfG members r self' :
    Survey.get_choices self = Return old selfG →
    data = JObj members →
    vote_accepted self old selfG (py_dict members) →
    success r = true → errors r = [] →
    Survey.choices self' = Some (Survey.as_choices (py_dict members)) →
    Survey.questions self' = Survey.questions self →
    Survey.answers self' = Survey.answers self →
    Survey.base self' =
      set_submissions_count
        (submissions_count (Survey.base (after_choices old selfG)) + 1)
        (Survey.base selfG) →
    (∀ q a, q ∈ (Survey.questions self).*1 → a ∈ (Survey.answers self).*1 →
            is_Some (Survey.tally self' !! q ≫= (.!! a))) →
    r_can_vote r = Some (can_vote (Survey.base self')) →
    r_submissions_count r = Some (submissions_count (Survey.base self')) →
    r_max_submissions r = Some (max_submissions (Survey.base self')) →
    survey_vote_end data self (Return r self').

(** The counters in which the stored choices were counted are in the tally. *)
Definition counters_present (self : Survey.SurveyBlock) : Prop :=
  ∀ c q a, Survey.choices self = Some c → c !! q = Some a →
           q ∈ (Survey.questions self).*1 → a ∈ (Survey.answers self).*1 →
           is_Some (Survey.tally self !! q ≫= (.!! a)).

(** ** What a successful studio_submit stores *)

(** [kv] is what [gather_items] stores for the submitted [item] when it
    passes every check: the stripped fields of an object with a key, with a
    label or (where images are allowed) an image, and with alternative text
    for the image where that is mandatory. *)
Definition gathered (strip : string → string) (self : PollBase) (image : bool)
    (item : json) (kv : item_type image) : Prop :=
  ∃ members key label image_link image_alt,
    item = JObj members ∧
    get_strip strip (py_dict members) "key" = Val key ∧
    get_strip strip (py_dict members) "label" = Val label ∧
    get_strip strip (py_dict members) "img" = Val image_link ∧
    get_strip strip (py_dict members) "img_alt" = Val image_alt ∧
    kv = make_item image key label image_link image_alt ∧
    key ≠ "" ∧
    (label ≠ "" ∨ (image = true ∧ image_link ≠ "")) ∧
    (image_link ≠ "" → image_alt = "" → truthy (img_alt_mandatory self) = false).

(** The item that [load_answers] or [load_questions] returns for a
    submitted [item]. *)
Definition loaded_from (strip : string → string) (item : json) (li : PollViews.item) :
    Prop :=
  ∃ members image_link image_alt,
    item = JObj members ∧
    get_strip strip (py_dict members) "key" = Val (PollViews.item_key li) ∧
    get_strip strip (py_dict members) "label" = Val (PollViews.item_text li) ∧
    get_strip strip (py_dict members) "img" = Val image_link ∧
    PollViews.item_img li = Some image_link ∧
    get_strip strip (py_dict members) "img_alt" = Val image_alt ∧
    PollViews.item_img_alt li = Some image_alt ∧
    PollViews.item_key li ≠ "" ∧
    (PollViews.item_text li ≠ "" ∨ image_link ≠ "").

(** The same for the answers of a survey, which have no image. *)
Definition answer_loaded_from (strip : string → string) (item : json)
    (li : SurveyViews.answer_item) : Prop :=
  ∃ members,
    item = JObj members ∧
    get_strip strip (py_dict members) "key" = Val (SurveyViews.answer_key li) ∧
    get_strip strip (py_dict members) "label" = Val (SurveyViews.answer_text li) ∧
    SurveyViews.answer_key li ≠ "" ∧
    SurveyViews.answer_text li ≠ "".

(** Studio forms that pass every check. *)
Module StudioForms.

Definition soup : json := JObj [("key", JStr "S"); ("label", JStr "Soup")].

Definition salad : json :=
  JObj [("key", JStr "L"); ("label", JStr ""); ("img", JStr "/static/salad.png");
        ("img_alt", JStr "A bowl of salad")].

Definition today : json := JObj [("key", JStr "today"); ("label", JStr "Today?")].

Definition poll_form : json :=
  JObj [("display_name", JStr "Lunch"); ("question", JStr "Soup or salad?");
        ("feedback", JStr "Thank you."); ("private_results", JBool true);
        ("max_submissions", JNum 3); ("answers", JArr [soup; salad])].

Definition survey_form : json :=
  JObj [("display_name", JStr "Lunch"); ("feedback", JStr "Thank you.");
        ("max_submissions", JNum 1); ("answers", JArr [soup]);
        ("questions", JArr [today; salad])].

End StudioForms.

(** ** The rows of tally_detail *)

(** The row that the first loop of [tally_detail] appends for an answer. *)
Definition fresh_row (t : gmap string Z) (kv : string * entry) (r : Poll.row) : Prop :=
  Poll.key r = kv.1 ∧ Poll.answer r = label kv.2 ∧ Poll.row_img r = img kv.2 ∧
  Poll.row_img_alt r = img_alt kv.2 ∧ t !! kv.1 = Some (Poll.count r) ∧
  Poll.first r = false ∧ Poll.is_choice r = false ∧ Poll.last r = false.

(** The question that the first loop of [SurveyBlock.tally_detail] appends. *)
Definition fresh_question (t : gmap string (gmap string Z))
    (default_answers : list (string * Z)) (kv : string * entry)
    (q : SurveyViews.question_row) : Prop :=
  SurveyViews.q_key q = kv.1 ∧ SurveyViews.q_label q = label kv.2 ∧
  SurveyViews.q_img q = img kv.2 ∧ SurveyViews.q_img_alt q = img_alt kv.2 ∧
  SurveyViews.q_choice q = false ∧
  ∃ counters,
    t !! kv.1 = Some counters ∧
    SurveyViews.q_answers q =
      (λ kc, {| SurveyViews.a_count := kc.2; SurveyViews.a_choice := false;
                SurveyViews.a_key := kc.1; SurveyViews.a_top := false;
                SurveyViews.a_percent := 0 |})
      <$> SurveyViews.answer_set default_answers counters.

(** The flags that the loop over the answers sets, except for [top]. *)
Definition flag_answer (round_percent : Z → Z → Z) (chosen : option string) (total : Z)
    (answer : SurveyViews.answer_row) : SurveyViews.answer_row :=
  let answer :=
    if bool_decide (Some (SurveyViews.a_key answer) = chosen)
    then SurveyViews.set_choice answer else answer in
  SurveyViews.set_percent
    (if total =? 0 then 0 else round_percent (SurveyViews.a_count answer) total) answer.

(** The answer at index [i] is the first one with the largest count, and
    that count is above [highest]. *)
Definition first_highest (highest : Z) (answers : list SurveyViews.answer_row) (i : nat) :
    Prop :=
  ∃ a, answers !! i = Some a ∧ highest < SurveyViews.a_count a ∧
       (∀ j b, answers !! j = Some b → SurveyViews.a_count b ≤ SurveyViews.a_count a) ∧
       (∀ j b, (j < i)%nat → answers !! j = Some b →
               SurveyViews.a_count b < SurveyViews.a_count a).

(** The default poll after three votes, one of them by this user, and a
    stand-in for the rounded percentage. *)
Module Votes.

Definition voted_poll : Poll.PollBlock :=
  Poll.set_choice (Some "B")
    (Poll.set_tally {[ "R" := 1; "B" := 2; "G" := 0; "O" := 0 ]}
       (Poll.set_base (set_submissions_count 1 Examples.default_base)
          Examples.default_poll)).

Definition whole_percent (count total : Z) : Z := count * 100 / total.

(** The default survey after three users have answered it. *)
Definition voted_survey : Survey.SurveyBlock :=
  Survey.set_choices (Some {[ "enjoy" := "Y"; "recommend" := "M"; "learn" := "Y" ]})
    (Survey.set_tally
       {[ "enjoy" := {[ "Y" := 2; "N" := 1; "M" := 0 ]};
          "recommend" := {[ "Y" := 1; "N" := 1; "M" := 1 ]};
          "learn" := {[ "Y" := 3; "N" := 0; "M" := 0 ]} ]}
       (Survey.set_base (set_submissions_count 1 Examples.default_base)
          Examples.default_survey)).

(** The same blocks with private results. *)
Definition private_base : PollBase :=
  {| private_results := true; max_submissions := 1; submissions_count := 1;
     feedback := ""; settings_service := None |}.

Definition private_poll : Poll.PollBlock := Poll.set_base private_base voted_poll.

Definition private_survey : Survey.SurveyBlock := Survey.set_base private_base voted_survey.

(** A student and a member of the course staff, on a host without group
    profiles. *)
Definition student : Runtime :=
  {| user_is_staff := Some false; has_group_profile := false; extra_view_groups := [];
     group_profile_exists := λ _, false; block_id := "b1" |}.

Definition staff : Runtime :=
  {| user_is_staff := Some true; has_group_profile := false; extra_view_groups := [];
     group_profile_exists := λ _, false; block_id := "b1" |}.

(** An iteration order for the tally: the counters of the first entry of
    the map. *)
Definition first_item (t : gmap string (gmap string Z)) : option (gmap string Z) :=
  snd <$> head (map_to_list t).

End Votes.

(** * Properties *)

(** ** Dictionaries *)

Lemma py_dict_snoc {V} (l : list (string * V)) k v :
  py_dict (l ++ [(k, v)]) = <[k := v]> (py_dict l).
Proof. unfold py_dict. by rewrite foldl_app. Qed.

Lemma py_dict_is_Some {V} (l : list (string * V)) k :
  is_Some (py_dict l !! k) ↔ k ∈ l.*1.
Proof.
  induction l as [|[k' v'] l IH] using rev_ind.
  - unfold py_dict; simpl. rewrite lookup_empty. split; [by intros [? ?]|]. by intros ?%elem_of_nil.
  - rewrite py_dict_snoc, fmap_app, elem_of_app. simpl.
    rewrite list_elem_of_singleton, lookup_insert_is_Some, IH.
    split.
    + intros [-> | [_ ?]]; [by right | by left].
    + intros [?| ->]; [|by left]. destruct (decide (k' = k)); auto.
Qed.

Lemma py_dict_None {V} (l : list (string * V)) k :
  py_dict l !! k = None ↔ k ∉ l.*1.
Proof. rewrite <-py_dict_is_Some, eq_None_not_Some. done. Qed.

Lemma elem_of_keys {V} (d : gmap string V) k : k ∈ keys d ↔ is_Some (d !! k).
Proof.
  unfold keys. rewrite list_elem_of_fmap. split.
  - intros [[k' v] [-> Hin]]. apply elem_of_map_to_list in Hin. by eexists.
  - intros [v Hv]. exists (k, v). split; [done|]. by apply elem_of_map_to_list.
Qed.

Lemma dom_py_dict {V} (l : list (string * V)) :
  dom (py_dict l) = list_to_set l.*1.
Proof.
  apply set_eq. intros k.
  by rewrite elem_of_dom, py_dict_is_Some, elem_of_list_to_set.
Qed.

(** ** C9: can_vote *)

(** C9. [can_vote] returns True exactly when [max_submissions] is 0 or
    [submissions_count] is below [max_submissions]; with a limit of 0
    voting is always permitted, and with the default limit of 1 a user
    who has submitted at least once may not vote. *)
Theorem can_vote_spec :
  (∀ self : PollBase,
     can_vote self = true ↔
     max_submissions self = 0 ∨ submissions_count self < max_submissions self) ∧
  (∀ self : PollBase, max_submissions self = 0 → can_vote self = true) ∧
  (∀ self : PollBase,
     max_submissions self = 1 → 1 ≤ submissions_count self → can_vote self = false).
Proof.
  unfold can_vote. split; [|split].
  - intros self. rewrite orb_true_iff, Z.eqb_eq, Z.ltb_lt. done.
  - intros self ->. done.
  - intros self -> Hc. apply orb_false_iff. split; [done|]. by apply Z.ltb_ge.
Qed.

(** ** PollBlock.clean_tally *)

Lemma if_bool_decide_ext_key (k key : string) ks :
  k ≠ key →
  (if bool_decide (k ∈ ks) then Some 0 else None) =
  (if bool_decide (k ∈ key :: ks) then Some 0 else @None Z).
Proof.
  intros Hne. rewrite (bool_decide_ext (k ∈ key :: ks) (k ∈ ks)); [done|].
  rewrite elem_of_cons. split; [by intros [?|?] | by right].
Qed.

Lemma add_missing_lookup ks (t : gmap string Z) k :
  Poll.add_missing ks t !! k =
  match t !! k with
  | Some c => Some c
  | None => if bool_decide (k ∈ ks) then Some 0 else None
  end.
Proof.
  revert t. induction ks as [|key ks IH]; intros t; simpl.
  - by destruct (t !! k).
  - unfold Poll.add_missing in *. simpl. rewrite IH. clear IH.
    destruct (t !! key) eqn:Hkey.
    + destruct (t !! k) eqn:Hk; [done|].
      assert (k ≠ key) by congruence.
      apply if_bool_decide_ext_key; done.
    + destruct (decide (key = k)) as [->|Hne].
      * rewrite lookup_insert_eq, Hkey, bool_decide_true; [done|by left].
      * rewrite lookup_insert_ne by done. destruct (t !! k); [done|].
        apply if_bool_decide_ext_key; done.
Qed.

Lemma foldl_drop_lookup {V W} (ref : gmap string W) ks (t : gmap string V) k :
  foldl (λ t key, match ref !! key with None => delete key t | Some _ => t end) t ks !! k =
  if bool_decide (k ∈ ks) && bool_decide (ref !! k = None) then None else t !! k.
Proof.
  revert t. induction ks as [|key ks IH]; intros t; [done|].
  simpl. rewrite IH. clear IH.
  destruct (decide (key = k)) as [->|Hne].
  - rewrite (bool_decide_true (k ∈ k :: ks)) by left.
    destruct (ref !! k) eqn:Ha.
    + rewrite (bool_decide_false (Some _ = None)) by done. by rewrite andb_false_r.
    + rewrite lookup_delete_eq. by destruct (bool_decide (k ∈ ks)).
  - assert (bool_decide (k ∈ key :: ks) = bool_decide (k ∈ ks)) as ->.
    { apply bool_decide_ext. rewrite elem_of_cons. split; [by intros [?|?] | by right]. }
    destruct (ref !! key); [done|]. by rewrite lookup_delete_ne.
Qed.

Lemma poll_drop_stale_lookup (answers : gmap string entry) ks (t : gmap string Z) k :
  Poll.drop_stale answers ks t !! k =
  if bool_decide (k ∈ ks) && bool_decide (answers !! k = None) then None else t !! k.
Proof. apply foldl_drop_lookup. Qed.

Lemma poll_clean_tally_lookup (self : Poll.PollBlock) k :
  Poll.tally (Poll.clean_tally self) !! k =
  if bool_decide (k ∈ (Poll.answers self).*1)
  then Some (default 0 (Poll.tally self !! k))
  else None.
Proof.
  unfold Poll.clean_tally. simpl.
  rewrite poll_drop_stale_lookup, add_missing_lookup.
  destruct (decide (k ∈ (Poll.answers self).*1)) as [Hin|Hin].
  - rewrite (bool_decide_true _ Hin).
    apply py_dict_is_Some in Hin as Hs. destruct Hs as [e He].
    rewrite He, (bool_decide_false (Some e = None)) by done. rewrite andb_false_r.
    rewrite (bool_decide_true (k ∈ keys _)); [by destruct (Poll.tally self !! k)|].
    apply elem_of_keys. by eexists.
  - rewrite (bool_decide_false _ Hin).
    apply py_dict_None in Hin as Hn. rewrite Hn.
    rewrite (bool_decide_true (None = None)) by done. rewrite andb_true_r.
    rewrite (bool_decide_false (k ∈ keys (py_dict _))).
    2:{ rewrite elem_of_keys, Hn. by intros [? ?]. }
    destruct (Poll.tally self !! k) eqn:Hk; [|by destruct (bool_decide _)].
    rewrite bool_decide_true; [done|].
    rewrite elem_of_keys, add_missing_lookup, Hk. by eexists.
Qed.

Lemma poll_clean_tally_dom (self : Poll.PollBlock) :
  dom (Poll.tally (Poll.clean_tally self)) = list_to_set (Poll.answers self).*1.
Proof.
  apply set_eq. intros k.
  rewrite elem_of_dom, poll_clean_tally_lookup, elem_of_list_to_set.
  case_bool_decide; split; try done; try (by eexists); by intros [? ?].
Qed.

Lemma poll_clean_tally_fields (self : Poll.PollBlock) :
  Poll.base (Poll.clean_tally self) = Poll.base self ∧
  Poll.answers (Poll.clean_tally self) = Poll.answers self ∧
  Poll.choice (Poll.clean_tally self) = Poll.choice self.
Proof. done. Qed.

(** ** SurveyBlock.clean_tally *)

Lemma NoDup_keys {V} (d : gmap string V) : NoDup (keys d).
Proof. apply NoDup_fst_map_to_list. Qed.

Lemma default_answers_lookup (answers : gmap string string) a :
  Survey.default_answers answers !! a =
  if bool_decide (is_Some (answers !! a)) then Some 0 else None.
Proof.
  unfold Survey.default_answers.
  rewrite (bool_decide_ext _ (a ∈ keys answers)) by (by rewrite elem_of_keys).
  assert (∀ ks (d : gmap string Z),
    foldl (λ d answer, <[answer := 0]> d) d ks !! a =
    if bool_decide (a ∈ ks) then Some 0 else d !! a) as Hfold.
  { induction ks as [|x ks IH]; intros d; [done|]. simpl. rewrite IH.
    destruct (decide (x = a)) as [->|Hne].
    - rewrite lookup_insert_eq, (bool_decide_true (a ∈ a :: ks)) by left.
      by destruct (bool_decide (a ∈ ks)).
    - rewrite lookup_insert_ne by done. apply (f_equal (λ b : bool, if b then _ else _)).
      apply bool_decide_ext. rewrite elem_of_cons. split; [by right | by intros [?|?]]. }
  by rewrite Hfold, lookup_empty.
Qed.

Lemma foldl_insert_lookup (l : list (string * Z)) (d : gmap string Z) k :
  NoDup l.*1 →
  foldl (λ d kv, <[kv.1 := kv.2]> d) d l !! k =
  match (list_to_map l : gmap string Z) !! k with
  | Some v => Some v
  | None => d !! k
  end.
Proof.
  revert d. induction l as [|[k' v'] l IH]; intros d Hnd; [done|].
  apply NoDup_cons in Hnd as [Hk' Hnd]. simpl. rewrite IH by done.
  destruct (decide (k' = k)) as [->|Hne].
  - rewrite !lookup_insert_eq. by rewrite (not_elem_of_list_to_map_1 _ _ Hk').
  - by rewrite !lookup_insert_ne.
Qed.

Lemma update_lookup (d other : gmap string Z) k :
  Survey.update d other !! k =
  match other !! k with
  | Some v => Some v
  | None => d !! k
  end.
Proof.
  unfold Survey.update, items.
  rewrite foldl_insert_lookup by apply NoDup_fst_map_to_list.
  by rewrite list_to_map_to_list.
Qed.

Lemma new_answers_lookup (defaults existing : gmap string Z) a :
  Survey.new_answers defaults existing !! a =
  match defaults !! a with
  | Some c => Some (default c (existing !! a))
  | None => None
  end.
Proof.
  unfold Survey.new_answers.
  rewrite foldl_drop_lookup, update_lookup.
  destruct (defaults !! a) as [c|] eqn:Hd.
  - rewrite (bool_decide_false (Some c = None)) by done. rewrite andb_false_r.
    by destruct (existing !! a).
  - rewrite (bool_decide_true (None = None)) by done. rewrite andb_true_r.
    destruct (existing !! a) eqn:He.
    + rewrite bool_decide_true; [done|]. apply elem_of_keys. by eexists.
    + by destruct (bool_decide _).
Qed.

Lemma clean_questions_lookup (defaults : gmap string Z) ks
    (t : gmap string (gmap string Z)) q :
  NoDup ks →
  Survey.clean_questions defaults ks t !! q =
  if bool_decide (q ∈ ks)
  then Some (match t !! q with
             | None => defaults
             | Some existing => Survey.new_answers defaults existing
             end)
  else t !! q.
Proof.
  revert t. induction ks as [|key ks IH]; intros t Hnd; [done|].
  apply NoDup_cons in Hnd as [Hkey Hnd].
  unfold Survey.clean_questions in *. simpl. rewrite IH by done. clear IH.
  destruct (decide (key = q)) as [->|Hne].
  - rewrite (bool_decide_false (q ∈ ks)) by done.
    rewrite (bool_decide_true (q ∈ q :: ks)) by left.
    destruct (t !! q); by rewrite lookup_insert_eq.
  - assert (bool_decide (q ∈ key :: ks) = bool_decide (q ∈ ks)) as ->.
    { apply bool_decide_ext. rewrite elem_of_cons. split; [by intros [?|?] | by right]. }
    by destruct (t !! key); rewrite lookup_insert_ne.
Qed.

(** The counters of one question after reconciliation. *)
Lemma survey_clean_tally_lookup (self : Survey.SurveyBlock) q :
  Survey.tally (Survey.clean_tally self) !! q =
  if bool_decide (q ∈ (Survey.questions self).*1)
  then Some (match Survey.tally self !! q with
             | None => Survey.default_answers (py_dict (Survey.answers self))
             | Some existing =>
                 Survey.new_answers
                   (Survey.default_answers (py_dict (Survey.answers self))) existing
             end)
  else None.
Proof.
  unfold Survey.clean_tally, Survey.drop_stale. simpl.
  rewrite foldl_drop_lookup, clean_questions_lookup by apply NoDup_keys.
  destruct (decide (q ∈ (Survey.questions self).*1)) as [Hin|Hin].
  - rewrite (bool_decide_true _ Hin).
    apply py_dict_is_Some in Hin as Hs. destruct Hs as [e He].
    rewrite He, (bool_decide_false (Some e = None)) by done. rewrite andb_false_r.
    rewrite (bool_decide_true (q ∈ keys _)); [done|].
    apply elem_of_keys. by eexists.
  - rewrite (bool_decide_false _ Hin).
    apply py_dict_None in Hin as Hn. rewrite Hn.
    rewrite (bool_decide_true (None = None)) by done. rewrite andb_true_r.
    rewrite (bool_decide_false (q ∈ keys (py_dict _))).
    2:{ rewrite elem_of_keys, Hn. by intros [? ?]. }
    destruct (Survey.tally self !! q) eqn:Hq; [|by destruct (bool_decide _)].
    rewrite bool_decide_true; [done|].
    rewrite elem_of_keys. unfold Survey.clean_questions.
    fold (Survey.clean_questions (Survey.default_answers (py_dict (Survey.answers self)))
            (keys (py_dict (Survey.questions self))) (Survey.tally self)).
    rewrite clean_questions_lookup by apply NoDup_keys.
    rewrite Hq. by destruct (bool_decide _).
Qed.

(** One counter after reconciliation. *)
Lemma survey_clean_tally_counter (self : Survey.SurveyBlock) q a :
  Survey.tally (Survey.clean_tally self) !! q ≫= (.!! a) =
  if bool_decide (q ∈ (Survey.questions self).*1)
     && bool_decide (a ∈ (Survey.answers self).*1)
  then Some (default 0 (Survey.tally self !! q ≫= (.!! a)))
  else None.
Proof.
  rewrite survey_clean_tally_lookup.
  destruct (bool_decide (q ∈ (Survey.questions self).*1)); [|done]. simpl.
  assert (Survey.default_answers (py_dict (Survey.answers self)) !! a =
          if bool_decide (a ∈ (Survey.answers self).*1) then Some 0 else None) as Hdef.
  { rewrite default_answers_lookup. apply (f_equal (λ b : bool, if b then _ else _)).
    apply bool_decide_ext, py_dict_is_Some. }
  destruct (Survey.tally self !! q) as [existing|]; simpl.
  - rewrite new_answers_lookup, Hdef. by destruct (bool_decide _).
  - done.
Qed.

(** ** C3: clean_tally *)

(** C3. After [clean_tally] the key set of the stored tally is exactly the
    set of configured answer keys (PollBlock) or question keys
    (SurveyBlock, where the counters of each question have exactly the
    configured answer keys); a key that was present keeps its count and a
    key introduced by the configuration maps to 0. *)
Theorem clean_tally_reconciles :
  (∀ self : Poll.PollBlock,
     dom (Poll.tally (Poll.clean_tally self)) = list_to_set (Poll.answers self).*1 ∧
     ∀ k, Poll.tally (Poll.clean_tally self) !! k =
          if bool_decide (k ∈ (Poll.answers self).*1)
          then Some (default 0 (Poll.tally self !! k))
          else None) ∧
  (∀ self : Survey.SurveyBlock,
     dom (Survey.tally (Survey.clean_tally self)) =
       list_to_set (Survey.questions self).*1 ∧
     ∀ q, dom <$> Survey.tally (Survey.clean_tally self) !! q =
            (if bool_decide (q ∈ (Survey.questions self).*1)
             then Some (list_to_set (Survey.answers self).*1)
             else None) ∧
          ∀ a, Survey.tally (Survey.clean_tally self) !! q ≫= (.!! a) =
               if bool_decide (q ∈ (Survey.questions self).*1)
                  && bool_decide (a ∈ (Survey.answers self).*1)
               then Some (default 0 (Survey.tally self !! q ≫= (.!! a)))
               else None).
Proof.
  split.
  - intros self. split; [apply poll_clean_tally_dom | apply poll_clean_tally_lookup].
  - intros self. split.
    + apply set_eq. intros q.
      rewrite elem_of_dom, survey_clean_tally_lookup, elem_of_list_to_set.
      case_bool_decide; split; try done; try (by eexists); by intros [? ?].
    + intros q. split; [|apply survey_clean_tally_counter].
      pose proof (survey_clean_tally_counter self q) as Hc.
      pose proof (survey_clean_tally_lookup self q) as Hl.
      destruct (Survey.tally (Survey.clean_tally self) !! q) as [sub|] eqn:Hsub;
        destruct (bool_decide (q ∈ (Survey.questions self).*1)) eqn:Hq; simpl in *.
      * f_equal. apply set_eq. intros a. specialize (Hc a).
        rewrite elem_of_dom, elem_of_list_to_set, Hc.
        case_bool_decide; split; try done; try (by eexists); by intros [? ?].
      * done.
      * done.
      * done.
Qed.

(** ** Sums of counters *)

Lemma total_insert_fresh (t : gmap string Z) k c :
  t !! k = None → total (<[k := c]> t) = c + total t.
Proof.
  intros Hk. unfold total. rewrite map_fold_insert_L; [done| |done].
  intros; lia.
Qed.

Lemma total_insert (t : gmap string Z) k c n :
  t !! k = Some c → total (<[k := c + n]> t) = total t + n.
Proof.
  intros Hk.
  rewrite <-(insert_delete_eq t k (c + n)).
  rewrite <-(insert_id t k c Hk) at 2. rewrite <-(insert_delete_eq t k c).
  rewrite !total_insert_fresh by apply lookup_delete_eq. lia.
Qed.

(** ** PollBlock.get_choice *)

Lemma poll_get_choice_cases (self : Poll.PollBlock) :
  (∃ c, Poll.choice self = Some c ∧ c ≠ "" ∧ c ∈ (Poll.answers self).*1 ∧
        Poll.get_choice self = Return (Some c) self) ∨
  ((∀ c, Poll.choice self = Some c → ¬ (c ≠ "" ∧ c ∈ (Poll.answers self).*1)) ∧
   Poll.get_choice self = Return None self).
Proof.
  unfold Poll.get_choice. destruct (Poll.choice self) as [c|]; [|by right].
  destruct (String.eqb_spec c "") as [->|Hne]; simpl.
  - right. split; [|done]. intros c [= <-] [? _]. done.
  - case_bool_decide as Hin.
    + left. exists c. by rewrite <-py_dict_is_Some.
    + right. split; [|done]. intros c' [= <-] [_ ?]. by apply Hin, py_dict_is_Some.
Qed.

(** ** C5: get_choice *)

(** C5. [get_choice] returns the stored choice exactly when it is not
    empty and is a key of the configured answers, and None otherwise; the
    block is left as it was. *)
Theorem get_choice_spec (self : Poll.PollBlock) (c : string) :
  Poll.choice self = Some c →
  (Poll.get_choice self = Return (Some c) self ↔
     c ≠ "" ∧ c ∈ (Poll.answers self).*1) ∧
  (¬ (c ≠ "" ∧ c ∈ (Poll.answers self).*1) → Poll.get_choice self = Return None self) ∧
  (∃ r, Poll.get_choice self = Return r self).
Proof.
  intros Hc.
  destruct (poll_get_choice_cases self) as [(c' & Hc' & Hne & Hin & Hget)|[Hbad Hget]].
  - assert (c' = c) as -> by congruence. rewrite Hget.
    split; [done|]. split; [|by eexists]. intros []. done.
  - rewrite Hget. split; [|split; [done | by eexists]].
    split; [done|]. intros ?. by destruct (Hbad c Hc).
Qed.

(** ** PollBlock.vote *)


(** C1 (as amended). A successful [PollBlock.vote] on a submitted choice
    that is an answer key stores that choice and counts it against the
    reconciled tally, the stored tally after [clean_tally]: the counter of
    the submitted choice goes up by 1 and, on a re-vote (possible only with
    private results), the counter of the still-valid previous choice goes
    down by 1; every other counter is unchanged.  On a re-vote
    [submissions_count] goes up by 1 and the sum of the reconciled counters
    is unchanged; on a first or invalidated vote [submissions_count]
    becomes 1 and the sum of the reconciled counters goes up by 1. *)
Theorem poll_vote_counts_against_reconciled_tally
    (data : json) (self self' : Poll.PollBlock) (r : Result) :
  Poll.vote data self = Return r self' → success r = true →
  ∃ chosen old,
    subscript data "choice" = Val (JStr chosen) ∧
    chosen ∈ (Poll.answers self).*1 ∧
    Poll.get_choice self = Return old self ∧
    Poll.choice self' = Some chosen ∧
    (∀ k, Poll.tally self' !! k =
          (λ n, n + (if bool_decide (k = chosen) then 1 else 0)
                  - (if bool_decide (old = Some k) then 1 else 0))
          <$> Poll.tally (Poll.clean_tally self) !! k) ∧
    match old with
    | None =>
        submissions_count (Poll.base self') = 1 ∧
        total (Poll.tally self') = total (Poll.tally (Poll.clean_tally self)) + 1
    | Some _ =>
        private_results (Poll.base self) = true ∧
        submissions_count (Poll.base self') = submissions_count (Poll.base self) + 1 ∧
        total (Poll.tally self') = total (Poll.tally (Poll.clean_tally self))
    end.
Proof.
  unfold Poll.vote.
  destruct (poll_get_choice_cases self) as [(old & Hold & Hne & Hin & ->)|[Hbad ->]].
  - (* a re-vote *)
    rewrite bool_decide_true by done. simpl.
    destruct (private_results (Poll.base self)) eqn:Hpriv; simpl;
      [|by intros [= <- <-]].
    destruct (subscript data "choice") as [[]|choice]; try done; [by intros [= <- <-]|].
    destruct choice as [| | |chosen| |]; simpl; try done; try (by intros [= <- <-]).
    unfold getitem. destruct (py_dict (Poll.answers self) !! chosen) as [e|] eqn:He;
      [|by intros [= <- <-]].
    destruct (can_vote (Poll.base self)); simpl; [|by intros [= <- <-]].
    assert (chosen ∈ (Poll.answers self).*1) as Hchosen.
    { apply py_dict_is_Some. by eexists. }
    unfold iadd. simpl.
    change (Poll.drop_stale _ _ _) with (Poll.tally (Poll.clean_tally self)).
    pose proof (poll_clean_tally_lookup self old) as Hto.
    rewrite bool_decide_true in Hto by done. rewrite Hto.
    set (t0 := Poll.tally (Poll.clean_tally self)) in *.
    set (co := default 0 (Poll.tally self !! old)) in *.
    set (t1 := <[old := co + -1]> t0).
    assert (∃ cc, t1 !! chosen = Some cc) as [cc Hcc].
    { pose proof (poll_clean_tally_lookup self chosen) as Htc.
      rewrite bool_decide_true in Htc by done. fold t0 in Htc.
      unfold t1. destruct (decide (old = chosen)) as [->|Hoc].
      - rewrite lookup_insert_eq. by eexists.
      - rewrite lookup_insert_ne by done. by eexists. }
    rewrite Hcc. intros [= <- <-] _. simpl.
    exists chosen, (Some old). repeat split; try done.
    + intros k. unfold t1 in *.
      destruct (decide (k = chosen)) as [->|Hkc].
      * rewrite lookup_insert_eq, bool_decide_true by done.
        destruct (decide (old = chosen)) as [->|Hoc].
        -- rewrite lookup_insert_eq in Hcc. injection Hcc as <-.
           rewrite Hto, bool_decide_true by done. simpl. f_equal. lia.
        -- rewrite lookup_insert_ne in Hcc by done. rewrite Hcc.
           rewrite bool_decide_false by congruence. simpl. f_equal. lia.
      * rewrite lookup_insert_ne by done. rewrite (bool_decide_false (k = chosen)) by done.
        destruct (decide (old = k)) as [->|Hok].
        -- rewrite lookup_insert_eq, Hto, bool_decide_true by done. simpl. f_equal. lia.
        -- rewrite lookup_insert_ne by done.
           rewrite bool_decide_false by congruence.
           destruct (t0 !! k); simpl; f_equal. lia.
    + unfold t1 in *. rewrite (total_insert _ _ _ _ Hcc).
      rewrite (total_insert _ _ _ _ Hto). lia.
  - (* a first vote, or the old choice is gone *)
    rewrite bool_decide_false by (by intros []). simpl.
    destruct (subscript data "choice") as [[]|choice]; try done; [by intros [= <- <-]|].
    destruct choice as [| | |chosen| |]; simpl; try done; try (by intros [= <- <-]).
    unfold getitem. destruct (py_dict (Poll.answers self) !! chosen) as [e|] eqn:He;
      [|by intros [= <- <-]].
    destruct (can_vote _); simpl; [|by intros [= <- <-]].
    assert (chosen ∈ (Poll.answers self).*1) as Hchosen.
    { apply py_dict_is_Some. by eexists. }
    unfold iadd. simpl.
    change (Poll.drop_stale _ _ _) with (Poll.tally (Poll.clean_tally self)).
    pose proof (poll_clean_tally_lookup self chosen) as Htc.
    rewrite bool_decide_true in Htc by done. rewrite Htc.
    set (t0 := Poll.tally (Poll.clean_tally self)) in *.
    intros [= <- <-] _. simpl.
    exists chosen, None. repeat split; try done.
    + intros k. destruct (decide (k = chosen)) as [->|Hkc].
      * rewrite lookup_insert_eq, Htc, bool_decide_true by done. simpl. f_equal. lia.
      * rewrite lookup_insert_ne by done. rewrite (bool_decide_false (k = chosen)) by done.
        rewrite bool_decide_false by done.
        destruct (_ !! k); simpl; f_equal. lia.
    + rewrite (total_insert _ _ _ _ Htc). lia.
Qed.

(** ** Sorted key lists *)

Lemma keys_Permutation {V W} (d1 : gmap string V) (d2 : gmap string W) :
  keys d1 ≡ₚ keys d2 ↔ dom d1 = dom d2.
Proof.
  split.
  - intros Hp. apply set_eq. intros k.
    rewrite !elem_of_dom, <-!elem_of_keys. by rewrite Hp.
  - intros Hd. apply NoDup_Permutation; [apply NoDup_keys..|].
    intros k. by rewrite !elem_of_keys, <-!elem_of_dom, Hd.
Qed.

Lemma sorted_keys_eq {V W} (d1 : gmap string V) (d2 : gmap string W) :
  sorted (keys d1) = sorted (keys d2) ↔ dom d1 = dom d2.
Proof.
  rewrite <-keys_Permutation. unfold sorted. split.
  - intros Heq. rewrite <-(merge_sort_Permutation String.le (keys d1)).
    rewrite Heq. apply merge_sort_Permutation.
  - intros Hp. apply (Sorted_unique String.le); [apply Sorted_merge_sort; apply _..|].
    by rewrite !merge_sort_Permutation.
Qed.

(** ** Counting and removing the votes of a survey *)

Lemma count_vote_counter n (t t' : gmap string (gmap string Z)) key value q a :
  Survey.count_vote n t key value = Val t' →
  t' !! q ≫= (.!! a) =
  (λ m, m + if bool_decide (q = key ∧ a = value) then n else 0) <$> (t !! q ≫= (.!! a)).
Proof.
  unfold Survey.count_vote, getitem, iadd. simpl.
  destruct (t !! key) as [sub|] eqn:Hsub; simpl; [|done].
  destruct (sub !! value) as [c|] eqn:Hc; simpl; [|done].
  intros [= <-].
  destruct (decide (q = key)) as [->|Hq].
  - rewrite lookup_insert_eq, Hsub. simpl.
    destruct (decide (a = value)) as [->|Ha].
    + rewrite lookup_insert_eq, Hc, bool_decide_true by done. done.
    + rewrite lookup_insert_ne by done. rewrite bool_decide_false by (by intros [_ ?]).
      destruct (sub !! a); simpl; f_equal. lia.
  - rewrite lookup_insert_ne by done. rewrite bool_decide_false by (by intros [? _]).
    destruct (t !! q ≫= (.!! a)); simpl; f_equal. lia.
Qed.

Lemma count_vote_is_Some n (t t' : gmap string (gmap string Z)) key value q :
  Survey.count_vote n t key value = Val t' →
  is_Some (t' !! q) ↔ is_Some (t !! q).
Proof.
  unfold Survey.count_vote, getitem, iadd. simpl.
  destruct (t !! key) as [sub|] eqn:Hsub; simpl; [|done].
  destruct (sub !! value) as [c|] eqn:Hc; simpl; [|done].
  intros [= <-]. rewrite lookup_insert_is_Some.
  destruct (decide (key = q)) as [->|Hne]; [|split; [by intros [?|[_ ?]] | by right]].
  rewrite Hsub. split; [by eexists | by left].
Qed.

Lemma elem_of_cons_pair (pairs : list (string * string)) key value q a :
  key ∉ pairs.*1 →
  bool_decide ((q, a) ∈ (key, value) :: pairs) =
  bool_decide (q = key ∧ a = value) || bool_decide ((q, a) ∈ pairs).
Proof.
  intros Hkey. apply eq_true_iff_eq.
  rewrite orb_true_iff, !bool_decide_eq_true, elem_of_cons.
  split; (intros [H|H]; [left|right]); try done; [by injection H | by destruct H; subst].
Qed.

Lemma pair_not_both (pairs : list (string * string)) key value q a :
  key ∉ pairs.*1 → q = key ∧ a = value → (q, a) ∉ pairs.
Proof.
  intros Hkey [-> ->] Hin. apply Hkey. apply list_elem_of_fmap. by exists (key, value).
Qed.

Lemma remove_votes_counter (questions : gmap string entry) (answers : gmap string string)
    pairs (t t' : gmap string (gmap string Z)) q a :
  NoDup pairs.*1 →
  Survey.remove_votes questions answers pairs t = Val t' →
  t' !! q ≫= (.!! a) =
  (λ m, m - if bool_decide ((q, a) ∈ pairs) && bool_decide (is_Some (questions !! q))
                 && bool_decide (is_Some (answers !! a))
            then 1 else 0) <$> (t !! q ≫= (.!! a)).
Proof.
  revert t. induction pairs as [|[key value] pairs IH]; intros t Hnd; simpl.
  - intros [= <-]. destruct (t !! q ≫= (.!! a)); simpl; f_equal. lia.
  - apply NoDup_cons in Hnd as [Hkey Hnd].
    destruct (if bool_decide (is_Some (questions !! key)) then _ else _)
      as [e|t1] eqn:Hstep; simpl; [done|].
    intros Hrest. rewrite (IH _ Hnd Hrest). clear IH Hrest.
    rewrite elem_of_cons_pair by done.
    pose proof (pair_not_both pairs key value q a Hkey) as Hexcl.
    assert (t1 !! q ≫= (.!! a) =
            (λ m, m - if bool_decide (q = key ∧ a = value)
                           && bool_decide (is_Some (questions !! q))
                           && bool_decide (is_Some (answers !! a))
                      then 1 else 0) <$> (t !! q ≫= (.!! a))) as ->.
    { destruct (decide (q = key ∧ a = value)) as [[-> ->]|Hqa].
      - rewrite bool_decide_true by done. simpl.
        destruct (bool_decide (is_Some (questions !! key))); simpl.
        + destruct (bool_decide (is_Some (answers !! value))); simpl.
          * rewrite (count_vote_counter _ _ _ _ _ _ _ Hstep).
            rewrite bool_decide_true by done.
            destruct (t !! key ≫= (.!! value)); simpl; f_equal.
          * injection Hstep as <-. destruct (t !! key ≫= (.!! value)); simpl; f_equal. lia.
        + injection Hstep as <-. destruct (t !! key ≫= (.!! value)); simpl; f_equal. lia.
      - rewrite (bool_decide_false _ Hqa). simpl.
        assert (t1 !! q ≫= (.!! a) = t !! q ≫= (.!! a)) as ->.
        { destruct (bool_decide (is_Some (questions !! key)));
            [destruct (bool_decide (is_Some (answers !! value)))|];
            try (by injection Hstep as <-).
          rewrite (count_vote_counter _ _ _ _ _ _ _ Hstep).
          rewrite (bool_decide_false _ Hqa).
          destruct (t !! q ≫= (.!! a)); simpl; f_equal. lia. }
        destruct (t !! q ≫= (.!! a)); simpl; f_equal. lia. }
    destruct (decide (q = key ∧ a = value)) as [Hqa|Hqa].
    + rewrite (bool_decide_true _ Hqa), (bool_decide_false _ (Hexcl Hqa)). simpl.
      destruct (t !! q ≫= (.!! a)); simpl; f_equal.
      destruct (_ && _); lia.
    + rewrite (bool_decide_false _ Hqa). simpl.
      destruct (t !! q ≫= (.!! a)); simpl; f_equal. lia.
Qed.

Lemma remove_votes_is_Some (questions : gmap string entry) (answers : gmap string string)
    pairs (t t' : gmap string (gmap string Z)) q :
  Survey.remove_votes questions answers pairs t = Val t' →
  is_Some (t' !! q) ↔ is_Some (t !! q).
Proof.
  revert t. induction pairs as [|[key value] pairs IH]; intros t; simpl.
  - by intros [= <-].
  - destruct (if bool_decide (is_Some (questions !! key)) then _ else _)
      as [e|t1] eqn:Hstep; simpl; [done|].
    intros Hrest. rewrite (IH _ Hrest).
    destruct (bool_decide (is_Some (questions !! key)));
      [destruct (bool_decide (is_Some (answers !! value)))|];
      try (by injection Hstep as <-).
    by apply (count_vote_is_Some _ _ _ _ _ q) in Hstep.
Qed.

Lemma record_votes_counter pairs (t t' : gmap string (gmap string Z)) q a :
  NoDup pairs.*1 →
  Survey.record_votes pairs t = Val t' →
  t' !! q ≫= (.!! a) =
  (λ m, m + if bool_decide ((q, a) ∈ pairs) then 1 else 0) <$> (t !! q ≫= (.!! a)).
Proof.
  revert t. induction pairs as [|[key value] pairs IH]; intros t Hnd; simpl.
  - intros [= <-]. destruct (t !! q ≫= (.!! a)); simpl; f_equal. lia.
  - apply NoDup_cons in Hnd as [Hkey Hnd].
    destruct (Survey.count_vote 1 t key value) as [e|t1] eqn:Hstep; simpl; [done|].
    intros Hrest. rewrite (IH _ Hnd Hrest). clear IH Hrest.
    rewrite (count_vote_counter _ _ _ _ _ _ _ Hstep).
    rewrite elem_of_cons_pair by done.
    pose proof (pair_not_both pairs key value q a Hkey) as Hexcl.
    destruct (decide (q = key ∧ a = value)) as [Hqa|Hqa].
    + rewrite (bool_decide_true _ Hqa), (bool_decide_false _ (Hexcl Hqa)). simpl.
      destruct (t !! q ≫= (.!! a)); simpl; f_equal. lia.
    + rewrite (bool_decide_false _ Hqa). simpl.
      destruct (t !! q ≫= (.!! a)); simpl; f_equal. lia.
Qed.

Lemma record_votes_is_Some pairs (t t' : gmap string (gmap string Z)) q :
  Survey.record_votes pairs t = Val t' →
  is_Some (t' !! q) ↔ is_Some (t !! q).
Proof.
  revert t. induction pairs as [|[key value] pairs IH]; intros t; simpl.
  - by intros [= <-].
  - destruct (Survey.count_vote 1 t key value) as [e|t1] eqn:Hstep; simpl; [done|].
    intros Hrest. rewrite (IH _ Hrest).
    by apply (count_vote_is_Some _ _ _ _ _ q) in Hstep.
Qed.

(** ** SurveyBlock.remove_vote and get_choices *)

Lemma elem_of_items {V} (d : gmap string V) q v : (q, v) ∈ items d ↔ d !! q = Some v.
Proof. apply elem_of_map_to_list. Qed.

Lemma NoDup_items {V} (d : gmap string V) : NoDup (items d).*1.
Proof. apply NoDup_fst_map_to_list. Qed.

Lemma remove_vote_spec (self selfR : Survey.SurveyBlock) c u :
  Survey.choices self = Some c →
  Survey.remove_vote self = Return u selfR →
  Survey.choices selfR = None ∧
  Survey.base selfR = Survey.base self ∧
  Survey.answers selfR = Survey.answers self ∧
  Survey.questions selfR = Survey.questions self ∧
  (∀ q, is_Some (Survey.tally selfR !! q) ↔ is_Some (Survey.tally self !! q)) ∧
  ∀ q a,
    Survey.tally selfR !! q ≫= (.!! a) =
    (λ m, m - if bool_decide (c !! q = Some a)
                   && bool_decide (q ∈ (Survey.questions self).*1)
                   && bool_decide (a ∈ (Survey.answers self).*1)
              then 1 else 0) <$> (Survey.tally self !! q ≫= (.!! a)).
Proof.
  unfold Survey.remove_vote. intros ->.
  destruct (Survey.remove_votes _ _ _ _) as [e|t] eqn:Hrm; [done|].
  intros [= <- <-]. simpl. split_and!; try done.
  - intros q. by apply (remove_votes_is_Some _ _ _ _ _ q) in Hrm.
  - intros q a. rewrite (remove_votes_counter _ _ _ _ _ q a (NoDup_items c) Hrm).
    rewrite (bool_decide_ext _ _ (elem_of_items c q a)).
    rewrite (bool_decide_ext _ _ (py_dict_is_Some (Survey.questions self) q)).
    by rewrite (bool_decide_ext _ _ (py_dict_is_Some (Survey.answers self) a)).
Qed.

Lemma check_values_spec (answers : gmap string string) values (self : Survey.SurveyBlock) :
  Survey.check_values answers values self =
  if forallb (λ value, bool_decide (is_Some (answers !! value))) values
  then Return (Survey.choices self) self
  else match Survey.remove_vote self with
       | Raise e => Raise e
       | Return _ self => Return None self
       end.
Proof.
  induction values as [|value values IH]; simpl; [done|].
  destruct (bool_decide (is_Some (answers !! value))); simpl; [apply IH|done].
Qed.

Lemma values_valid_forallb (answers : list (string * string)) (c : gmap string string) :
  forallb (λ value, bool_decide (is_Some (py_dict answers !! value))) (items c).*2 = true ↔
  ∀ q a, c !! q = Some a → a ∈ answers.*1.
Proof.
  rewrite forallb_forall. split.
  - intros Hall q a Hqa. apply py_dict_is_Some, (bool_decide_eq_true _).
    apply Hall, list_elem_of_In, list_elem_of_fmap. exists (q, a). split; [done|].
    by apply elem_of_items.
  - intros Hall a [[q a'] [-> Hin]]%list_elem_of_In%list_elem_of_fmap.
    apply bool_decide_eq_true, py_dict_is_Some, (Hall q). by apply elem_of_items.
Qed.

Lemma get_choices_cases (self : Survey.SurveyBlock) :
  match Survey.choices self with
  | None => Survey.get_choices self = Return None self
  | Some c =>
      (still_valid self c ∧ Survey.get_choices self = Return (Some c) self) ∨
      (¬ still_valid self c ∧
       Survey.get_choices self =
       match Survey.remove_vote self with
       | Raise e => Raise e
       | Return _ self => Return None self
       end)
  end.
Proof.
  unfold Survey.get_choices, still_valid.
  destruct (Survey.choices self) as [c|] eqn:Hc; [|done].
  rewrite <-dom_py_dict.
  case_bool_decide as Hsorted.
  - right. split; [|done]. intros [Hdom _]. apply Hsorted.
    by apply sorted_keys_eq.
  - apply sorted_keys_eq in Hsorted.
    rewrite check_values_spec, Hc.
    destruct (forallb _ _) eqn:Hall.
    + left. split; [|done]. split; [done|]. by apply values_valid_forallb.
    + right. split; [|done]. intros [_ Hvals].
      apply values_valid_forallb in Hvals. congruence.
Qed.

(** ** Results *)

Lemma success_fail_if (b : bool) m (r : Result) :
  success (if b then append_error m (set_success false r) else r) = true →
  b = false ∧ success r = true.
Proof. by destruct b. Qed.

Lemma unknown_answers_fold (ks : list string) (pairs : list (string * json)) (r : Result) :
  success
    (foldl (λ result kv,
              if negb (Survey.in_keys kv.2 ks)
              then append_error (UnknownAnswer kv.1 kv.2) (set_success false result)
              else result) r pairs) = true →
  success r = true ∧ ∀ q v, (q, v) ∈ pairs → Survey.in_keys v ks = true.
Proof.
  revert r. induction pairs as [|[q v] pairs IH]; intros r; simpl.
  - intros Hr. split; [done|]. by intros q v ?%elem_of_nil.
  - intros [Hstep Hall]%IH. apply success_fail_if in Hstep as [Hv Hr].
    split; [done|]. intros q' v' [[= -> ->]|Hin]%elem_of_cons; [|by eapply Hall].
    by apply negb_false_iff.
Qed.

Lemma in_keys_true (v : json) (d : gmap string string) :
  Survey.in_keys v (keys d) = true → ∃ a, v = JStr a ∧ is_Some (d !! a).
Proof.
  destruct v as [| | |a| |]; simpl; try done.
  intros Hin%bool_decide_eq_true. exists a. split; [done|]. by apply elem_of_keys.
Qed.

Lemma as_choices_lookup (d : gmap string json) q a :
  Survey.as_choices d !! q = Some a ↔ d !! q = Some (JStr a).
Proof.
  unfold Survey.as_choices. rewrite lookup_omap.
  destruct (d !! q) as [[| | |s| |]|]; simpl; split; congruence.
Qed.

Lemma as_choices_dom (d : gmap string json) :
  (∀ q v, d !! q = Some v → ∃ a, v = JStr a) →
  dom (Survey.as_choices d) = dom d.
Proof.
  intros Hstr. apply set_eq. intros q. rewrite !elem_of_dom. split.
  - intros [a Ha]. apply as_choices_lookup in Ha. by eexists.
  - intros [v Hv]. destruct (Hstr q v Hv) as [a ->]. exists a. by apply as_choices_lookup.
Qed.

(** ** SurveyBlock.vote *)

(** What a successful [vote] does once [get_choices] has returned. *)
Lemma survey_vote_tail (data : json) (self selfG self' : Survey.SurveyBlock) old r :
  Survey.get_choices self = Return old selfG →
  Survey.questions selfG = Survey.questions self →
  Survey.answers selfG = Survey.answers self →
  Survey.vote data self = Return r self' → success r = true →
  ∃ members tR,
    data = JObj members ∧
    dom (py_dict members) = list_to_set (Survey.questions self).*1 ∧
    (∀ q v, py_dict members !! q = Some v →
            ∃ a, v = JStr a ∧ a ∈ (Survey.answers self).*1) ∧
    (Survey.nonempty old = true → private_results (Survey.base selfG) = true) ∧
    (if Survey.nonempty (Survey.choices selfG)
     then ∃ c, Survey.choices selfG = Some c ∧
               Survey.remove_votes (py_dict (Survey.questions self))
                 (py_dict (Survey.answers self)) (items c) (Survey.tally selfG) = Val tR
     else tR = Survey.tally selfG) ∧
    Survey.choices self' = Some (Survey.as_choices (py_dict members)) ∧
    submissions_count (Survey.base self') =
      (if Survey.nonempty old then submissions_count (Survey.base selfG) else 0) + 1 ∧
    ∀ q a,
      Survey.tally self' !! q ≫= (.!! a) =
      if bool_decide (q ∈ (Survey.questions self).*1)
         && bool_decide (a ∈ (Survey.answers self).*1)
      then Some (default 0 (tR !! q ≫= (.!! a))
                 + if bool_decide (Survey.as_choices (py_dict members) !! q = Some a)
                   then 1 else 0)
      else None.
Proof.
  intros Hget HQ HA. unfold Survey.vote. rewrite Hget.
  set (r1 := if Survey.nonempty old && negb (private_results (Survey.base selfG))
             then _ else _).
  set (self1 := if negb (Survey.nonempty old) then _ else selfG).
  set (r2 := if negb (can_vote (Survey.base self1)) then _ else r1).
  destruct data as [| | | | |members]; try done.
  set (d := py_dict members).
  set (r3 := if negb (bool_decide (sorted (keys d) = sorted (keys _))) then _ else r2).
  set (r4 := foldl _ r3 (items d)).
  destruct (success r4) eqn:Hr4; simpl; [|intros [= <- <-] Hs; simpl in Hs; congruence].
  apply unknown_answers_fold in Hr4 as [Hr3 Hvals].
  apply success_fail_if in Hr3 as [Hsorted Hr2].
  apply negb_false_iff, bool_decide_eq_true, sorted_keys_eq in Hsorted.
  rewrite dom_py_dict in Hsorted.
  apply success_fail_if in Hr2 as [_ Hr1].
  apply success_fail_if in Hr1 as [Hpriv _].
  assert (∀ q v, d !! q = Some v → ∃ a, v = JStr a ∧ a ∈ (Survey.answers self).*1)
    as Hstr.
  { intros q v Hqv. apply elem_of_items, Hvals, in_keys_true in Hqv as (a & -> & Ha).
    exists a. split; [done|]. by apply py_dict_is_Some. }
  assert (Survey.questions self1 = Survey.questions self ∧
          Survey.answers self1 = Survey.answers self ∧
          Survey.choices self1 = Survey.choices selfG ∧
          Survey.tally self1 = Survey.tally selfG ∧
          submissions_count (Survey.base self1) =
            if Survey.nonempty old then submissions_count (Survey.base selfG) else 0)
    as (HQ1 & HA1 & HC1 & HT1 & HS1).
  { unfold self1. by destruct (Survey.nonempty old). }
  assert ((∃ tR selfR,
    (if Survey.nonempty (Survey.choices self1) then Survey.remove_vote self1
     else Return () self1) = Return () selfR ∧
    Survey.tally selfR = tR ∧
    Survey.questions selfR = Survey.questions self ∧
    Survey.answers selfR = Survey.answers self ∧
    Survey.base selfR = Survey.base self1 ∧
    (if Survey.nonempty (Survey.choices selfG)
     then ∃ c, Survey.choices selfG = Some c ∧
               Survey.remove_votes (py_dict (Survey.questions self))
                 (py_dict (Survey.answers self)) (items c) (Survey.tally selfG) = Val tR
     else tR = Survey.tally selfG)) ∨
    ∃ e, (if Survey.nonempty (Survey.choices self1) then Survey.remove_vote self1
          else Return () self1) = Raise e) as Hrm.
  { rewrite HC1. destruct (Survey.nonempty (Survey.choices selfG)) eqn:Hne.
    - unfold Survey.remove_vote. rewrite HC1, HQ1, HA1, HT1.
      destruct (Survey.choices selfG) as [c|]; [|done].
      destruct (Survey.remove_votes _ _ _ _) as [e|tR] eqn:Hrm; [right; by eexists|].
      left. eexists tR, _. split; [done|]. simpl. split_and!; try done. by exists c.
    - left. by exists (Survey.tally selfG), self1. }
  destruct Hrm as [(tR & selfR & -> & HtR & HQR & HAR & HBR & Hrm)|[e ->]]; [|done].
  destruct (Survey.record_votes _ _) as [e|t] eqn:Hrec; [done|].
  intros [= <- <-] _. simpl.
  exists members, tR. split_and!; try done.
  - intros Hne. by destruct (private_results (Survey.base selfG)); [|rewrite Hne in Hpriv].
  - rewrite HBR, HS1. done.
  - intros q a.
    rewrite (record_votes_counter _ _ _ q a (NoDup_items _) Hrec).
    rewrite (bool_decide_ext _ _ (elem_of_items _ q a)).
    change (Survey.drop_stale _ _ _) with (Survey.tally (Survey.clean_tally selfR)).
    rewrite survey_clean_tally_counter. simpl. rewrite HQR, HAR, HtR.
    destruct (bool_decide (q ∈ _) && bool_decide (a ∈ _)) eqn:Hqa; simpl; [done|].
    done.
Qed.

Lemma survey_vote_get_choices (data : json) (self self' : Survey.SurveyBlock) r :
  Survey.vote data self = Return r self' →
  ∃ old selfG, Survey.get_choices self = Return old selfG.
Proof.
  unfold Survey.vote. destruct (Survey.get_choices self) as [e|old selfG]; [done|].
  by exists old, selfG.
Qed.

Lemma fmap_sub_0 (o : option Z) : (λ m, m - 0) <$> o = o.
Proof. destruct o; simpl; f_equal. lia. Qed.

Lemma fmap_sub_false (b : bool) (o : option Z) :
  b = false → (λ m, m - if b then 1 else 0) <$> o = o.
Proof. intros ->. destruct o; simpl; f_equal. lia. Qed.

(** C2 (as amended). [SurveyBlock.vote] succeeds only when the submitted
    question keys are exactly the configured question keys and every
    submitted value is a configured answer key.  On success it stores the
    submitted mapping as the user's choices and, after taking the user's
    previous recorded vote out of the tally and reconciling it, adds 1 to
    [tally[q][a]] for each submitted pair; [submissions_count] goes up by 1
    on a re-vote (still-valid, non-empty previous choices, possible only
    with private results) and becomes 1 otherwise. *)
Theorem survey_vote_counts_after_removal
    (data : json) (self self' : Survey.SurveyBlock) (r : Result) :
  Survey.vote data self = Return r self' → success r = true →
  ∃ members old selfG,
    data = JObj members ∧
    dom (py_dict members) = list_to_set (Survey.questions self).*1 ∧
    (∀ q v, py_dict members !! q = Some v →
            ∃ a, v = JStr a ∧ a ∈ (Survey.answers self).*1) ∧
    Survey.choices self' = Some (Survey.as_choices (py_dict members)) ∧
    (∀ q a, Survey.as_choices (py_dict members) !! q = Some a ↔
            py_dict members !! q = Some (JStr a)) ∧
    Survey.get_choices self = Return old selfG ∧
    (Survey.nonempty old = true → private_results (Survey.base self) = true) ∧
    submissions_count (Survey.base self') =
      (if Survey.nonempty old then submissions_count (Survey.base self) else 0) + 1 ∧
    ∀ q a,
      Survey.tally self' !! q ≫= (.!! a) =
      if bool_decide (q ∈ (Survey.questions self).*1)
         && bool_decide (a ∈ (Survey.answers self).*1)
      then Some (default 0
                   ((λ m, m - if bool_decide (Survey.choices self ≫= (.!! q) = Some a)
                              then 1 else 0)
                    <$> (Survey.tally self !! q ≫= (.!! a)))
                 + if bool_decide (Survey.as_choices (py_dict members) !! q = Some a)
                   then 1 else 0)
      else None.
Proof.
  intros Hvote Hr.
  destruct (survey_vote_get_choices _ _ _ _ Hvote) as (old & selfG & Hget).
  assert (Survey.questions selfG = Survey.questions self ∧
          Survey.answers selfG = Survey.answers self ∧
          Survey.base selfG = Survey.base self ∧
          (if Survey.nonempty old then selfG = self ∧ Survey.choices self = old else True) ∧
          (Survey.nonempty (Survey.choices selfG) = false →
           ∀ q a, bool_decide (q ∈ (Survey.questions self).*1)
                  && bool_decide (a ∈ (Survey.answers self).*1) = true →
             Survey.tally selfG !! q ≫= (.!! a) =
             (λ m, m - if bool_decide (Survey.choices self ≫= (.!! q) = Some a)
                       then 1 else 0)
             <$> (Survey.tally self !! q ≫= (.!! a))))
    as (HQ & HA & HB & Hold & Hstale).
  { pose proof (get_choices_cases self) as Hcases.
    destruct (Survey.choices self) as [c|] eqn:Hc.
    - destruct Hcases as [[_ Hg]|[_ Hg]]; rewrite Hg in Hget.
      + injection Hget as <- <-. split_and!; try done.
        * by destruct (Survey.nonempty (Some c)).
        * rewrite Hc. simpl. intros Hempty%negb_false_iff%bool_decide_eq_true q a _.
          subst c. simpl. rewrite lookup_empty.
          symmetry. apply fmap_sub_false. by apply bool_decide_eq_false.
      + destruct (Survey.remove_vote self) as [e|u selfR] eqn:Hrm; [done|].
        injection Hget as <- <-.
        destruct (remove_vote_spec _ _ _ _ Hc Hrm) as (_ & ? & ? & ? & _ & Ht).
        split_and!; try done. intros _ q a Hqa. rewrite Ht. simpl.
        apply andb_prop in Hqa as [-> ->]. by rewrite !andb_true_r.
    - rewrite Hcases in Hget. injection Hget as <- <-. split_and!; try done.
      intros _ q a _. simpl. by rewrite fmap_sub_0. }
  destruct (survey_vote_tail _ _ _ _ _ _ Hget HQ HA Hvote Hr)
    as (members & tR & -> & Hdom & Hvals & Hpriv & HtR & Hch & Hcount & Htally).
  exists members, old, selfG. split_and!; try done.
  - intros q a. apply as_choices_lookup.
  - by rewrite <-HB.
  - by rewrite <-HB.
  - intros q a. rewrite Htally.
    destruct (bool_decide (q ∈ _) && bool_decide (a ∈ _)) eqn:Hqa; [|done].
    do 2 f_equal.
    destruct (Survey.nonempty (Survey.choices selfG)) eqn:Hne.
    + destruct HtR as (c & Hc & Hrm).
      assert (Survey.nonempty old = true ∧ selfG = self ∧ Survey.choices self = old)
        as (_ & -> & Hcs).
      { destruct old as [c'|] eqn:Ho.
        - destruct (Survey.nonempty (Some c')) eqn:Hn; [by destruct Hold|].
          exfalso. pose proof (get_choices_cases self) as Hcases.
          destruct (Survey.choices self) as [c0|] eqn:Hc0.
          + destruct Hcases as [[_ Hg]|[_ Hg]]; rewrite Hg in Hget.
            * injection Hget as -> <-. congruence.
            * by destruct (Survey.remove_vote self).
          + rewrite Hcases in Hget. by injection Hget.
        - exfalso. pose proof (get_choices_cases self) as Hcases.
          destruct (Survey.choices self) as [c0|] eqn:Hc0.
          + destruct Hcases as [[_ Hg]|[_ Hg]]; rewrite Hg in Hget; [done|].
            destruct (Survey.remove_vote self) as [e|u selfR] eqn:Hrm'; [done|].
            injection Hget as <-.
            destruct (remove_vote_spec _ _ _ _ Hc0 Hrm') as (Hnone & _).
            congruence.
          + rewrite Hcases in Hget. injection Hget as <-. congruence. }
      rewrite (remove_votes_counter _ _ _ _ _ q a (NoDup_items c) Hrm).
      rewrite Hc. simpl.
      rewrite (bool_decide_ext _ _ (elem_of_items c q a)).
      rewrite (bool_decide_ext _ _ (py_dict_is_Some (Survey.questions self) q)).
      rewrite (bool_decide_ext _ _ (py_dict_is_Some (Survey.answers self) a)).
      apply andb_prop in Hqa as [-> ->]. by rewrite !andb_true_r.
    + subst tR. by rewrite Hstale.
Qed.

(** ** Validation results *)

Lemma grows_refl r : grows r r.
Proof. split; [|done]. exists []. by rewrite app_nil_r. Qed.

Lemma grows_trans r1 r2 r3 : grows r1 r2 → grows r2 r3 → grows r1 r3.
Proof.
  intros [[ms1 H1] Hc1] [[ms2 H2] Hc2]. split; [|auto].
  exists (ms1 ++ ms2). by rewrite H2, H1, app_assoc.
Qed.

Lemma grows_elem_of r r' m : grows r r' → m ∈ errors r → m ∈ errors r'.
Proof. intros [[ms ->] _] Hm. apply elem_of_app. by left. Qed.

Lemma consistent_new_result : consistent (new_result true).
Proof. split; [done|]. by intros []. Qed.

Lemma consistent_failed m r : consistent (append_error m (set_success false r)).
Proof. split; [|done]. intros _. simpl. by destruct (errors r). Qed.

Lemma consistent_failed' m r : consistent (set_success false (append_error m r)).
Proof. split; [|done]. intros _. simpl. by destruct (errors r). Qed.

Lemma grows_failed m r : grows r (append_error m (set_success false r)).
Proof. split; [by exists [m]|]. intros _. apply consistent_failed. Qed.

Lemma grows_failed' m r : grows r (set_success false (append_error m r)).
Proof. split; [by exists [m]|]. intros _. apply consistent_failed'. Qed.

Lemma elem_of_failed m r : m ∈ errors (append_error m (set_success false r)).
Proof. simpl. apply elem_of_app. right. by left. Qed.

Lemma elem_of_failed' m r : m ∈ errors (set_success false (append_error m r)).
Proof. simpl. apply elem_of_app. right. by left. Qed.

(** One guarded failure: [if cond: result['success'] = False; errors.append(m)]. *)
Lemma grows_if (cond : bool) m r :
  grows r (if cond then append_error m (set_success false r) else r) ∧
  (cond = true → m ∈ errors (if cond then append_error m (set_success false r) else r)).
Proof.
  destruct cond.
  - split; [apply grows_failed|]. intros _. apply elem_of_failed.
  - split; [apply grows_refl|done].
Qed.

Lemma consistent_reported r m : consistent r → m ∈ errors r → success r = false.
Proof. intros [_ Hc] Hm. apply Hc. intros Hnil. rewrite Hnil in Hm. by apply elem_of_nil in Hm. Qed.

(** ** get_max_submissions *)

Lemma get_max_submissions_grows parse_int (data : gmap string json) r private n r' :
  get_max_submissions parse_int data r private = Val (n, r') →
  grows r r' ∧
  ∀ m, max_submissions_failure parse_int data private m → m ∈ errors r'.
Proof.
  unfold get_max_submissions.
  set (r1 := append_error MaxSubmissionsNotInteger (set_success false r)).
  destruct (getitem data "max_submissions" ≫= py_int parse_int) as [e|n0] eqn:Hint.
  - assert (e = ValueError ∨ e = KeyError →
            Val (n, r') =
            Val (1, if negb (1 =? 1) && negb private
                    then append_error PrivateResultsConflict (set_success false r1)
                    else r1) →
            grows r r' ∧
            ∀ m, max_submissions_failure parse_int data private m → m ∈ errors r') as Hcase.
    { intros _ [= -> ->]. simpl. split; [apply grows_failed|].
      intros m Hm. destruct Hm as [| |n' Hn']; try apply elem_of_failed. congruence. }
    destruct e; simpl; try done; intros Heq; apply Hcase; auto.
  - simpl. intros [= -> <-].
    destruct (grows_if (negb (n =? 1) && negb private) PrivateResultsConflict r)
      as [Hg Hin].
    split; [done|]. intros m Hm. destruct Hm as [Hnone|s Hs Hparse|n' Hn' Hne Hpriv].
    + unfold getitem in Hint. by rewrite Hnone in Hint.
    + unfold getitem in Hint. rewrite Hs in Hint. simpl in Hint. by rewrite Hparse in Hint.
    + assert (n' = n) as -> by congruence. apply Hin.
      rewrite Hpriv, andb_true_r. apply negb_true_iff. by apply Z.eqb_neq.
Qed.

(** ** gather_items *)

Lemma gather_item_spec strip (self : PollBase) noun image
    (items items' : list (item_type image)) (r r' : Result) item :
  gather_item strip self noun image (items, r) item = Val (items', r') →
  grows r r' ∧
  (∀ m, item_failure strip self noun image item m → m ∈ errors r') ∧
  ((∀ members, item ≠ JObj members) → items' = items) ∧
  (∀ members, item = JObj members → ∃ x, items' = items ++ [x]).
Proof.
  unfold gather_item.
  destruct item as [| | | | |members];
    try (intros [= <- <-]; split_and!;
         [apply grows_failed
         |intros m Hm; destruct Hm; try done; apply elem_of_failed
         |done
         |done]).
  simpl.
  destruct (get_strip strip (py_dict members) "key") as [e|key] eqn:Hkey; [done|]. simpl.
  destruct (get_strip strip (py_dict members) "img") as [e|link] eqn:Hlink; [done|]. simpl.
  destruct (get_strip strip (py_dict members) "img_alt") as [e|alt] eqn:Halt; [done|].
  simpl.
  destruct (get_strip strip (py_dict members) "label") as [e|lbl] eqn:Hlbl; [done|].
  simpl.
  set (r1 := if String.eqb key "" then _ else r).
  set (r2 := if String.eqb lbl "" then _ else r1).
  set (r3 := if negb (String.eqb link "") && String.eqb alt "" && _ then _ else r2).
  intros [= <- <-].
  destruct (grows_if (String.eqb key "") (NoKey noun (JObj members)) r) as [Hg1 Hin1].
  fold r1 in Hg1, Hin1.
  assert (grows r1 r2 ∧
          (lbl = "" → image = true → link = "" → NoTextOrImg noun ∈ errors r2) ∧
          (lbl = "" → image = false → NoLabel noun ∈ errors r2)) as (Hg2 & Hin2 & Hin2').
  { unfold r2. destruct (String.eqb_spec lbl "") as [->|Hne].
    - destruct image; simpl.
      + destruct (String.eqb_spec link "") as [->|Hne].
        * split_and!; [apply grows_failed | intros; apply elem_of_failed | done].
        * split_and!; [apply grows_refl | done | done].
      + split_and!; [apply grows_failed | done | intros; apply elem_of_failed].
    - split_and!; [apply grows_refl | done | done]. }
  destruct (grows_if (negb (String.eqb link "") && String.eqb alt ""
                      && truthy (img_alt_mandatory self)) ImgAltRequired r2)
    as [Hg3 Hin3].
  fold r3 in Hg3, Hin3.
  split_and!.
  - eauto using grows_trans.
  - intros m Hm.
    destruct Hm as [Hno|ms [= <-] Hk|ms [= <-] Him Hl Hi|ms [= <-] Him Hl
                   |ms link' [= <-] Hi Hne Ha Hmand].
    + by destruct (Hno members).
    + apply (grows_elem_of r1); [eauto using grows_trans|].
      apply Hin1. assert (key = "") as -> by congruence. done.
    + apply (grows_elem_of r2); [done|]. apply Hin2; congruence.
    + apply (grows_elem_of r2); [done|]. apply Hin2'; congruence.
    + apply Hin3. assert (link' = link) as -> by congruence.
      assert (alt = "") as -> by congruence. rewrite Hmand.
      by destruct (String.eqb_spec link "").
  - intros Hno. by destruct (Hno members).
  - intros ms _. by eexists.
Qed.

Lemma gather_loop_cons strip (self : PollBase) noun image item rest
    (acc : list (item_type image) * Result) :
  gather_loop strip self noun image (item :: rest) acc =
  match gather_item strip self noun image acc item with
  | Throw e => Throw e
  | Val acc => gather_loop strip self noun image rest acc
  end.
Proof. done. Qed.

Lemma gather_loop_spec strip (self : PollBase) noun image source_items
    (items items' : list (item_type image)) (r r' : Result) :
  gather_loop strip self noun image source_items (items, r) = Val (items', r') →
  grows r r' ∧
  (∀ item m, item ∈ source_items →
             item_failure strip self noun image item m → m ∈ errors r') ∧
  (items' = [] ↔
   items = [] ∧ ∀ item members, item ∈ source_items → item ≠ JObj members).
Proof.
  revert items r. induction source_items as [|item rest IH]; intros items r.
  - intros [= <- <-]. split_and!; [apply grows_refl | by intros ?? ?%elem_of_nil|].
    split; [|by intros []]. intros ->. split; [done|]. by intros ?? ?%elem_of_nil.
  - rewrite gather_loop_cons.
    destruct (gather_item strip self noun image (items, r) item)
      as [e|[items1 r1]] eqn:Hitem; [done|].
    intros Hrest. apply IH in Hrest as (Hg & Hfail & Hempty).
    apply gather_item_spec in Hitem as (Hg1 & Hfail1 & Hskip & Hadd).
    split_and!.
    + eauto using grows_trans.
    + intros it m [->|Hin]%elem_of_cons Hm; [|by eapply Hfail].
      eapply grows_elem_of; [done|]. by apply Hfail1.
    + rewrite Hempty. clear Hempty. split.
      * intros [-> Hrest].
        assert (∀ members, item ≠ JObj members) as Hno.
        { intros members ->. destruct (Hadd members eq_refl) as [x Hx].
          by destruct items. }
        split; [by rewrite <-Hskip|].
        intros it members [->|Hin]%elem_of_cons; [apply Hno | by apply Hrest].
      * intros [-> Hall]. split.
        -- apply Hskip. intros members. apply Hall. by left.
        -- intros it members Hin. apply Hall. by right.
Qed.

Lemma gather_items_spec strip (self : PollBase) (data : gmap string json) noun field image
    (items' : list (item_type image)) (r r' : Result) :
  gather_items strip self data r noun field image = Val (items', r') →
  grows r r' ∧
  ∀ m, items_failure strip self data noun field image m → m ∈ errors r'.
Proof.
  unfold gather_items.
  set (start := match data !! field with Some (JArr l) => (l, r) | _ => _ end).
  assert (grows r start.2 ∧
          ((∀ l, data !! field ≠ Some (JArr l)) →
           start.1 = [] ∧ FieldNotArray field ∈ errors start.2) ∧
          (∀ l, data !! field = Some (JArr l) → start.1 = l)) as (Hg0 & Hmiss & Harr).
  { unfold start. destruct (data !! field) as [[| | | |l|]|]; simpl;
      try (split_and!; [apply grows_failed
                       |intros _; split; [done | apply elem_of_failed]
                       |done]).
    split_and!; [apply grows_refl | by intros Hno; destruct (Hno l) | by intros ? [= ->]]. }
  destruct start as [source_items r0]. simpl in *.
  destruct (gather_loop strip self noun image source_items ([], r0))
    as [e|[items1 r1]] eqn:Hloop; simpl; [done|].
  intros [= <- <-].
  apply gather_loop_spec in Hloop as (Hg1 & Hfail & Hempty).
  set (r2 := match items1 with [] => _ | _ => r1 end).
  assert (grows r1 r2 ∧ (items1 = [] → AtLeastOne noun ∈ errors r2)) as [Hg2 Hin2].
  { unfold r2. destruct items1; [|split; [apply grows_refl | done]].
    split; [apply grows_failed' | intros _; apply elem_of_failed']. }
  split; [eauto using grows_trans|].
  intros m Hm. destruct Hm as [Hno|l item m Hl Hin Hm|Hall].
  - apply (grows_elem_of r0); [eauto using grows_trans|]. by apply Hmiss.
  - apply (grows_elem_of r1); [done|]. apply (Hfail item); [|done].
    by rewrite (Harr l Hl).
  - apply Hin2, Hempty. split; [done|]. intros item members Hin.
    destruct (data !! field) as [[| | | |l|]|] eqn:Hf;
      try (destruct Hmiss as [-> _]; [done|]; by apply elem_of_nil in Hin).
    apply (Hall l); [done|]. by rewrite <-(Harr l eq_refl).
Qed.

(** ** studio_submit *)

Lemma poll_studio_submit_spec strip parse_int (data : json) (self self' : Poll.PollBlock) r :
  Poll.studio_submit strip parse_int data self = Return r self' →
  consistent r ∧
  (success r = false → self' = self) ∧
  ∃ members,
    data = JObj members ∧
    ∀ m,
      max_submissions_failure parse_int (py_dict members)
        (truthy (default (JBool false) (py_dict members !! "private_results"))) m ∨
      (get_strip strip (py_dict members) "question" = Val "" ∧ m = NoQuestion) ∨
      items_failure strip (Poll.base self) (py_dict members) "Answer" "answers" true m →
      m ∈ errors r.
Proof.
  unfold Poll.studio_submit. destruct data as [| | | | |members]; try done.
  set (d := py_dict members).
  set (private := truthy (default (JBool false) (d !! "private_results"))).
  destruct (get_strip strip d "question") as [e|question] eqn:Hq; simpl; [done|].
  destruct (get_strip strip d "feedback") as [e|feedback] eqn:Hf; simpl; [done|].
  destruct (get_max_submissions parse_int d (new_result true) private)
    as [e|[n r1]] eqn:Hmax; simpl; [done|].
  destruct (get_strip strip d "display_name") as [e|name] eqn:Hn; simpl; [done|].
  set (r2 := if String.eqb question "" then _ else r1).
  destruct (gather_items strip (Poll.base self) d r2 "Answer" "answers" true)
    as [e|[answers r3]] eqn:Hitems; simpl; [done|].
  apply get_max_submissions_grows in Hmax as [Hg1 Hfail1].
  assert (grows r1 r2 ∧ (question = "" → NoQuestion ∈ errors r2)) as [Hg2 Hfail2].
  { unfold r2. destruct (String.eqb_spec question "") as [->|Hne].
    - split; [apply grows_failed' | intros _; apply elem_of_failed'].
    - split; [apply grows_refl | done]. }
  apply gather_items_spec in Hitems as [Hg3 Hfail3].
  assert (consistent r3) as Hcons.
  { apply Hg3, Hg2, Hg1, consistent_new_result. }
  assert (∀ m,
    max_submissions_failure parse_int d private m ∨
    (get_strip strip d "question" = Val "" ∧ m = NoQuestion) ∨
    items_failure strip (Poll.base self) d "Answer" "answers" true m →
    m ∈ errors r3) as Hall.
  { intros m [Hm|[[Hempty ->]|Hm]].
    - apply (grows_elem_of r1); [eauto using grows_trans | by apply Hfail1].
    - apply (grows_elem_of r2); [done | apply Hfail2; congruence].
    - by apply Hfail3. }
  destruct (success r3) eqn:Hs; simpl; intros [= <- <-].
  - split_and!; [done | by rewrite Hs | exists members; split; [done | exact Hall]].
  - split_and!; [done | done | exists members; split; [done | exact Hall]].
Qed.

Lemma survey_studio_submit_spec strip parse_int (data : json)
    (self self' : Survey.SurveyBlock) r :
  Survey.studio_submit strip parse_int data self = Return r self' →
  consistent r ∧
  (success r = false → self' = self) ∧
  ∃ members,
    data = JObj members ∧
    ∀ m,
      max_submissions_failure parse_int (py_dict members)
        (truthy (default (JBool false) (py_dict members !! "private_results"))) m ∨
      items_failure strip (Survey.base self) (py_dict members) "Answer" "answers" false m ∨
      items_failure strip (Survey.base self) (py_dict members) "Question" "questions" true m →
      m ∈ errors r.
Proof.
  unfold Survey.studio_submit. destruct data as [| | | | |members]; try done.
  set (d := py_dict members).
  set (private := truthy (default (JBool false) (d !! "private_results"))).
  destruct (get_strip strip d "feedback") as [e|feedback] eqn:Hf; simpl; [done|].
  destruct (get_strip strip d "display_name") as [e|name] eqn:Hn; simpl; [done|].
  destruct (get_max_submissions parse_int d (new_result true) private)
    as [e|[n r1]] eqn:Hmax; simpl; [done|].
  destruct (gather_items strip (Survey.base self) d r1 "Answer" "answers" false)
    as [e|[answers r2]] eqn:Hanswers; simpl; [done|].
  destruct (gather_items strip (Survey.base self) d r2 "Question" "questions" true)
    as [e|[questions r3]] eqn:Hquestions; simpl; [done|].
  apply get_max_submissions_grows in Hmax as [Hg1 Hfail1].
  apply gather_items_spec in Hanswers as [Hg2 Hfail2].
  apply gather_items_spec in Hquestions as [Hg3 Hfail3].
  assert (consistent r3) as Hcons.
  { apply Hg3, Hg2, Hg1, consistent_new_result. }
  assert (∀ m,
    max_submissions_failure parse_int d private m ∨
    items_failure strip (Survey.base self) d "Answer" "answers" false m ∨
    items_failure strip (Survey.base self) d "Question" "questions" true m →
    m ∈ errors r3) as Hall.
  { intros m [Hm|[Hm|Hm]].
    - apply (grows_elem_of r1); [eauto using grows_trans | by apply Hfail1].
    - apply (grows_elem_of r2); [done | by apply Hfail2].
    - by apply Hfail3. }
  destruct (success r3) eqn:Hs; simpl; intros [= <- <-].
  - split_and!; [done | by rewrite Hs | exists members; split; [done | exact Hall]].
  - split_and!; [done | done | exists members; split; [done | exact Hall]].
Qed.

(** ** PollBlock.vote on malformed requests *)

(** A request without a choice, or whose choice is a hashable value that
    is no answer key, is rejected with one message and changes nothing. *)
Lemma poll_vote_rejects (data : json) (self : Poll.PollBlock) :
  (∃ members, data = JObj members ∧ py_dict members !! "choice" = None) ∨
  (∃ choice, subscript data "choice" = Val choice ∧
             (∀ l, choice ≠ JArr l) ∧ (∀ l, choice ≠ JObj l) ∧
             ∀ c, choice = JStr c → c ∉ (Poll.answers self).*1) →
  ∃ m, Poll.vote data self = Return (append_error m (new_result false)) self.
Proof.
  intros Hbad. unfold Poll.vote.
  destruct (poll_get_choice_cases self) as [(old & _ & _ & _ & ->)|[_ ->]].
  - rewrite bool_decide_true by done. simpl.
    destruct (private_results (Poll.base self)); simpl; [|by eexists].
    destruct Hbad as [(members & -> & Hnone)|(choice & -> & Hl & Ho & Hc)].
    + simpl. unfold getitem. rewrite Hnone. by eexists.
    + destruct choice as [| | |c|l|l]; simpl; try (by eexists).
      * unfold getitem. specialize (Hc c eq_refl). apply py_dict_None in Hc.
        rewrite Hc. by eexists.
      * by destruct (Hl l).
      * by destruct (Ho l).
  - rewrite bool_decide_false by (by intros []). simpl.
    destruct Hbad as [(members & -> & Hnone)|(choice & -> & Hl & Ho & Hc)].
    + simpl. unfold getitem. rewrite Hnone. by eexists.
    + destruct choice as [| | |c|l|l]; simpl; try (by eexists).
      * unfold getitem. specialize (Hc c eq_refl). apply py_dict_None in Hc.
        rewrite Hc. by eexists.
      * by destruct (Hl l).
      * by destruct (Ho l).
Qed.

(** ** PollBlock.tally_detail reads the reconciled tally *)

Lemma od_set_keys {V} k (v : V) l : (Poll.od_set k v l).*1 ⊆ k :: l.*1.
Proof.
  induction l as [|[k' v'] l IH]; simpl; [done|].
  destruct (String.eqb_spec k' k) as [->|Hne]; simpl.
  - intros x Hx. by right.
  - intros x [->|Hx]%elem_of_cons; [right; by left|].
    apply IH in Hx. apply elem_of_cons in Hx as [->|Hx]; [by left | right; by right].
Qed.

Lemma ordered_items_keys {V} (pairs : list (string * V)) :
  (Poll.ordered_items pairs).*1 ⊆ pairs.*1.
Proof.
  induction pairs as [|[k v] pairs IH] using rev_ind; [done|].
  unfold Poll.ordered_items in *. rewrite foldl_app, fmap_app. simpl.
  intros x Hx%od_set_keys. apply elem_of_app.
  apply elem_of_cons in Hx as [->|Hx]; [right; by left | left; by apply IH].
Qed.

Lemma markdown_items_keys markdown (l : list (string * entry)) :
  (Poll.markdown_items markdown l).*1 = l.*1.
Proof. unfold Poll.markdown_items. rewrite <-list_fmap_compose. by apply list_fmap_ext. Qed.

Lemma detail_rows_keys (t : gmap string Z) answers acc (P : string → Prop) :
  (∀ k, k ∈ answers.*1 → is_Some (t !! k) ∧ P k) →
  Forall (λ row, P (Poll.key row)) acc.1 →
  ∃ rows total, Poll.detail_rows t answers acc = Val (rows, total) ∧
                Forall (λ row, P (Poll.key row)) rows.
Proof.
  revert acc. induction answers as [|[k e] answers IH]; intros [rows total] Hks Hacc; simpl.
  - by exists rows, total.
  - destruct (Hks k) as [[c Hc] HP]; [by left|].
    unfold getitem. rewrite Hc. simpl. apply IH.
    + intros k' Hk'. apply Hks. by right.
    + simpl. apply Forall_app. split; [done|]. by apply Forall_singleton.
Qed.

Lemma insert_by_count_Forall (P : Poll.row → Prop) r l :
  P r → Forall P l → Forall P (Poll.insert_by_count r l).
Proof.
  intros Hr. induction 1 as [|r' l Hr' Hl IH]; simpl; [by apply Forall_singleton|].
  destruct (Poll.count r' <? Poll.count r); repeat constructor; done.
Qed.

Lemma sort_by_count_Forall (P : Poll.row → Prop) l :
  Forall P l → Forall P (Poll.sort_by_count l).
Proof.
  unfold Poll.sort_by_count. assert (Forall P []) as Hacc by constructor.
  revert Hacc. generalize (@nil Poll.row). induction l as [|r l IH]; intros acc Hacc Hl; [done|].
  simpl. apply Forall_cons in Hl as [Hr Hl]. apply IH; [|done].
  by apply insert_by_count_Forall.
Qed.

Lemma mark_first_Forall (P : string → Prop) l :
  Forall (λ row, P (Poll.key row)) l → Forall (λ row, P (Poll.key row)) (Poll.mark_first l).
Proof. destruct 1; simpl; by constructor. Qed.

Lemma mark_last_Forall (P : string → Prop) l :
  Forall (λ row, P (Poll.key row)) l → Forall (λ row, P (Poll.key row)) (Poll.mark_last l).
Proof.
  intros Hl%Forall_reverse. unfold Poll.mark_last.
  destruct Hl; simpl; [constructor|]. apply Forall_reverse. by constructor.
Qed.

(** [tally_detail] always returns, leaves the reconciled tally behind and
    reports configured answer keys only. *)
Lemma tally_detail_keys markdown round_percent (self : Poll.PollBlock) :
  ∃ rows total,
    Poll.tally_detail markdown round_percent self =
      Return (rows, total) (Poll.clean_tally self) ∧
    Forall (λ row, Poll.key row ∈ (Poll.answers self).*1) rows.
Proof.
  unfold Poll.tally_detail.
  assert (∃ choice, Poll.get_choice self = Return choice self) as [choice ->].
  { destruct (poll_get_choice_cases self) as [(c & _ & _ & _ & ->)|[_ ->]]; by eexists. }
  destruct (detail_rows_keys (Poll.tally (Poll.clean_tally self))
              (Poll.ordered_items (Poll.markdown_items markdown (Poll.answers self)))
              ([], 0) (λ k, k ∈ (Poll.answers self).*1))
    as (rows & total & -> & Hrows).
  { intros k Hk%ordered_items_keys. rewrite markdown_items_keys in Hk. split; [|done].
    rewrite poll_clean_tally_lookup, bool_decide_true by done. by eexists. }
  { constructor. }
  eexists _, total. split; [done|].
  apply (mark_last_Forall (λ k, k ∈ (Poll.answers self).*1)).
  apply (mark_first_Forall (λ k, k ∈ (Poll.answers self).*1)).
  apply sort_by_count_Forall.
  apply Forall_fmap. by eapply Forall_impl.
Qed.

(** ** studio_submit returns on well-typed forms *)

Lemma get_strip_returns strip (d : gmap string json) k :
  text_or_absent d k → ∃ s, get_strip strip d k = Val s.
Proof.
  unfold text_or_absent, get_strip.
  destruct (d !! k) as [[| | |s| |]|]; simpl; try done; by eexists.
Qed.

Lemma get_max_submissions_returns parse_int (d : gmap string json) r private :
  max_submissions_typed d →
  ∃ n r', get_max_submissions parse_int d r private = Val (n, r').
Proof.
  unfold max_submissions_typed, get_max_submissions, getitem.
  destruct (d !! "max_submissions") as [[|b|n|s| |]|]; simpl; try done;
    try (by eexists _, _).
  destruct (parse_int s); simpl; by eexists _, _.
Qed.

Lemma gather_item_returns strip (self : PollBase) noun image
    (acc : list (item_type image) * Result) item :
  item_typed item → ∃ acc', gather_item strip self noun image acc item = Val acc'.
Proof.
  destruct acc as [items r]. unfold gather_item.
  destruct item as [| | | | |members]; try (by eexists).
  intros (Hkey & Himg & Halt & Hlabel). simpl.
  destruct (get_strip_returns strip _ _ Hkey) as [key ->].
  destruct (get_strip_returns strip _ _ Himg) as [link ->].
  destruct (get_strip_returns strip _ _ Halt) as [alt ->].
  destruct (get_strip_returns strip _ _ Hlabel) as [lbl ->].
  simpl. by eexists.
Qed.

Lemma gather_loop_returns strip (self : PollBase) noun image source_items
    (acc : list (item_type image) * Result) :
  Forall item_typed source_items →
  ∃ acc', gather_loop strip self noun image source_items acc = Val acc'.
Proof.
  intros Hall. revert acc. induction Hall as [|item rest Hitem _ IH]; intros acc.
  - by eexists.
  - rewrite gather_loop_cons.
    destruct (gather_item_returns strip self noun image acc item Hitem) as [acc1 ->].
    apply IH.
Qed.

Lemma gather_items_returns strip (self : PollBase) (d : gmap string json) r noun field image :
  items_typed d field →
  ∃ items r', gather_items strip self d r noun field image = Val (items, r').
Proof.
  unfold items_typed, gather_items. intros Htyped.
  set (start := match d !! field with Some (JArr l) => (l, r) | _ => _ end).
  assert (Forall item_typed start.1) as Hstart.
  { unfold start. destruct (d !! field) as [[| | | |l|]|]; simpl; try constructor. done. }
  destruct start as [source_items r0].
  destruct (gather_loop_returns strip self noun image source_items ([], r0) Hstart)
    as [[items r1] ->].
  simpl. by eexists _, _.
Qed.

Lemma poll_studio_submit_returns strip parse_int (data : json) (self : Poll.PollBlock) :
  poll_form_typed data →
  ∃ r self', Poll.studio_submit strip parse_int data self = Return r self'.
Proof.
  destruct data as [| | | | |members]; try done.
  intros (Hq & Hf & Hn & Hmax & Hitems). unfold Poll.studio_submit.
  destruct (get_strip_returns strip _ _ Hq) as [question ->].
  destruct (get_strip_returns strip _ _ Hf) as [feedback ->]. simpl.
  destruct (get_max_submissions_returns parse_int _ (new_result true)
              (truthy (default (JBool false) (py_dict members !! "private_results"))) Hmax)
    as (n & r1 & ->).
  destruct (get_strip_returns strip _ _ Hn) as [name ->]. simpl.
  set (r2 := if String.eqb question "" then _ else r1).
  destruct (gather_items_returns strip (Poll.base self) _ r2 "Answer" "answers" true Hitems)
    as (answers & r3 & ->).
  simpl. destruct (success r3); simpl; by eexists _, _.
Qed.

Lemma survey_studio_submit_returns strip parse_int (data : json)
    (self : Survey.SurveyBlock) :
  survey_form_typed data →
  ∃ r self', Survey.studio_submit strip parse_int data self = Return r self'.
Proof.
  destruct data as [| | | | |members]; try done.
  intros (Hf & Hn & Hmax & Hanswers & Hquestions). unfold Survey.studio_submit.
  destruct (get_strip_returns strip _ _ Hf) as [feedback ->].
  destruct (get_strip_returns strip _ _ Hn) as [name ->]. simpl.
  destruct (get_max_submissions_returns parse_int _ (new_result true)
              (truthy (default (JBool false) (py_dict members !! "private_results"))) Hmax)
    as (n & r1 & ->).
  simpl.
  destruct (gather_items_returns strip (Survey.base self) _ r1 "Answer" "answers" false
              Hanswers) as (answers & r2 & ->).
  simpl.
  destruct (gather_items_returns strip (Survey.base self) _ r2 "Question" "questions" true
              Hquestions) as (questions & r3 & ->).
  simpl. destruct (success r3); simpl; by eexists _, _.
Qed.

(** ** get_choices when the counters of the stored choices exist *)

Lemma count_vote_returns n (t : gmap string (gmap string Z)) key value :
  is_Some (t !! key ≫= (.!! value)) → ∃ t', Survey.count_vote n t key value = Val t'.
Proof.
  unfold Survey.count_vote, getitem, iadd. intros [c Hc].
  destruct (t !! key) as [sub|]; simpl in *; [|done].
  rewrite Hc. simpl. by eexists.
Qed.

Lemma remove_votes_returns (questions : gmap string entry) (answers : gmap string string)
    pairs (t : gmap string (gmap string Z)) :
  (∀ q a, (q, a) ∈ pairs → is_Some (questions !! q) → is_Some (answers !! a) →
          is_Some (t !! q ≫= (.!! a))) →
  ∃ t', Survey.remove_votes questions answers pairs t = Val t'.
Proof.
  revert t. induction pairs as [|[key value] pairs IH]; intros t Hex; simpl.
  - by eexists.
  - assert (∃ t1,
      (if bool_decide (is_Some (questions !! key))
       then if bool_decide (is_Some (answers !! value))
            then Survey.count_vote (-1) t key value else Val t
       else Val t) = Val t1 ∧
      ∀ q a, is_Some (t !! q ≫= (.!! a)) → is_Some (t1 !! q ≫= (.!! a)))
      as (t1 & -> & Hkeep).
    { case_bool_decide as Hq; [|by exists t].
      case_bool_decide as Ha; [|by exists t].
      destruct (count_vote_returns (-1) t key value) as [t1 Ht1].
      { apply Hex; [by left|done..]. }
      exists t1. split; [done|]. intros q a [c Hc].
      rewrite (count_vote_counter _ _ _ _ _ q a Ht1), Hc. by eexists. }
    simpl. apply IH. intros q a Hin Hq Ha. apply Hkeep, Hex; [by right|done..].
Qed.

(** Stale choices are taken out of the tally and forgotten, provided the
    counters they were counted in are still there. *)
Lemma get_choices_stale (self : Survey.SurveyBlock) c :
  Survey.choices self = Some c → ¬ still_valid self c →
  (∀ q a, c !! q = Some a → q ∈ (Survey.questions self).*1 →
          a ∈ (Survey.answers self).*1 →
          is_Some (Survey.tally self !! q ≫= (.!! a))) →
  ∃ self',
    Survey.get_choices self = Return None self' ∧
    Survey.choices self' = None ∧
    ∀ q a,
      Survey.tally self' !! q ≫= (.!! a) =
      (λ m, m - if bool_decide (c !! q = Some a)
                     && bool_decide (q ∈ (Survey.questions self).*1)
                     && bool_decide (a ∈ (Survey.answers self).*1)
                then 1 else 0) <$> (Survey.tally self !! q ≫= (.!! a)).
Proof.
  intros Hc Hstale Hex.
  pose proof (get_choices_cases self) as Hcases. rewrite Hc in Hcases.
  destruct Hcases as [[Hvalid _]|[_ ->]]; [done|].
  destruct (remove_votes_returns (py_dict (Survey.questions self))
              (py_dict (Survey.answers self)) (items c) (Survey.tally self)) as [t Ht].
  { intros q a Hin%elem_of_items Hq%py_dict_is_Some Ha%py_dict_is_Some. by apply Hex. }
  assert (Survey.remove_vote self =
          Return () (Survey.set_choices None (Survey.set_tally t self))) as Hrm.
  { unfold Survey.remove_vote. by rewrite Hc, Ht. }
  rewrite Hrm. eexists. split; [done|].
  by destruct (remove_vote_spec _ _ _ _ Hc Hrm) as (? & _ & _ & _ & _ & ?).
Qed.

(** Still-valid choices are returned and nothing changes. *)
Lemma get_choices_valid (self : Survey.SurveyBlock) c :
  Survey.choices self = Some c → still_valid self c →
  Survey.get_choices self = Return (Some c) self.
Proof.
  intros Hc Hvalid. pose proof (get_choices_cases self) as Hcases. rewrite Hc in Hcases.
  by destruct Hcases as [[_ ?]|[? _]].
Qed.

(** * Evaluations on the example blocks *)

Import Examples.

Lemma poll_vote_counts_witness :
  ∃ r self',
    Poll.vote vote_red default_poll = Return r self' ∧ success r = true ∧
    ∃ chosen old,
      subscript vote_red "choice" = Val (JStr chosen) ∧
      chosen ∈ (Poll.answers default_poll).*1 ∧
      Poll.get_choice default_poll = Return old default_poll ∧
      Poll.choice self' = Some chosen ∧
      (∀ k, Poll.tally self' !! k =
            (λ n, n + (if bool_decide (k = chosen) then 1 else 0)
                    - (if bool_decide (old = Some k) then 1 else 0))
            <$> Poll.tally (Poll.clean_tally default_poll) !! k) ∧
      match old with
      | None =>
          submissions_count (Poll.base self') = 1 ∧
          total (Poll.tally self') =
            total (Poll.tally (Poll.clean_tally default_poll)) + 1
      | Some _ =>
          private_results (Poll.base default_poll) = true ∧
          submissions_count (Poll.base self') =
            submissions_count (Poll.base default_poll) + 1 ∧
          total (Poll.tally self') = total (Poll.tally (Poll.clean_tally default_poll))
      end.
Proof.
  eexists _, _. split; [vm_compute; reflexivity|]. split; [reflexivity|].
  eapply (poll_vote_counts_against_reconciled_tally vote_red default_poll);
    vm_compute; reflexivity.
Defined.

(** C1 as stated fails on an invalidated vote: the user of [stale_poll]
    voted "O" before that answer was removed; voting "R" succeeds, yet
    [submissions_count] stays 1 and the sum of the tally counters stays 1. *)
Lemma poll_vote_as_stated_fails :
  ¬ (∀ r self',
       Poll.vote vote_red stale_poll = Return r self' → success r = true →
       Poll.choice self' = Some "R" ∧
       submissions_count (Poll.base self') =
         submissions_count (Poll.base stale_poll) + 1 ∧
       total (Poll.tally self') = total (Poll.tally stale_poll) + 1).
Proof.
  intros Hspec.
  edestruct Hspec as (_ & Hcount & _); [vm_compute; reflexivity | reflexivity |].
  vm_compute in Hcount. discriminate Hcount.
Qed.

Lemma survey_vote_counts_witness :
  ∃ r self',
    Survey.vote all_yes default_survey = Return r self' ∧ success r = true ∧
    ∃ members old selfG,
      all_yes = JObj members ∧
      dom (py_dict members) = list_to_set (Survey.questions default_survey).*1 ∧
      (∀ q v, py_dict members !! q = Some v →
              ∃ a, v = JStr a ∧ a ∈ (Survey.answers default_survey).*1) ∧
      Survey.choices self' = Some (Survey.as_choices (py_dict members)) ∧
      (∀ q a, Survey.as_choices (py_dict members) !! q = Some a ↔
              py_dict members !! q = Some (JStr a)) ∧
      Survey.get_choices default_survey = Return old selfG ∧
      (Survey.nonempty old = true →
       private_results (Survey.base default_survey) = true) ∧
      submissions_count (Survey.base self') =
        (if Survey.nonempty old
         then submissions_count (Survey.base default_survey) else 0) + 1 ∧
      ∀ q a,
        Survey.tally self' !! q ≫= (.!! a) =
        if bool_decide (q ∈ (Survey.questions default_survey).*1)
           && bool_decide (a ∈ (Survey.answers default_survey).*1)
        then Some (default 0
                     ((λ m, m - if bool_decide
                                     (Survey.choices default_survey ≫= (.!! q) = Some a)
                                then 1 else 0)
                      <$> (Survey.tally default_survey !! q ≫= (.!! a)))
                   + if bool_decide (Survey.as_choices (py_dict members) !! q = Some a)
                     then 1 else 0)
        else None.
Proof.
  eexists _, _. split; [vm_compute; reflexivity|]. split; [reflexivity|].
  eapply (survey_vote_counts_after_removal all_yes default_survey);
    vm_compute; reflexivity.
Defined.

(** C2 as stated fails when the stored choices have gone stale: the user
    of [revised_survey] answered before the question "learn" was removed;
    voting again succeeds, yet [submissions_count] stays 1. *)
Lemma survey_vote_as_stated_fails :
  ¬ (∀ r self',
       Survey.vote two_noes revised_survey = Return r self' → success r = true →
       Survey.choices self' = Some {[ "enjoy" := "N"; "recommend" := "N" ]} ∧
       submissions_count (Survey.base self') =
         submissions_count (Survey.base revised_survey) + 1).
Proof.
  intros Hspec.
  edestruct Hspec as (_ & Hcount); [vm_compute; reflexivity | reflexivity |].
  vm_compute in Hcount. discriminate Hcount.
Qed.

(** C4. [get_choices] does not always return: for a stored choice whose
    question is configured again but whose counters are missing from the
    shared tally, the lookup in [remove_vote] raises KeyError, where the
    specification has the stale vote removed and None returned. *)
Theorem get_choices_raises_on_missing_counters :
  Survey.choices readded_survey = Some {[ "enjoy" := "Y" ]} ∧
  ¬ still_valid readded_survey {[ "enjoy" := "Y" ]} ∧
  Survey.get_choices readded_survey = Raise KeyError.
Proof.
  split; [reflexivity|]. split; [|vm_compute; reflexivity].
  intros [Hdom _].
  assert ("learn" ∈ (list_to_set (Survey.questions readded_survey).*1 : gset string))
    as Hin by (apply elem_of_list_to_set; right; left).
  rewrite <-Hdom in Hin. apply elem_of_dom in Hin as [a Ha]. vm_compute in Ha. done.
Qed.

(** C6. [student_view_user_state] returns the stored tally without
    reconciling it: in both blocks the response can hold a key that is no
    longer configured. *)
Theorem student_view_user_state_unreconciled :
  (∃ state,
     Poll.student_view_user_state stale_poll = Return state stale_poll ∧
     Poll.us_tally state !! "O" = Some 1 ∧
     "O" ∉ (Poll.answers stale_poll).*1) ∧
  (∃ state self',
     Survey.student_view_user_state revised_survey = Return state self' ∧
     is_Some (Survey.us_tally state !! "learn") ∧
     "learn" ∉ (Survey.questions revised_survey).*1).
Proof.
  split.
  - eexists. split; [vm_compute; reflexivity|]. split; [vm_compute; reflexivity|].
    apply (bool_decide_unpack _). vm_compute. exact I.
  - eexists _, _. split; [vm_compute; reflexivity|].
    split; [eexists; vm_compute; reflexivity|].
    apply (bool_decide_unpack _). vm_compute. exact I.
Qed.

(** C8. [PollBlock.vote] raises on a request whose choice is unhashable:
    the lookup in the answers table raises TypeError, which the handler
    does not catch. *)
Theorem poll_vote_raises_on_unhashable_choice :
  subscript vote_array "choice" = Val (JArr []) ∧
  Poll.vote vote_array default_poll = Raise TypeError.
Proof. split; vm_compute; reflexivity. Qed.

Lemma get_choice_witness :
  Poll.choice stale_poll = Some "O" ∧
  (Poll.get_choice stale_poll = Return (Some "O") stale_poll ↔
     "O" ≠ "" ∧ "O" ∈ (Poll.answers stale_poll).*1) ∧
  (¬ ("O" ≠ "" ∧ "O" ∈ (Poll.answers stale_poll).*1) →
   Poll.get_choice stale_poll = Return None stale_poll) ∧
  (∃ r, Poll.get_choice stale_poll = Return r stale_poll).
Proof. split; [reflexivity|]. apply (get_choice_spec stale_poll "O"). reflexivity. Defined.

Lemma can_vote_witness :
  can_vote (set_submissions_count 7 default_base) = false.
Proof.
  apply (proj2 (proj2 can_vote_spec) (set_submissions_count 7 default_base)).
  - reflexivity.
  - simpl. lia.
Defined.

(** C7. In [studio_submit] of both blocks every validation failure leaves
    its message in [result['errors']] with [result['success']] False, and
    at return [result['success']] is False exactly when
    [result['errors']] is not empty; the handler returns on every form whose
    fields have the expected JSON types. *)
Theorem studio_submit_reports_failures strip parse_int (data : json) :
  (∀ self : Poll.PollBlock,
     (poll_form_typed data →
      ∃ r self', Poll.studio_submit strip parse_int data self = Return r self') ∧
     ∀ self' r,
       Poll.studio_submit strip parse_int data self = Return r self' →
       (success r = false ↔ errors r ≠ []) ∧
       ∃ members,
         data = JObj members ∧
         ∀ m,
           max_submissions_failure parse_int (py_dict members)
             (truthy (default (JBool false) (py_dict members !! "private_results"))) m ∨
           (get_strip strip (py_dict members) "question" = Val "" ∧ m = NoQuestion) ∨
           items_failure strip (Poll.base self) (py_dict members)
             "Answer" "answers" true m →
           m ∈ errors r ∧ success r = false) ∧
  (∀ self : Survey.SurveyBlock,
     (survey_form_typed data →
      ∃ r self', Survey.studio_submit strip parse_int data self = Return r self') ∧
     ∀ self' r,
       Survey.studio_submit strip parse_int data self = Return r self' →
       (success r = false ↔ errors r ≠ []) ∧
       ∃ members,
         data = JObj members ∧
         ∀ m,
           max_submissions_failure parse_int (py_dict members)
             (truthy (default (JBool false) (py_dict members !! "private_results"))) m ∨
           items_failure strip (Survey.base self) (py_dict members)
             "Answer" "answers" false m ∨
           items_failure strip (Survey.base self) (py_dict members)
             "Question" "questions" true m →
           m ∈ errors r ∧ success r = false).
Proof.
  split; intros self; (split; [|intros self' r Hsubmit]).
  - apply poll_studio_submit_returns.
  - apply poll_studio_submit_spec in Hsubmit as (Hcons & _ & members & -> & Hall).
    split; [done|]. exists members. split; [done|]. intros m Hm.
    split; [by apply Hall|]. eapply consistent_reported; [done | by apply Hall].
  - apply survey_studio_submit_returns.
  - apply survey_studio_submit_spec in Hsubmit as (Hcons & _ & members & -> & Hall).
    split; [done|]. exists members. split; [done|]. intros m Hm.
    split; [by apply Hall|]. eapply consistent_reported; [done | by apply Hall].
Qed.

Lemma studio_submit_reports_witness :
  poll_form_typed empty_form ∧
  ∃ r,
    Poll.studio_submit no_strip no_int empty_form default_poll = Return r default_poll ∧
    (success r = false ↔ errors r ≠ []) ∧
    ∃ members,
      empty_form = JObj members ∧
      ∀ m,
        max_submissions_failure no_int (py_dict members)
          (truthy (default (JBool false) (py_dict members !! "private_results"))) m ∨
        (get_strip no_strip (py_dict members) "question" = Val "" ∧ m = NoQuestion) ∨
        items_failure no_strip (Poll.base default_poll) (py_dict members)
          "Answer" "answers" true m →
        m ∈ errors r ∧ success r = false.
Proof.
  split; [vm_compute; auto|].
  eexists. split; [vm_compute; reflexivity|].
  apply (proj2 (proj1 (studio_submit_reports_failures no_strip no_int empty_form)
                  default_poll) default_poll).
  vm_compute; reflexivity.
Defined.

(** C10. [studio_submit] assigns the settings fields only after all
    validation has passed: when it returns a result with success False the
    block is exactly as it was. *)
Theorem studio_submit_atomic strip parse_int (data : json) :
  (∀ (self self' : Poll.PollBlock) r,
     Poll.studio_submit strip parse_int data self = Return r self' →
     success r = false → self' = self) ∧
  (∀ (self self' : Survey.SurveyBlock) r,
     Survey.studio_submit strip parse_int data self = Return r self' →
     success r = false → self' = self).
Proof.
  split; intros self self' r Hsubmit.
  - by apply poll_studio_submit_spec in Hsubmit as (_ & ? & _).
  - by apply survey_studio_submit_spec in Hsubmit as (_ & ? & _).
Qed.

Lemma studio_submit_atomic_witness :
  ∃ r self',
    Survey.studio_submit no_strip no_int empty_form default_survey = Return r self' ∧
    success r = false ∧ self' = default_survey.
Proof.
  eexists _, _. split; [vm_compute; reflexivity|]. split; [reflexivity|].
  eapply (proj2 (studio_submit_atomic no_strip no_int empty_form)
            default_survey);
    vm_compute; reflexivity.
Defined.

(** * Further properties of the handlers *)

(** ** PollBlock.vote: every outcome *)

(** The block in which [vote] counts a vote: the submission count is reset
    when there is no valid previous choice. *)
Lemma poll_vote_counts (self : Poll.PollBlock) (old : option string) (chosen : string) :
  (∀ o, old = Some o → o ∈ (Poll.answers self).*1) →
  chosen ∈ (Poll.answers self).*1 →
  ∃ t1 t,
    match old with
    | Some o => iadd (Poll.tally (Poll.clean_tally self)) o (-1)
    | None => Val (Poll.tally (Poll.clean_tally self))
    end = Val t1 ∧
    iadd t1 chosen 1 = Val t.
Proof.
  intros Hold Hchosen.
  pose proof (poll_clean_tally_lookup self chosen) as Hc.
  rewrite bool_decide_true in Hc by done.
  destruct old as [o|].
  - pose proof (poll_clean_tally_lookup self o) as Ho.
    rewrite bool_decide_true in Ho by auto.
    set (t0 := Poll.tally (Poll.clean_tally self)) in *.
    unfold iadd. rewrite Ho.
    destruct (decide (o = chosen)) as [->|Hne].
    + eexists _, _. split; [done|]. by rewrite lookup_insert_eq.
    + eexists _, _. split; [done|]. by rewrite lookup_insert_ne, Hc.
  - set (t0 := Poll.tally (Poll.clean_tally self)) in *.
    exists t0. unfold iadd. rewrite Hc. by eexists.
Qed.

Lemma poll_vote_ends (data : json) (self : Poll.PollBlock) :
  poll_vote_end data self (Poll.vote data self).
Proof.
  unfold Poll.vote.
  destruct (poll_get_choice_cases self) as [(o & Hco & Hne & Hin & Hget)|[Hbad Hget]];
    rewrite Hget.
  - rewrite bool_decide_true by done. simpl.
    destruct (private_results (Poll.base self)) eqn:Hpriv; simpl;
      [|by eapply vote_already_voted].
    destruct data as [| | | | |members]; try (by apply vote_no_object).
    simpl. unfold getitem at 1.
    destruct (py_dict members !! "choice") as [choice|] eqn:Hchoice;
      [|by eapply vote_no_choice].
    assert (subscript (JObj members) "choice" = Val choice) as Hsub.
    { simpl. unfold getitem. by rewrite Hchoice. }
    destruct choice as [|b|n|chosen|l|l]; simpl;
      try (by apply (vote_unknown _ _ _ Hsub));
      try (by apply (vote_unhashable _ _ _ Hsub); eauto).
    unfold getitem.
    destruct (py_dict (Poll.answers self) !! chosen) as [e|] eqn:He; simpl.
    2:{ apply (vote_unknown _ _ _ Hsub); try done.
        intros c [= <-]. by apply py_dict_None. }
    assert (chosen ∈ (Poll.answers self).*1) as Hchosen.
    { apply py_dict_is_Some. by eexists. }
    destruct (can_vote (Poll.base self)) eqn:Hcan; simpl.
    2:{ by apply (vote_used_up _ _ chosen (Some o)). }
    destruct (poll_vote_counts self (Some o) chosen) as (t1 & t & Ht1 & Ht);
      [by intros ? [= <-] | done |].
    change (Poll.drop_stale _ _ _) with (Poll.tally (Poll.clean_tally self)).
    rewrite Ht1, Ht.
    by eapply (vote_counted _ _ chosen (Some o)).
  - rewrite bool_decide_false by (by intros []). simpl.
    destruct data as [| | | | |members]; try (by apply vote_no_object).
    simpl. unfold getitem at 1.
    destruct (py_dict members !! "choice") as [choice|] eqn:Hchoice;
      [|by eapply vote_no_choice].
    assert (subscript (JObj members) "choice" = Val choice) as Hsub.
    { simpl. unfold getitem. by rewrite Hchoice. }
    destruct choice as [|b|n|chosen|l|l]; simpl;
      try (by apply (vote_unknown _ _ _ Hsub));
      try (by apply (vote_unhashable _ _ _ Hsub); eauto).
    unfold getitem.
    destruct (py_dict (Poll.answers self) !! chosen) as [e|] eqn:He; simpl.
    2:{ apply (vote_unknown _ _ _ Hsub); try done.
        intros c [= <-]. by apply py_dict_None. }
    assert (chosen ∈ (Poll.answers self).*1) as Hchosen.
    { apply py_dict_is_Some. by eexists. }
    destruct (can_vote (set_submissions_count 0 (Poll.base self))) eqn:Hcan; simpl.
    2:{ by apply (vote_used_up _ _ chosen None). }
    destruct (poll_vote_counts self None chosen) as (t1 & t & [= <-] & Ht);
      [done | done |].
    rewrite Ht.
    by eapply (vote_counted _ _ chosen None).
Qed.

(** What a successful [PollBlock.vote] leaves behind. *)
Lemma poll_vote_counted (data : json) (self self' : Poll.PollBlock) r :
  Poll.vote data self = Return r self' → success r = true →
  ∃ chosen (old : option string),
    subscript data "choice" = Val (JStr chosen) ∧
    chosen ∈ (Poll.answers self).*1 ∧
    can_vote (if old is Some _ then Poll.base self
              else set_submissions_count 0 (Poll.base self)) = true ∧
    Poll.choice self' = Some chosen ∧
    Poll.answers self' = Poll.answers self ∧
    Poll.base self' =
      set_submissions_count
        ((if old is Some _ then submissions_count (Poll.base self) else 0) + 1)
        (Poll.base self) ∧
    r_can_vote r = Some (can_vote (Poll.base self')) ∧
    r_submissions_count r = Some (submissions_count (Poll.base self')) ∧
    r_max_submissions r = Some (max_submissions (Poll.base self')).
Proof.
  intros Hvote Hr. pose proof (poll_vote_ends data self) as Hend.
  rewrite Hvote in Hend. clear Hvote.
  inversion Hend; subst; try done.
  eexists _, _. split_and!; eassumption.
Qed.

(** X1. Whenever [PollBlock.vote] returns a result with success False, the
    result holds exactly one message and the tally, the stored choice and
    the answers are as before; the block itself is unchanged unless the vote
    was refused for used-up submissions with no valid previous choice, in
    which case [submissions_count] has been reset to 0. *)
Theorem poll_vote_failure_keeps_votes (data : json) (self self' : Poll.PollBlock) r :
  Poll.vote data self = Return r self' → success r = false →
  ∃ m,
    errors r = [m] ∧
    Poll.tally self' = Poll.tally self ∧
    Poll.choice self' = Poll.choice self ∧
    Poll.answers self' = Poll.answers self ∧
    (self' = self ∨
     (m = VotedMaxTimes ∧
      self' = Poll.set_base (set_submissions_count 0 (Poll.base self)) self)).
Proof.
  intros Hvote Hr. pose proof (poll_vote_ends data self) as Hend.
  rewrite Hvote in Hend. clear Hvote.
  inversion Hend as [old _ _|? H|members _ _|? ? ? H|choice _ _ _ _
                    |chosen old _ _ _ _|chosen old r0 self0 _ _ _ _ Hs];
    subst; try (eexists; split_and!; try done; by left).
  - destruct old; eexists; (split_and!; [done..|]); [by left|by right].
  - congruence.
Qed.

Lemma poll_vote_failure_witness :
  ∃ r self',
    Poll.vote empty_form default_poll = Return r self' ∧ success r = false ∧
    ∃ m,
      errors r = [m] ∧
      Poll.tally self' = Poll.tally default_poll ∧
      Poll.choice self' = Poll.choice default_poll ∧
      Poll.answers self' = Poll.answers default_poll ∧
      (self' = default_poll ∨
       (m = VotedMaxTimes ∧
        self' = Poll.set_base (set_submissions_count 0 (Poll.base default_poll))
                  default_poll)).
Proof.
  eexists _, _. split; [vm_compute; reflexivity|]. split; [reflexivity|].
  eapply (poll_vote_failure_keeps_votes empty_form default_poll);
    vm_compute; reflexivity.
Defined.

(** X2. [PollBlock.vote] raises nothing but TypeError, and only when the
    request data is no JSON object or the submitted choice is an array or an
    object; for an object whose choice is absent or a string, number,
    boolean or null it always returns a result. *)
Theorem poll_vote_raises_only_on_unhashable (data : json) (self : Poll.PollBlock) :
  (∀ e, Poll.vote data self = Raise e →
        e = TypeError ∧
        ((∀ members, data ≠ JObj members) ∨
         ∃ choice, subscript data "choice" = Val choice ∧
                   ((∃ l, choice = JArr l) ∨ (∃ l, choice = JObj l)))) ∧
  (∀ members,
     data = JObj members →
     (∀ l, py_dict members !! "choice" ≠ Some (JArr l)) →
     (∀ l, py_dict members !! "choice" ≠ Some (JObj l)) →
     ∃ r self', Poll.vote data self = Return r self').
Proof.
  pose proof (poll_vote_ends data self) as Hend. split.
  - intros e He. rewrite He in Hend.
    inversion Hend as [|Hno| |choice Hsub Hun| | |]; subst.
    + split; [done|]. by left.
    + split; [done|]. right. by exists choice.
  - intros members -> Harr Hobj.
    destruct (Poll.vote (JObj members) self) as [e|r self'] eqn:Hvote; [|by eexists _, _].
    exfalso. inversion Hend as [|Hno| |choice Hsub Hun| | |]; subst.
    + by destruct (Hno members).
    + simpl in Hsub. unfold getitem in Hsub.
      destruct (py_dict members !! "choice") as [c|] eqn:Hc; [|done].
      injection Hsub as ->. destruct Hun as [[l ->]|[l ->]]; [by eapply Harr|by eapply Hobj].
Qed.

Lemma poll_vote_returns_witness :
  ∃ r self', Poll.vote vote_red stale_poll = Return r self'.
Proof.
  apply (proj2 (poll_vote_raises_only_on_unhashable vote_red stale_poll)
           [("choice", JStr "R")] eq_refl); vm_compute; discriminate.
Defined.

(** X3. After a successful vote on a non-empty answer key, [get_choice]
    returns that choice and [student_voted] reports True; if the results are
    public, every further vote is refused as already voted and changes
    nothing. *)
Theorem poll_vote_then_voted (data : json) (self self' : Poll.PollBlock) r :
  Poll.vote data self = Return r self' → success r = true →
  subscript data "choice" ≠ Val (JStr "") →
  ∃ chosen,
    subscript data "choice" = Val (JStr chosen) ∧
    Poll.get_choice self' = Return (Some chosen) self' ∧
    PollViews.student_voted self' =
      Return {| PollViews.voted := true;
                PollViews.voted_private_results := private_results (Poll.base self) |}
        self' ∧
    (private_results (Poll.base self) = false →
     ∀ data', Poll.vote data' self' =
              Return (append_error AlreadyVoted (new_result false)) self').
Proof.
  intros Hvote Hr Hne.
  destruct (poll_vote_counted _ _ _ _ Hvote Hr)
    as (chosen & old & Hsub & Hin & _ & Hch & Hans & Hbase & _).
  assert (private_results (Poll.base self') = private_results (Poll.base self)) as Hpriv.
  { by rewrite Hbase. }
  assert (chosen ≠ "") as Hnonempty by (intros ->; done).
  assert (Poll.get_choice self' = Return (Some chosen) self') as Hget.
  { unfold Poll.get_choice. rewrite Hch, Hans.
    destruct (String.eqb_spec chosen "") as [->|_]; [done|]. simpl.
    rewrite bool_decide_true; [done|]. by apply py_dict_is_Some. }
  exists chosen. split_and!; [done | done | |].
  - unfold PollViews.student_voted. rewrite Hget, Hpriv. done.
  - intros Hpub data'. unfold Poll.vote. rewrite Hget, Hpriv, Hpub. done.
Qed.

Lemma poll_vote_then_voted_witness :
  ∃ r self',
    Poll.vote vote_red default_poll = Return r self' ∧
    ∃ chosen,
      subscript vote_red "choice" = Val (JStr chosen) ∧
      Poll.get_choice self' = Return (Some chosen) self' ∧
      PollViews.student_voted self' =
        Return {| PollViews.voted := true;
                  PollViews.voted_private_results :=
                    private_results (Poll.base default_poll) |} self' ∧
      (private_results (Poll.base default_poll) = false →
       ∀ data', Poll.vote data' self' =
                Return (append_error AlreadyVoted (new_result false)) self').
Proof.
  eexists _, _. split; [vm_compute; reflexivity|].
  eapply (poll_vote_then_voted vote_red default_poll);
    [vm_compute; reflexivity | reflexivity | vm_compute; discriminate].
Defined.

(** X4. A successful [PollBlock.vote] reports the new [submissions_count],
    the limit and whether the user may vote again, and never takes
    [submissions_count] above a limit other than 0; with a limit of 1 (and a
    count that was not negative) the result says that the user can no longer
    vote. *)
Theorem poll_vote_respects_limit (data : json) (self self' : Poll.PollBlock) r :
  Poll.vote data self = Return r self' → success r = true →
  max_submissions (Poll.base self') = max_submissions (Poll.base self) ∧
  r_submissions_count r = Some (submissions_count (Poll.base self')) ∧
  r_max_submissions r = Some (max_submissions (Poll.base self)) ∧
  r_can_vote r = Some (can_vote (Poll.base self')) ∧
  (max_submissions (Poll.base self) ≠ 0 →
   submissions_count (Poll.base self') ≤ max_submissions (Poll.base self)) ∧
  (max_submissions (Poll.base self) = 1 → 0 ≤ submissions_count (Poll.base self) →
   r_can_vote r = Some false).
Proof.
  intros Hvote Hr.
  destruct (poll_vote_counted _ _ _ _ Hvote Hr)
    as (chosen & old & _ & _ & Hcan & _ & _ & Hbase & Hrc & Hrs & Hrm).
  rewrite Hrc, Hrs, Hrm, Hbase. simpl.
  assert (max_submissions (Poll.base self) ≠ 0 →
          (if old is Some _ then submissions_count (Poll.base self) else 0) + 1
          ≤ max_submissions (Poll.base self)) as Hle.
  { intros Hmax. unfold can_vote in Hcan.
    apply orb_true_iff in Hcan as [Hz|Hlt].
    - destruct old; simpl in Hz; lia.
    - destruct old; simpl in Hlt; lia. }
  split_and!; try done.
  intros Hone Hpos. f_equal. unfold can_vote. simpl. rewrite Hone.
  apply orb_false_iff. split; [done|]. apply Z.ltb_ge. destruct old; lia.
Qed.

Lemma poll_vote_respects_limit_witness :
  ∃ r self',
    Poll.vote vote_red default_poll = Return r self' ∧
    max_submissions (Poll.base self') = max_submissions (Poll.base default_poll) ∧
    r_submissions_count r = Some (submissions_count (Poll.base self')) ∧
    r_max_submissions r = Some (max_submissions (Poll.base default_poll)) ∧
    r_can_vote r = Some (can_vote (Poll.base self')) ∧
    (max_submissions (Poll.base default_poll) ≠ 0 →
     submissions_count (Poll.base self') ≤ max_submissions (Poll.base default_poll)) ∧
    (max_submissions (Poll.base default_poll) = 1 →
     0 ≤ submissions_count (Poll.base default_poll) → r_can_vote r = Some false).
Proof.
  eexists _, _. split; [vm_compute; reflexivity|].
  eapply (poll_vote_respects_limit vote_red default_poll);
    [vm_compute; reflexivity | reflexivity].
Defined.

(** ** SurveyBlock.vote: every outcome *)

Lemma unknown_answers_grows (ks : list string) (pairs : list (string * json)) (r : Result) :
  grows r
    (foldl (λ result kv,
              if negb (Survey.in_keys kv.2 ks)
              then append_error (UnknownAnswer kv.1 kv.2) (set_success false result)
              else result) r pairs) ∧
  ∀ q v, (q, v) ∈ pairs → Survey.in_keys v ks = false →
         UnknownAnswer q v ∈
           errors (foldl (λ result kv,
                            if negb (Survey.in_keys kv.2 ks)
                            then append_error (UnknownAnswer kv.1 kv.2)
                                   (set_success false result)
                            else result) r pairs).
Proof.
  revert r. induction pairs as [|[q0 v0] pairs IH]; intros r; simpl.
  - split; [apply grows_refl|]. by intros q v ?%elem_of_nil.
  - destruct (grows_if (negb (Survey.in_keys v0 ks)) (UnknownAnswer q0 v0) r) as [Hg Hin].
    destruct (IH (if negb (Survey.in_keys v0 ks)
                  then append_error (UnknownAnswer q0 v0) (set_success false r)
                  else r)) as [Hg' Hin'].
    split; [eauto using grows_trans|].
    intros q v [[= -> ->]|Hmem]%elem_of_cons Hbad; [|by apply Hin'].
    eapply grows_elem_of; [exact Hg'|]. apply Hin. by rewrite Hbad.
Qed.

Lemma unknown_answers_none (ks : list string) (pairs : list (string * json)) (r : Result) :
  (∀ q v, (q, v) ∈ pairs → Survey.in_keys v ks = true) →
  foldl (λ result kv,
           if negb (Survey.in_keys kv.2 ks)
           then append_error (UnknownAnswer kv.1 kv.2) (set_success false result)
           else result) r pairs = r.
Proof.
  revert r. induction pairs as [|[q0 v0] pairs IH]; intros r Hall; simpl; [done|].
  rewrite (Hall q0 v0) by left. simpl. apply IH. intros q v Hin.
  apply (Hall q v). by right.
Qed.

Lemma in_keys_iff (v : json) (d : gmap string string) :
  Survey.in_keys v (keys d) = true ↔ ∃ a, v = JStr a ∧ is_Some (d !! a).
Proof.
  split; [apply in_keys_true|]. intros (a & -> & Ha). simpl.
  apply bool_decide_eq_true. by apply elem_of_keys.
Qed.

Lemma record_votes_returns pairs (t : gmap string (gmap string Z)) :
  (∀ q a, (q, a) ∈ pairs → is_Some (t !! q ≫= (.!! a))) →
  ∃ t', Survey.record_votes pairs t = Val t' ∧
        ∀ q a, is_Some (t !! q ≫= (.!! a)) → is_Some (t' !! q ≫= (.!! a)).
Proof.
  revert t. induction pairs as [|[key value] pairs IH]; intros t Hex; simpl.
  - by exists t.
  - destruct (count_vote_returns 1 t key value) as [t1 Ht1]; [apply Hex; by left|].
    rewrite Ht1. simpl.
    assert (∀ q a, is_Some (t !! q ≫= (.!! a)) → is_Some (t1 !! q ≫= (.!! a))) as Hkeep.
    { intros q a [c Hc]. rewrite (count_vote_counter _ _ _ _ _ q a Ht1), Hc. by eexists. }
    destruct (IH t1) as (t' & Ht' & Hkeep').
    { intros q a Hin. apply Hkeep, Hex. by right. }
    exists t'. split; [done|]. auto.
Qed.

Lemma get_choices_keeps (self selfG : Survey.SurveyBlock) old :
  Survey.get_choices self = Return old selfG →
  Survey.questions selfG = Survey.questions self ∧
  Survey.answers selfG = Survey.answers self ∧
  Survey.base selfG = Survey.base self ∧
  Survey.choices selfG = old ∧
  (∀ c, old = Some c → selfG = self ∧ still_valid self c).
Proof.
  intros Hget. pose proof (get_choices_cases self) as Hcases.
  destruct (Survey.choices self) as [c|] eqn:Hc.
  - destruct Hcases as [[Hvalid Hg]|[_ Hg]]; rewrite Hg in Hget.
    + injection Hget as <- <-. split_and!; try done. by intros ? [= <-].
    + destruct (Survey.remove_vote self) as [e|u selfR] eqn:Hrm; [done|].
      injection Hget as <- <-.
      destruct (remove_vote_spec _ _ _ _ Hc Hrm) as (? & ? & ? & ? & _).
      by split_and!.
  - rewrite Hcases in Hget. injection Hget as <- <-. by split_and!.
Qed.

Lemma survey_count_tail (selfR : Survey.SurveyBlock) (d : gmap string json) :
  dom d = list_to_set (Survey.questions selfR).*1 →
  (∀ q v, d !! q = Some v → ∃ a, v = JStr a ∧ a ∈ (Survey.answers selfR).*1) →
  ∃ t,
    Survey.record_votes (items (Survey.as_choices d))
      (Survey.tally
         (Survey.clean_tally (Survey.set_choices (Some (Survey.as_choices d)) selfR)))
    = Val t ∧
    ∀ q a, q ∈ (Survey.questions selfR).*1 → a ∈ (Survey.answers selfR).*1 →
           is_Some (t !! q ≫= (.!! a)).
Proof.
  intros Hdom Hvals.
  set (self2 := Survey.clean_tally (Survey.set_choices (Some (Survey.as_choices d)) selfR)).
  assert (∀ q a, q ∈ (Survey.questions selfR).*1 → a ∈ (Survey.answers selfR).*1 →
                 is_Some (Survey.tally self2 !! q ≫= (.!! a))) as Hclean.
  { intros q a Hq Ha. unfold self2. rewrite survey_clean_tally_counter. simpl.
    rewrite !bool_decide_true by done. by eexists. }
  destruct (record_votes_returns (items (Survey.as_choices d)) (Survey.tally self2))
    as (t & Ht & Hkeep).
  { intros q a Hin%elem_of_items%as_choices_lookup.
    destruct (Hvals q _ Hin) as (a' & [= <-] & Ha). apply Hclean; [|done].
    apply (elem_of_list_to_set (C:=gset string)). rewrite <-Hdom.
    apply elem_of_dom. by eexists. }
  exists t. split; [done|]. auto.
Qed.

Lemma survey_vote_ends (data : json) (self : Survey.SurveyBlock) :
  survey_vote_end data self (Survey.vote data self).
Proof.
  unfold Survey.vote.
  destruct (Survey.get_choices self) as [e|old selfG] eqn:Hget;
    [by apply survey_choices_raise|].
  destruct (get_choices_keeps _ _ _ Hget) as (HQ & HA & HB & HC & Hvalid).
  set (r1 := if Survey.nonempty old && negb (private_results (Survey.base selfG))
             then _ else _).
  change (if negb (Survey.nonempty old) then _ else selfG) with (after_choices old selfG).
  set (self1 := after_choices old selfG).
  set (r2 := if negb (can_vote (Survey.base self1)) then _ else r1).
  destruct data as [| | | | |members]; try (by eapply survey_no_object).
  set (d := py_dict members).
  set (r3 := if negb (bool_decide (sorted (keys d) = sorted (keys _))) then _ else r2).
  set (r4 := foldl _ r3 (items d)).
  (* the result of the four checks *)
  destruct (grows_if (Survey.nonempty old && negb (private_results (Survey.base selfG)))
              AlreadyVoted (new_result true)) as [Hg1 Hin1].
  fold r1 in Hg1, Hin1.
  destruct (grows_if (negb (can_vote (Survey.base self1))) VotedMaxTimes r1) as [Hg2 Hin2].
  fold r2 in Hg2, Hin2.
  destruct (grows_if
              (negb (bool_decide (sorted (keys d) =
                                  sorted (keys (py_dict (Survey.questions self))))))
              NotAllQuestions r2) as [Hg3 Hin3].
  fold r3 in Hg3, Hin3.
  destruct (unknown_answers_grows (keys (py_dict (Survey.answers self))) (items d) r3)
    as [Hg4 Hin4].
  fold r4 in Hg4, Hin4.
  assert (consistent r4) as Hcons.
  { apply Hg4, Hg3, Hg2, Hg1, consistent_new_result. }
  assert (Survey.questions self1 = Survey.questions self ∧
          Survey.answers self1 = Survey.answers self ∧
          Survey.choices self1 = Survey.choices selfG ∧
          Survey.tally self1 = Survey.tally selfG)
    as (HQ1 & HA1 & HC1 & HT1).
  { unfold self1, after_choices. by destruct (Survey.nonempty old). }
  destruct (success r4) eqn:Hr4; simpl.
  - (* all checks passed *)
    assert (vote_accepted self old selfG d) as Hacc.
    { apply unknown_answers_fold in Hr4 as [Hr3 Hvals].
      apply success_fail_if in Hr3 as [Hsorted Hr2].
      apply negb_false_iff, bool_decide_eq_true, sorted_keys_eq in Hsorted.
      rewrite dom_py_dict in Hsorted.
      apply success_fail_if in Hr2 as [Hcan Hr1].
      apply success_fail_if in Hr1 as [Hpriv _].
      split_and!.
      - intros Hne. rewrite Hne in Hpriv. by destruct (private_results _).
      - by apply negb_false_iff.
      - done.
      - intros q v Hqv. apply elem_of_items, Hvals, in_keys_true in Hqv as (a & -> & Ha).
        exists a. split; [done|]. by apply py_dict_is_Some. }
    assert (∀ selfR : Survey.SurveyBlock,
      Survey.questions selfR = Survey.questions self →
      Survey.answers selfR = Survey.answers self →
      Survey.base selfR = Survey.base self1 →
      survey_vote_end (JObj members) self
        match
          Survey.record_votes (items (Survey.as_choices d))
            (Survey.tally
               (Survey.clean_tally
                  (Survey.set_choices (Some (Survey.as_choices d)) selfR)))
        with
        | Throw e => Raise e
        | Val t =>
            let self' := Survey.set_tally t
              (Survey.clean_tally
                 (Survey.set_choices (Some (Survey.as_choices d)) selfR)) in
            let self' :=
              Survey.set_base
                (set_submissions_count (submissions_count (Survey.base self') + 1)
                   (Survey.base self')) self' in
            Return
              (set_counts (submissions_count (Survey.base self'))
                 (max_submissions (Survey.base self'))
                 (set_can_vote (can_vote (Survey.base self')) r4)) self'
        end) as Hcount.
    { intros selfR HQR HAR HBR.
      destruct (survey_count_tail selfR d) as (t & -> & Hex).
      - rewrite HQR. by destruct Hacc as (_ & _ & ? & _).
      - rewrite HAR. by destruct Hacc as (_ & _ & _ & ?).
      - simpl. eapply survey_counted; try done; simpl.
        + destruct (consistent_new_result) as [_ _].
          destruct (errors r4) eqn:Herr; [done|].
          destruct Hcons as [_ Hc]. rewrite Hc in Hr4; [done|]. by rewrite Herr.
        + rewrite HBR. unfold self1, after_choices.
          by destruct (negb (Survey.nonempty old)).
        + intros q a Hq Ha. apply Hex; by rewrite ?HQR, ?HAR. }
    destruct (Survey.nonempty (Survey.choices self1)) eqn:Hne.
    + destruct (Survey.remove_vote self1) as [e|u selfR] eqn:Hrm.
      { eapply survey_remove_raise; try done. by rewrite <-HC1. }
      assert (∃ c, Survey.choices self1 = Some c) as [c Hc1].
      { destruct (Survey.choices self1); [by eexists|done]. }
      destruct (remove_vote_spec _ _ _ _ Hc1 Hrm) as (_ & HBR & HAR & HQR & _).
      apply Hcount; congruence.
    + by apply Hcount.
  - (* some check failed *)
    eapply survey_rejected; try done.
    + intros Hacc. destruct Hacc as (Hpriv & Hcan & Hdom & Hvals).
      assert (success r4 = true); [|congruence].
      unfold r4. rewrite unknown_answers_none.
      2:{ intros q v Hqv%elem_of_items. destruct (Hvals q v Hqv) as (a & -> & Ha).
          apply in_keys_iff. exists a. split; [done|]. by apply py_dict_is_Some. }
      unfold r3. rewrite bool_decide_true.
      2:{ apply sorted_keys_eq. by rewrite dom_py_dict. }
      simpl. unfold r2. fold self1 in Hcan. rewrite Hcan. simpl. unfold r1.
      destruct (Survey.nonempty old); [|done]. by rewrite Hpriv.
    + by apply Hcons.
    + intros Hne Hpub. eapply grows_elem_of; [exact Hg4|].
      eapply grows_elem_of; [exact Hg3|]. eapply grows_elem_of; [exact Hg2|].
      apply Hin1. by rewrite Hne, Hpub.
    + intros Hcan. eapply grows_elem_of; [exact Hg4|].
      eapply grows_elem_of; [exact Hg3|]. apply Hin2. unfold self1. by rewrite Hcan.
    + intros Hdom. eapply grows_elem_of; [exact Hg4|]. apply Hin3.
      apply negb_true_iff, bool_decide_eq_false. intros Hs%sorted_keys_eq.
      by rewrite dom_py_dict in Hs.
    + intros q v Hqv Hbad. apply Hin4; [by apply elem_of_items|].
      destruct (Survey.in_keys v _) eqn:Hk; [|done].
      apply in_keys_true in Hk as (a & -> & Ha%py_dict_is_Some). by destruct (Hbad a).
Qed.

Lemma count_vote_throws n (t : gmap string (gmap string Z)) key value e :
  Survey.count_vote n t key value = Throw e → e = KeyError.
Proof.
  unfold Survey.count_vote, getitem, iadd.
  destruct (t !! key) as [sub|]; simpl; [|by intros [= <-]].
  destruct (sub !! value); simpl; [done|by intros [= <-]].
Qed.

Lemma remove_votes_throws (questions : gmap string entry) (answers : gmap string string)
    pairs (t : gmap string (gmap string Z)) e :
  Survey.remove_votes questions answers pairs t = Throw e → e = KeyError.
Proof.
  revert t. induction pairs as [|[key value] pairs IH]; intros t; simpl; [done|].
  destruct (bool_decide (is_Some (questions !! key)));
    [destruct (bool_decide (is_Some (answers !! value)))|]; simpl; try apply IH.
  destruct (Survey.count_vote (-1) t key value) as [e'|t1] eqn:Hstep; simpl; [|apply IH].
  intros [= <-]. by eapply count_vote_throws.
Qed.

Lemma remove_vote_raises (self : Survey.SurveyBlock) e :
  Survey.remove_vote self = Raise e →
  (e = KeyError ∧ is_Some (Survey.choices self)) ∨
  (e = AttributeError ∧ Survey.choices self = None).
Proof.
  unfold Survey.remove_vote. destruct (Survey.choices self) as [c|].
  - destruct (Survey.remove_votes _ _ _ _) as [e'|t] eqn:Hrm; [|done].
    intros [= <-]. left. split; [by eapply remove_votes_throws | by eexists].
  - intros [= <-]. by right.
Qed.

Lemma get_choices_raises (self : Survey.SurveyBlock) e :
  Survey.get_choices self = Raise e → e = KeyError.
Proof.
  intros Hget. pose proof (get_choices_cases self) as Hcases.
  destruct (Survey.choices self) as [c|] eqn:Hc; [|congruence].
  destruct Hcases as [[_ Hg]|[_ Hg]]; rewrite Hg in Hget; [done|].
  destruct (Survey.remove_vote self) as [e'|u selfR] eqn:Hrm; [|done].
  injection Hget as <-.
  apply remove_vote_raises in Hrm as [[? _]|[_ ?]]; [done|congruence].
Qed.

Lemma remove_vote_returns (self : Survey.SurveyBlock) :
  is_Some (Survey.choices self) → counters_present self →
  ∃ selfR, Survey.remove_vote self = Return () selfR.
Proof.
  intros [c Hc] Hex. unfold Survey.remove_vote. rewrite Hc.
  destruct (remove_votes_returns (py_dict (Survey.questions self))
              (py_dict (Survey.answers self)) (items c) (Survey.tally self)) as [t ->].
  { intros q a Hin%elem_of_items Hq%py_dict_is_Some Ha%py_dict_is_Some.
    by apply (Hex c). }
  by eexists.
Qed.

Lemma get_choices_returns (self : Survey.SurveyBlock) :
  counters_present self → ∃ old selfG, Survey.get_choices self = Return old selfG.
Proof.
  intros Hex. pose proof (get_choices_cases self) as Hcases.
  destruct (Survey.choices self) as [c|] eqn:Hc; [|by eexists _, _].
  destruct Hcases as [[_ ->]|[_ ->]]; [by eexists _, _|].
  destruct (remove_vote_returns self) as [selfR ->]; [by rewrite Hc|done|].
  by eexists _, _.
Qed.

(** X5. A rejected [SurveyBlock.vote] records nothing: the block is as
    [get_choices] left it, except that [submissions_count] has been reset to
    0 when the user has no valid choices.  The result lists a message for
    every check that failed (already voted, submissions used up, wrong set
    of questions, each unknown answer) and reports whether the user can
    vote. *)
Theorem survey_vote_rejection (data : json) (self self' : Survey.SurveyBlock) r :
  Survey.vote data self = Return r self' → success r = false →
  ∃ old selfG members,
    Survey.get_choices self = Return old selfG ∧
    data = JObj members ∧
    self' = after_choices old selfG ∧
    Survey.tally self' = Survey.tally selfG ∧
    Survey.choices self' = Survey.choices selfG ∧
    errors r ≠ [] ∧
    r_can_vote r = Some (can_vote (Survey.base self')) ∧
    (Survey.nonempty old = true → private_results (Survey.base selfG) = false →
     AlreadyVoted ∈ errors r) ∧
    (can_vote (Survey.base self') = false → VotedMaxTimes ∈ errors r) ∧
    (dom (py_dict members) ≠ list_to_set (Survey.questions self).*1 →
     NotAllQuestions ∈ errors r) ∧
    (∀ q v, py_dict members !! q = Some v →
            (∀ a, v = JStr a → a ∉ (Survey.answers self).*1) →
            UnknownAnswer q v ∈ errors r).
Proof.
  intros Hvote Hr. pose proof (survey_vote_ends data self) as Hend.
  rewrite Hvote in Hend. clear Hvote.
  inversion Hend; subst; [|congruence].
  eexists _, _, _. split_and!; try eassumption; try done.
  - unfold after_choices. by destruct (negb _).
  - unfold after_choices. by destruct (negb _).
Qed.

Lemma survey_vote_rejection_witness :
  ∃ r self',
    Survey.vote two_noes default_survey = Return r self' ∧ success r = false ∧
    ∃ old selfG members,
      Survey.get_choices default_survey = Return old selfG ∧
      two_noes = JObj members ∧
      self' = after_choices old selfG ∧
      Survey.tally self' = Survey.tally selfG ∧
      Survey.choices self' = Survey.choices selfG ∧
      errors r ≠ [] ∧
      r_can_vote r = Some (can_vote (Survey.base self')) ∧
      (Survey.nonempty old = true → private_results (Survey.base selfG) = false →
       AlreadyVoted ∈ errors r) ∧
      (can_vote (Survey.base self') = false → VotedMaxTimes ∈ errors r) ∧
      (dom (py_dict members) ≠ list_to_set (Survey.questions default_survey).*1 →
       NotAllQuestions ∈ errors r) ∧
      (∀ q v, py_dict members !! q = Some v →
              (∀ a, v = JStr a → a ∉ (Survey.answers default_survey).*1) →
              UnknownAnswer q v ∈ errors r).
Proof.
  eexists _, _. split; [vm_compute; reflexivity|]. split; [reflexivity|].
  eapply (survey_vote_rejection two_noes default_survey);
    vm_compute; reflexivity.
Defined.

(** X6. [SurveyBlock.vote] never raises TypeError, whatever JSON values are
    submitted as answers: it raises AttributeError when the request data is
    no JSON object and otherwise only KeyError.  When the data is an object
    and the counters of the user's stored choices are in the tally it
    returns a result. *)
Theorem survey_vote_raises_only (data : json) (self : Survey.SurveyBlock) :
  (∀ e, Survey.vote data self = Raise e →
        e = KeyError ∨ (e = AttributeError ∧ ∀ members, data ≠ JObj members)) ∧
  (∀ members, data = JObj members → counters_present self →
              ∃ r self', Survey.vote data self = Return r self').
Proof.
  pose proof (survey_vote_ends data self) as Hend. split.
  - intros e He. rewrite He in Hend. inversion Hend as
      [e' Hget|old selfG Hget Hno| |old selfG members e' Hget Hd Hacc Hne Hrm|]; subst.
    + left. by eapply get_choices_raises.
    + right. done.
    + left. apply remove_vote_raises in Hrm as [[? _]|[_ Hnone]]; [done|].
      exfalso. revert Hne. unfold after_choices in Hnone.
      destruct (negb (Survey.nonempty old)); simpl in Hnone; by rewrite Hnone.
  - intros members -> Hex.
    destruct (Survey.vote (JObj members) self) as [e|r self'] eqn:Hvote; [|by eexists _, _].
    exfalso. inversion Hend as
      [e' Hget|old selfG Hget Hno| |old selfG members' e' Hget Hd Hacc Hne Hrm|]; subst.
    + destruct (get_choices_returns self Hex) as (old & selfG & Hget'). congruence.
    + by destruct (Hno members).
    + destruct (get_choices_keeps _ _ _ Hget) as (_ & _ & _ & Hold & Hvalid).
      destruct old as [c|]; [|by rewrite Hold in Hne].
      destruct (Hvalid c eq_refl) as [-> _].
      assert (Survey.nonempty (Some c) = true) as Hne' by (by rewrite <-Hold).
      unfold after_choices in Hrm. rewrite Hne' in Hrm. simpl in Hrm.
      destruct (remove_vote_returns self) as [selfR HselfR]; [by rewrite Hold|done|].
      congruence.
Qed.

Lemma survey_vote_returns_witness :
  ∃ r self', Survey.vote all_yes default_survey = Return r self'.
Proof.
  apply (proj2 (survey_vote_raises_only all_yes default_survey) _ eq_refl).
  intros c q a [= <-] Hq. by rewrite lookup_empty in Hq.
Defined.

(** What a successful [SurveyBlock.vote] leaves behind. *)
Lemma survey_vote_counted (data : json) (self self' : Survey.SurveyBlock) r :
  Survey.vote data self = Return r self' → success r = true →
  ∃ old selfG members,
    Survey.get_choices self = Return old selfG ∧
    data = JObj members ∧
    vote_accepted self old selfG (py_dict members) ∧
    Survey.choices self' = Some (Survey.as_choices (py_dict members)) ∧
    Survey.questions self' = Survey.questions self ∧
    Survey.answers self' = Survey.answers self ∧
    Survey.base self' =
      set_submissions_count
        (submissions_count (Survey.base (after_choices old selfG)) + 1)
        (Survey.base selfG) ∧
    (∀ q a, q ∈ (Survey.questions self).*1 → a ∈ (Survey.answers self).*1 →
            is_Some (Survey.tally self' !! q ≫= (.!! a))) ∧
    r_can_vote r = Some (can_vote (Survey.base self')) ∧
    r_submissions_count r = Some (submissions_count (Survey.base self')) ∧
    r_max_submissions r = Some (max_submissions (Survey.base self')).
Proof.
  intros Hvote Hr. pose proof (survey_vote_ends data self) as Hend.
  rewrite Hvote in Hend. clear Hvote.
  inversion Hend; subst; [congruence|].
  eexists _, _, _. split_and!; first [eassumption | reflexivity].
Qed.

Lemma survey_vote_stored_valid (self self' : Survey.SurveyBlock) old selfG
    (d : gmap string json) :
  vote_accepted self old selfG d →
  Survey.questions self' = Survey.questions self →
  Survey.answers self' = Survey.answers self →
  still_valid self' (Survey.as_choices d).
Proof.
  intros (_ & _ & Hdom & Hvals) HQ HA. split.
  - rewrite HQ, <-Hdom. apply as_choices_dom. intros q v Hqv.
    destruct (Hvals q v Hqv) as (a & -> & _). by eexists.
  - intros q a Hqa%as_choices_lookup. rewrite HA.
    by destruct (Hvals q _ Hqa) as (a' & [= <-] & ?).
Qed.

(** X7. After a successful survey vote [get_choices] returns the stored
    choices and leaves the block alone, and [student_voted] reports True;
    if the survey has questions and its results are public, every further
    vote is refused as already voted and changes nothing. *)
Theorem survey_vote_then_voted (data : json) (self self' : Survey.SurveyBlock) r :
  Survey.vote data self = Return r self' → success r = true →
  ∃ stored,
    Survey.choices self' = Some stored ∧
    Survey.get_choices self' = Return (Some stored) self' ∧
    SurveyViews.student_voted self' =
      Return {| PollViews.voted := true;
                PollViews.voted_private_results := private_results (Survey.base self) |}
        self' ∧
    (private_results (Survey.base self) = false → Survey.questions self ≠ [] →
     ∀ members, ∃ r',
       Survey.vote (JObj members) self' = Return r' self' ∧
       success r' = false ∧ AlreadyVoted ∈ errors r').
Proof.
  intros Hvote Hr.
  destruct (survey_vote_counted _ _ _ _ Hvote Hr)
    as (old & selfG & members & Hget & -> & Hacc & Hch & HQ & HA & HB & _).
  pose proof (survey_vote_stored_valid _ _ _ _ _ Hacc HQ HA) as Hvalid.
  pose proof (get_choices_valid _ _ Hch Hvalid) as Hget'.
  destruct (get_choices_keeps _ _ _ Hget) as (_ & _ & HBG & _).
  assert (private_results (Survey.base self') = private_results (Survey.base self))
    as Hpriv by (by rewrite HB, <-HBG).
  exists (Survey.as_choices (py_dict members)). split_and!; [done | done | |].
  - unfold SurveyViews.student_voted. by rewrite Hget', Hpriv.
  - intros Hpub Hquestions members'.
    assert (Survey.nonempty (Some (Survey.as_choices (py_dict members))) = true) as Hne.
    { simpl. apply negb_true_iff, bool_decide_eq_false. intros Hempty.
      destruct Hvalid as [Hdom _]. rewrite Hempty, dom_empty_L, HQ in Hdom.
      destruct (Survey.questions self) as [|[q e] l]; [done|].
      assert (q ∈ (∅ : gset string)) as Hq; [|by apply not_elem_of_empty in Hq].
      rewrite Hdom. apply elem_of_list_to_set. by left. }
    pose proof (survey_vote_ends (JObj members') self') as Hend.
    destruct (Survey.vote (JObj members') self') as [e|r' s'] eqn:Hv.
    + exfalso. inversion Hend as
        [e' Hg|old' selfG' Hg Hno| |old' selfG' ms e' Hg Hd Hacc' _ _|]; subst.
      * congruence.
      * by destruct (Hno members').
      * assert (old' = Some (Survey.as_choices (py_dict members)) ∧ selfG' = self')
          as [-> ->] by (split; congruence).
        destruct Hacc' as (Hp & _). rewrite Hpriv, Hpub in Hp. by specialize (Hp Hne).
    + inversion Hend as
        [| |old' selfG' ms r0 Hg Hd Hrej Hs Herr Hcv Hav| |old' selfG' ms r0 s0 Hg Hd Hacc'];
        subst.
      * assert (old' = Some (Survey.as_choices (py_dict members)) ∧ selfG' = self')
          as [-> ->] by (split; congruence).
        exists r'. unfold after_choices. rewrite Hne. simpl.
        split_and!; [done | done |]. apply Hav; [done|]. by rewrite Hpriv.
      * assert (old' = Some (Survey.as_choices (py_dict members)) ∧ selfG' = self')
          as [-> ->] by (split; congruence).
        destruct Hacc' as (Hp & _). rewrite Hpriv, Hpub in Hp. by specialize (Hp Hne).
Qed.

Lemma survey_vote_then_voted_witness :
  ∃ r self',
    Survey.vote all_yes default_survey = Return r self' ∧
    ∃ stored,
      Survey.choices self' = Some stored ∧
      Survey.get_choices self' = Return (Some stored) self' ∧
      SurveyViews.student_voted self' =
        Return {| PollViews.voted := true;
                  PollViews.voted_private_results :=
                    private_results (Survey.base default_survey) |} self' ∧
      (private_results (Survey.base default_survey) = false →
       Survey.questions default_survey ≠ [] →
       ∀ members, ∃ r',
         Survey.vote (JObj members) self' = Return r' self' ∧
         success r' = false ∧ AlreadyVoted ∈ errors r').
Proof.
  eexists _, _. split; [vm_compute; reflexivity|].
  eapply (survey_vote_then_voted all_yes default_survey);
    [vm_compute; reflexivity | reflexivity].
Defined.

(** X8. A successful [SurveyBlock.vote] reports the new
    [submissions_count], the limit and whether the user may vote again, and
    never takes [submissions_count] above a limit other than 0. *)
Theorem survey_vote_respects_limit (data : json) (self self' : Survey.SurveyBlock) r :
  Survey.vote data self = Return r self' → success r = true →
  max_submissions (Survey.base self') = max_submissions (Survey.base self) ∧
  r_submissions_count r = Some (submissions_count (Survey.base self')) ∧
  r_max_submissions r = Some (max_submissions (Survey.base self)) ∧
  r_can_vote r = Some (can_vote (Survey.base self')) ∧
  (max_submissions (Survey.base self) ≠ 0 →
   submissions_count (Survey.base self') ≤ max_submissions (Survey.base self)).
Proof.
  intros Hvote Hr.
  destruct (survey_vote_counted _ _ _ _ Hvote Hr)
    as (old & selfG & members & Hget & -> & Hacc & _ & _ & _ & HB & _ & Hrc & Hrs & Hrm).
  destruct (get_choices_keeps _ _ _ Hget) as (_ & _ & HBG & _).
  destruct Hacc as (_ & Hcan & _).
  rewrite Hrc, Hrs, Hrm, HB. simpl. rewrite HBG. split_and!; try done.
  intros Hmax. unfold can_vote, after_choices in *.
  destruct (negb (Survey.nonempty old)); simpl in *; rewrite ?HBG in Hcan;
    rewrite ?HBG; apply orb_true_iff in Hcan as [Hz|Hlt]; lia.
Qed.

Lemma survey_vote_respects_limit_witness :
  ∃ r self',
    Survey.vote all_yes default_survey = Return r self' ∧
    max_submissions (Survey.base self') = max_submissions (Survey.base default_survey) ∧
    r_submissions_count r = Some (submissions_count (Survey.base self')) ∧
    r_max_submissions r = Some (max_submissions (Survey.base default_survey)) ∧
    r_can_vote r = Some (can_vote (Survey.base self')) ∧
    (max_submissions (Survey.base default_survey) ≠ 0 →
     submissions_count (Survey.base self') ≤
       max_submissions (Survey.base default_survey)).
Proof.
  eexists _, _. split; [vm_compute; reflexivity|].
  eapply (survey_vote_respects_limit all_yes default_survey);
    [vm_compute; reflexivity | reflexivity].
Defined.

(** X9. What a survey vote adds to the tally [remove_vote] takes out again:
    right after a successful vote [remove_vote] returns, forgets the stored
    choices and lowers by 1 exactly the counters of the submitted pairs. *)
Theorem survey_vote_then_remove (data : json) (self self' : Survey.SurveyBlock) r :
  Survey.vote data self = Return r self' → success r = true →
  ∃ stored self'',
    Survey.choices self' = Some stored ∧
    Survey.remove_vote self' = Return () self'' ∧
    Survey.choices self'' = None ∧
    ∀ q a,
      Survey.tally self'' !! q ≫= (.!! a) =
      (λ m, m - if bool_decide (stored !! q = Some a) then 1 else 0)
      <$> (Survey.tally self' !! q ≫= (.!! a)).
Proof.
  intros Hvote Hr.
  destruct (survey_vote_counted _ _ _ _ Hvote Hr)
    as (old & selfG & members & Hget & -> & Hacc & Hch & HQ & HA & _ & Hex & _).
  pose proof (survey_vote_stored_valid _ _ _ _ _ Hacc HQ HA) as [Hdom Hvals].
  destruct (remove_vote_returns self') as [self'' Hrm].
  { rewrite Hch. by eexists. }
  { intros c q a Hc Hqa Hq Ha. apply Hex; by rewrite <-?HQ, <-?HA. }
  assert (Survey.remove_vote self' = Return () self'') as Hrm' by done.
  destruct (remove_vote_spec _ _ _ _ Hch Hrm) as (Hnone & _ & _ & _ & _ & Ht).
  eexists _, self''. split_and!; [done | done | done |].
  intros q a. rewrite Ht.
  destruct (decide (Survey.as_choices (py_dict members) !! q = Some a)) as [Hqa|Hqa].
  - rewrite !bool_decide_true; [done | | |done].
    + by apply (Hvals q).
    + apply (elem_of_list_to_set (C:=gset string)). rewrite <-Hdom.
      apply elem_of_dom. by eexists.
  - by rewrite (bool_decide_false _ Hqa).
Qed.

Lemma survey_vote_then_remove_witness :
  ∃ r self',
    Survey.vote all_yes default_survey = Return r self' ∧
    ∃ stored self'',
      Survey.choices self' = Some stored ∧
      Survey.remove_vote self' = Return () self'' ∧
      Survey.choices self'' = None ∧
      ∀ q a,
        Survey.tally self'' !! q ≫= (.!! a) =
        (λ m, m - if bool_decide (stored !! q = Some a) then 1 else 0)
        <$> (Survey.tally self' !! q ≫= (.!! a)).
Proof.
  eexists _, _. split; [vm_compute; reflexivity|].
  eapply (survey_vote_then_remove all_yes default_survey);
    [vm_compute; reflexivity | reflexivity].
Defined.

(** ** clean_tally, once more *)

Lemma survey_clean_counters_eq (t1 t2 : gmap string (gmap string Z)) :
  (∀ q, is_Some (t1 !! q) ↔ is_Some (t2 !! q)) →
  (∀ q a, t1 !! q ≫= (.!! a) = t2 !! q ≫= (.!! a)) →
  t1 = t2.
Proof.
  intros Hdom Hc. apply map_eq. intros q. specialize (Hdom q).
  destruct (t1 !! q) as [s1|] eqn:H1, (t2 !! q) as [s2|] eqn:H2.
  - f_equal. apply map_eq. intros a. specialize (Hc q a). by rewrite H1, H2 in Hc.
  - destruct Hdom as [Hd _]. by destruct Hd.
  - destruct Hdom as [_ Hd]. by destruct Hd.
  - done.
Qed.

Lemma survey_clean_tally_is_Some (self : Survey.SurveyBlock) q :
  is_Some (Survey.tally (Survey.clean_tally self) !! q) ↔ q ∈ (Survey.questions self).*1.
Proof.
  rewrite survey_clean_tally_lookup.
  case_bool_decide; split; try done; try (by eexists); by intros [? ?].
Qed.

(** X10. [clean_tally] is idempotent in both blocks, changes nothing but the
    tally, and leaves a tally alone whose keys already are the configured
    keys. *)
Theorem clean_tally_idempotent :
  (∀ self : Poll.PollBlock,
     Poll.clean_tally (Poll.clean_tally self) = Poll.clean_tally self ∧
     Poll.clean_tally self = Poll.set_tally (Poll.tally (Poll.clean_tally self)) self ∧
     (dom (Poll.tally self) = list_to_set (Poll.answers self).*1 →
      Poll.clean_tally self = self)) ∧
  (∀ self : Survey.SurveyBlock,
     Survey.clean_tally (Survey.clean_tally self) = Survey.clean_tally self ∧
     Survey.clean_tally self =
       Survey.set_tally (Survey.tally (Survey.clean_tally self)) self ∧
     (dom (Survey.tally self) = list_to_set (Survey.questions self).*1 →
      (∀ q counters, Survey.tally self !! q = Some counters →
                     dom counters = list_to_set (Survey.answers self).*1) →
      Survey.clean_tally self = self)).
Proof.
  split; intros self.
  - assert (∀ s : Poll.PollBlock,
      (∀ k, Poll.tally (Poll.clean_tally s) !! k = Poll.tally s !! k) →
      Poll.clean_tally s = s) as Hfix.
    { intros s Hs. apply map_eq in Hs.
      change (Poll.clean_tally s) with (Poll.set_tally (Poll.tally (Poll.clean_tally s)) s).
      rewrite Hs. by destruct s. }
    split_and!; [|done|].
    + apply Hfix. intros k. rewrite !poll_clean_tally_lookup. simpl.
      case_bool_decide; [|done]. done.
    + intros Hdom. apply Hfix. intros k. rewrite poll_clean_tally_lookup.
      case_bool_decide as Hk.
      * apply (elem_of_list_to_set (C:=gset string)) in Hk. rewrite <-Hdom in Hk.
        apply elem_of_dom in Hk as [c ->]. done.
      * symmetry. apply not_elem_of_dom. rewrite Hdom.
        by rewrite elem_of_list_to_set.
  - assert (∀ s : Survey.SurveyBlock,
      (∀ q, is_Some (Survey.tally (Survey.clean_tally s) !! q) ↔
            is_Some (Survey.tally s !! q)) →
      (∀ q a, Survey.tally (Survey.clean_tally s) !! q ≫= (.!! a) =
              Survey.tally s !! q ≫= (.!! a)) →
      Survey.clean_tally s = s) as Hfix.
    { intros s Hd Hs. pose proof (survey_clean_counters_eq _ _ Hd Hs) as Heq.
      change (Survey.clean_tally s)
        with (Survey.set_tally (Survey.tally (Survey.clean_tally s)) s).
      rewrite Heq. by destruct s. }
    split_and!; [|done|].
    + apply Hfix.
      * intros q. by rewrite !survey_clean_tally_is_Some.
      * intros q a. rewrite !survey_clean_tally_counter. simpl.
        by destruct (bool_decide _ && bool_decide _).
    + intros Hdom Hsub. apply Hfix.
      * intros q. rewrite survey_clean_tally_is_Some, <-elem_of_dom, Hdom.
        by rewrite elem_of_list_to_set.
      * intros q a. rewrite survey_clean_tally_counter.
        destruct (Survey.tally self !! q) as [counters|] eqn:Hq; simpl.
        -- rewrite bool_decide_true.
           2:{ apply (elem_of_list_to_set (C:=gset string)). rewrite <-Hdom.
               apply elem_of_dom. by eexists. }
           simpl. specialize (Hsub q counters Hq).
           case_bool_decide as Ha.
           ++ apply (elem_of_list_to_set (C:=gset string)) in Ha. rewrite <-Hsub in Ha.
              apply elem_of_dom in Ha as [c ->]. done.
           ++ symmetry. apply not_elem_of_dom. rewrite Hsub.
              by rewrite elem_of_list_to_set.
        -- rewrite bool_decide_false; [done|].
           rewrite <-(elem_of_list_to_set (C:=gset string)), <-Hdom.
           by apply not_elem_of_dom.
Qed.

Lemma clean_tally_idempotent_witness :
  Poll.clean_tally default_poll = default_poll ∧
  Survey.clean_tally default_survey = default_survey.
Proof.
  split.
  - apply (proj1 clean_tally_idempotent default_poll). vm_compute. reflexivity.
  - apply (proj2 clean_tally_idempotent default_survey).
    + vm_compute. reflexivity.
    + intros q counters Hq.
      assert (counters = no_votes) as ->; [|vm_compute; reflexivity].
      change (Survey.tally default_survey)
        with ({[ "enjoy" := no_votes; "recommend" := no_votes; "learn" := no_votes ]}
              : gmap string (gmap string Z)) in Hq.
      repeat (apply lookup_insert_Some in Hq as [[_ Hq]|[_ Hq]]; [by symmetry|]).
      apply lookup_singleton_Some in Hq as [_ Hq]. by symmetry.
Defined.

(** ** What a successful studio_submit stores *)

Lemma success_failed_if (cond : bool) m (r : Result) :
  success (if cond then set_success false (append_error m r) else r) = true →
  cond = false ∧ success r = true.
Proof. by destruct cond. Qed.

Lemma get_max_submissions_kept parse_int (data : gmap string json) r private n r' :
  get_max_submissions parse_int data r private = Val (n, r') → success r' = true →
  success r = true ∧
  getitem data "max_submissions" ≫= py_int parse_int = Val n ∧
  (n = 1 ∨ private = true).
Proof.
  unfold get_max_submissions.
  destruct (getitem data "max_submissions" ≫= py_int parse_int) as [e|n0] eqn:Hint.
  - destruct e; simpl; try done; by intros [= <- <-].
  - simpl. intros [= <- <-] [Hc Hs]%success_fail_if. split_and!; [done..|].
    apply andb_false_iff in Hc as [Hn|Hp].
    + left. apply negb_false_iff in Hn. lia.
    + right. by apply negb_false_iff.
Qed.

Lemma gather_item_kept strip (self : PollBase) noun image
    (items items' : list (item_type image)) (r r' : Result) item :
  gather_item strip self noun image (items, r) item = Val (items', r') →
  success r' = true →
  success r = true ∧ ∃ kv, items' = items ++ [kv] ∧ gathered strip self image item kv.
Proof.
  unfold gather_item.
  destruct item as [| | | | |members]; try (by intros [= <- <-]).
  simpl.
  destruct (get_strip strip (py_dict members) "key") as [e|key] eqn:Hkey; [done|]. simpl.
  destruct (get_strip strip (py_dict members) "img") as [e|link] eqn:Hlink; [done|]. simpl.
  destruct (get_strip strip (py_dict members) "img_alt") as [e|alt] eqn:Halt; [done|].
  simpl.
  destruct (get_strip strip (py_dict members) "label") as [e|lbl] eqn:Hlbl; [done|].
  simpl. intros [= <- <-] [Halt' Hs]%success_fail_if.
  assert (success (if String.eqb key ""
                   then append_error (NoKey noun (JObj members)) (set_success false r)
                   else r) = true ∧
          (lbl ≠ "" ∨ (image = true ∧ link ≠ ""))) as [Hs' Hlabel].
  { destruct (String.eqb_spec lbl "") as [->|Hne]; [|by split; [|left]].
    destruct image; simpl in Hs.
    - destruct (String.eqb_spec link "") as [->|Hne]; [done|]. split; [done|]. by right.
    - done. }
  apply success_fail_if in Hs' as [Hk Hr]. split; [done|].
  eexists. split; [done|].
  exists members, key, lbl, link, alt. split_and!; try done.
  - by apply String.eqb_neq.
  - intros Hl ->. destruct (String.eqb_spec link ""); [done|]. simpl in Halt'.
    by destruct (truthy _).
Qed.

Lemma gather_loop_kept strip (self : PollBase) noun image source_items
    (items items' : list (item_type image)) (r r' : Result) :
  gather_loop strip self noun image source_items (items, r) = Val (items', r') →
  success r' = true →
  success r = true ∧
  ∃ new, items' = items ++ new ∧ Forall2 (gathered strip self image) source_items new.
Proof.
  revert items r. induction source_items as [|item rest IH]; intros items r.
  - intros [= <- <-] Hs. split; [done|]. exists []. by rewrite app_nil_r.
  - rewrite gather_loop_cons.
    destruct (gather_item strip self noun image (items, r) item)
      as [e|[items1 r1]] eqn:Hitem; [done|].
    intros Hrest Hs. destruct (IH _ _ Hrest Hs) as (Hs1 & new & -> & Hnew).
    destruct (gather_item_kept _ _ _ _ _ _ _ _ _ Hitem Hs1) as (Hs0 & kv & -> & Hkv).
    split; [done|]. exists (kv :: new). split; [by rewrite <-app_assoc|].
    by constructor.
Qed.

Lemma gather_items_kept strip (self : PollBase) (data : gmap string json) noun field image
    (items' : list (item_type image)) (r r' : Result) :
  gather_items strip self data r noun field image = Val (items', r') →
  success r' = true →
  success r = true ∧
  ∃ l, data !! field = Some (JArr l) ∧ Forall2 (gathered strip self image) l items' ∧
       items' ≠ [].
Proof.
  unfold gather_items.
  destruct (data !! field) as [[| | | |l|]|] eqn:Hf;
    try (destruct (gather_loop strip self noun image [] _) as [e|[i1 r1]] eqn:Hloop;
         simpl; [done|]; intros [= <- <-] Hs;
         assert (success r1 = true) as Hs1 by (by destruct i1);
         by destruct (gather_loop_kept _ _ _ _ _ _ _ _ _ Hloop Hs1) as [? _]).
  destruct (gather_loop strip self noun image l ([], r)) as [e|[i1 r1]] eqn:Hloop;
    simpl; [done|].
  intros [= <- <-] Hs. destruct i1 as [|kv i1]; [done|].
  destruct (gather_loop_kept _ _ _ _ _ _ _ _ _ Hloop Hs) as (Hr & new & Hnew & Hall).
  simpl in Hnew. subst new. split; [done|]. by exists l.
Qed.

Lemma poll_studio_submit_success strip parse_int (data : json)
    (self self' : Poll.PollBlock) r :
  Poll.studio_submit strip parse_int data self = Return r self' → success r = true →
  ∃ members l,
    data = JObj members ∧
    get_strip strip (py_dict members) "question" = Val (Poll.question self') ∧
    Poll.question self' ≠ "" ∧
    get_strip strip (py_dict members) "feedback" = Val (feedback (Poll.base self')) ∧
    get_strip strip (py_dict members) "display_name" = Val (Poll.display_name self') ∧
    private_results (Poll.base self') =
      truthy (default (JBool false) (py_dict members !! "private_results")) ∧
    getitem (py_dict members) "max_submissions" ≫= py_int parse_int =
      Val (max_submissions (Poll.base self')) ∧
    (max_submissions (Poll.base self') = 1 ∨ private_results (Poll.base self') = true) ∧
    py_dict members !! "answers" = Some (JArr l) ∧
    Forall2 (gathered strip (Poll.base self) true) l (Poll.answers self') ∧
    Poll.answers self' ≠ [] ∧
    Poll.tally self' = Poll.tally self ∧
    Poll.choice self' = Poll.choice self ∧
    submissions_count (Poll.base self') = submissions_count (Poll.base self) ∧
    settings_service (Poll.base self') = settings_service (Poll.base self).
Proof.
  unfold Poll.studio_submit. destruct data as [| | | | |members]; try done.
  set (d := py_dict members).
  set (private := truthy (default (JBool false) (d !! "private_results"))).
  destruct (get_strip strip d "question") as [e|question] eqn:Hq; simpl; [done|].
  destruct (get_strip strip d "feedback") as [e|fb] eqn:Hf; simpl; [done|].
  destruct (get_max_submissions parse_int d (new_result true) private)
    as [e|[n r1]] eqn:Hmax; simpl; [done|].
  destruct (get_strip strip d "display_name") as [e|name] eqn:Hn; simpl; [done|].
  set (r2 := if String.eqb question "" then _ else r1).
  destruct (gather_items strip (Poll.base self) d r2 "Answer" "answers" true)
    as [e|[answers r3]] eqn:Hitems; simpl; [done|].
  destruct (success r3) eqn:Hs3; simpl; intros [= <- <-] Hs; [|congruence].
  destruct (gather_items_kept _ _ _ _ _ _ _ _ _ Hitems Hs3) as (Hs2 & l & Hl & Hall & Hne).
  apply success_failed_if in Hs2 as [Hquestion Hs1].
  destruct (get_max_submissions_kept _ _ _ _ _ _ Hmax Hs1) as (_ & Hint & Hpriv).
  exists members, l. simpl. split_and!; try done.
  by apply String.eqb_neq.
Qed.

Lemma survey_studio_submit_success strip parse_int (data : json)
    (self self' : Survey.SurveyBlock) r :
  Survey.studio_submit strip parse_int data self = Return r self' → success r = true →
  ∃ members la lq,
    data = JObj members ∧
    get_strip strip (py_dict members) "feedback" = Val (feedback (Survey.base self')) ∧
    get_strip strip (py_dict members) "display_name" = Val (Survey.block_name self') ∧
    Survey.display_name self' = Survey.display_name self ∧
    private_results (Survey.base self') =
      truthy (default (JBool false) (py_dict members !! "private_results")) ∧
    getitem (py_dict members) "max_submissions" ≫= py_int parse_int =
      Val (max_submissions (Survey.base self')) ∧
    (max_submissions (Survey.base self') = 1 ∨
     private_results (Survey.base self') = true) ∧
    py_dict members !! "answers" = Some (JArr la) ∧
    Forall2 (gathered strip (Survey.base self) false) la (Survey.answers self') ∧
    Survey.answers self' ≠ [] ∧
    py_dict members !! "questions" = Some (JArr lq) ∧
    Forall2 (gathered strip (Survey.base self) true) lq (Survey.questions self') ∧
    Survey.questions self' ≠ [] ∧
    Survey.tally self' = Survey.tally self ∧
    Survey.choices self' = Survey.choices self ∧
    submissions_count (Survey.base self') = submissions_count (Survey.base self) ∧
    settings_service (Survey.base self') = settings_service (Survey.base self).
Proof.
  unfold Survey.studio_submit. destruct data as [| | | | |members]; try done.
  set (d := py_dict members).
  set (private := truthy (default (JBool false) (d !! "private_results"))).
  destruct (get_strip strip d "feedback") as [e|fb] eqn:Hf; simpl; [done|].
  destruct (get_strip strip d "display_name") as [e|name] eqn:Hn; simpl; [done|].
  destruct (get_max_submissions parse_int d (new_result true) private)
    as [e|[n r1]] eqn:Hmax; simpl; [done|].
  destruct (gather_items strip (Survey.base self) d r1 "Answer" "answers" false)
    as [e|[answers r2]] eqn:Hanswers; simpl; [done|].
  destruct (gather_items strip (Survey.base self) d r2 "Question" "questions" true)
    as [e|[questions r3]] eqn:Hquestions; simpl; [done|].
  destruct (success r3) eqn:Hs3; simpl; intros [= <- <-] Hs; [|congruence].
  destruct (gather_items_kept _ _ _ _ _ _ _ _ _ Hquestions Hs3)
    as (Hs2 & lq & Hlq & Hallq & Hneq).
  destruct (gather_items_kept _ _ _ _ _ _ _ _ _ Hanswers Hs2)
    as (Hs1 & la & Hla & Halla & Hnea).
  destruct (get_max_submissions_kept _ _ _ _ _ _ Hmax Hs1) as (_ & Hint & Hpriv).
  exists members, la, lq. simpl. by split_and!.
Qed.

(** X11. A successful [studio_submit] never stores public results together
    with a submission limit other than 1: afterwards [private_results] is
    True or [max_submissions] is 1, in both blocks. *)
Theorem studio_submit_private_or_single strip parse_int (data : json) :
  (∀ (self self' : Poll.PollBlock) r,
     Poll.studio_submit strip parse_int data self = Return r self' → success r = true →
     max_submissions (Poll.base self') = 1 ∨ private_results (Poll.base self') = true) ∧
  (∀ (self self' : Survey.SurveyBlock) r,
     Survey.studio_submit strip parse_int data self = Return r self' →
     success r = true →
     max_submissions (Survey.base self') = 1 ∨
     private_results (Survey.base self') = true).
Proof.
  split; intros self self' r Hsubmit Hr.
  - by destruct (poll_studio_submit_success _ _ _ _ _ _ Hsubmit Hr)
      as (? & ? & _ & _ & _ & _ & _ & _ & _ & ? & _).
  - by destruct (survey_studio_submit_success _ _ _ _ _ _ Hsubmit Hr)
      as (? & ? & ? & _ & _ & _ & _ & _ & _ & ? & _).
Qed.

Lemma studio_submit_private_or_single_witness :
  ∃ r self',
    Poll.studio_submit no_strip no_int StudioForms.poll_form default_poll =
      Return r self' ∧
    (max_submissions (Poll.base self') = 1 ∨ private_results (Poll.base self') = true).
Proof.
  eexists _, _. split; [vm_compute; reflexivity|].
  eapply (proj1 (studio_submit_private_or_single no_strip no_int StudioForms.poll_form)
            default_poll); reflexivity.
Defined.

Lemma loaded_from_gathered strip self item kv :
  gathered strip self true item kv →
  loaded_from strip item
    {| PollViews.item_key := kv.1; PollViews.item_text := label kv.2;
       PollViews.item_img := img kv.2; PollViews.item_img_alt := img_alt kv.2;
       PollViews.item_noun := "answer"; PollViews.item_image := true |} ∧
  loaded_from strip item
    {| PollViews.item_key := kv.1; PollViews.item_text := label kv.2;
       PollViews.item_img := img kv.2; PollViews.item_img_alt := img_alt kv.2;
       PollViews.item_noun := "question"; PollViews.item_image := true |}.
Proof.
  intros (members & key & text & link & alt & -> & Hk & Hl & Hi & Ha & -> & Hkey & Hsome & _).
  assert (text ≠ "" ∨ link ≠ "") by (destruct Hsome as [?|[_ ?]]; auto).
  split; exists members, link, alt; simpl; by split_and!.
Qed.

Lemma answer_loaded_from_gathered strip self item (kv : string * string) :
  gathered strip self false item kv →
  answer_loaded_from strip item
    {| SurveyViews.answer_key := kv.1; SurveyViews.answer_text := kv.2;
       SurveyViews.answer_noun := "answer"; SurveyViews.answer_image := false |}.
Proof.
  intros (members & key & text & link & alt & -> & Hk & Hl & Hi & Ha & -> & Hkey & Hsome & _).
  exists members; simpl. split_and!; try done. by destruct Hsome as [?|[? _]].
Qed.

(** X12. After a successful [PollBlock.studio_submit], [load_answers]
    returns one item per submitted answer, in the submitted order, with the
    stripped key, label, image and alternative text of that answer; every
    key is non-empty and every item has a label or an image.  The stored
    question is the stripped submitted one and is not empty. *)
Theorem poll_studio_submit_then_load strip parse_int (data : json)
    (self self' : Poll.PollBlock) r :
  Poll.studio_submit strip parse_int data self = Return r self' → success r = true →
  ∃ members l,
    data = JObj members ∧
    py_dict members !! "answers" = Some (JArr l) ∧
    Forall2 (loaded_from strip) l (PollViews.load_answers self') ∧
    l ≠ [] ∧
    get_strip strip (py_dict members) "question" = Val (Poll.question self') ∧
    Poll.question self' ≠ "".
Proof.
  intros Hsubmit Hr.
  destruct (poll_studio_submit_success _ _ _ _ _ _ Hsubmit Hr)
    as (members & l & -> & Hq & Hne & _ & _ & _ & _ & _ & Hl & Hall & Hnil & _).
  exists members, l. split_and!; try done.
  - unfold PollViews.load_answers. apply Forall2_fmap_r.
    eapply Forall2_impl; [exact Hall|]. intros item kv Hg.
    by apply (loaded_from_gathered _ _ _ _ Hg).
  - intros ->. by apply Forall2_nil_inv_l in Hall.
Qed.

Lemma poll_studio_submit_then_load_witness :
  ∃ r self',
    Poll.studio_submit no_strip no_int StudioForms.poll_form default_poll =
      Return r self' ∧
    ∃ members l,
      StudioForms.poll_form = JObj members ∧
      py_dict members !! "answers" = Some (JArr l) ∧
      Forall2 (loaded_from no_strip) l (PollViews.load_answers self') ∧
      l ≠ [] ∧
      get_strip no_strip (py_dict members) "question" = Val (Poll.question self') ∧
      Poll.question self' ≠ "".
Proof.
  eexists _, _. split; [vm_compute; reflexivity|].
  eapply (poll_studio_submit_then_load no_strip no_int StudioForms.poll_form default_poll);
    [vm_compute; reflexivity | reflexivity].
Defined.

(** X13. After a successful [SurveyBlock.studio_submit], [load_answers] and
    [load_questions] return one item per submitted answer and question, in
    the submitted order, with their stripped fields; every answer has a
    non-empty key and label, every question a non-empty key and a label or
    an image.  The submitted display name is stored as [block_name], and
    [display_name] keeps its old value. *)
Theorem survey_studio_submit_then_load strip parse_int (data : json)
    (self self' : Survey.SurveyBlock) r :
  Survey.studio_submit strip parse_int data self = Return r self' → success r = true →
  ∃ members la lq,
    data = JObj members ∧
    py_dict members !! "answers" = Some (JArr la) ∧
    Forall2 (answer_loaded_from strip) la (SurveyViews.load_answers self') ∧
    la ≠ [] ∧
    py_dict members !! "questions" = Some (JArr lq) ∧
    Forall2 (loaded_from strip) lq (SurveyViews.load_questions self') ∧
    lq ≠ [] ∧
    get_strip strip (py_dict members) "display_name" = Val (Survey.block_name self') ∧
    Survey.display_name self' = Survey.display_name self.
Proof.
  intros Hsubmit Hr.
  destruct (survey_studio_submit_success _ _ _ _ _ _ Hsubmit Hr)
    as (members & la & lq & -> & _ & Hname & Hdisplay & _ & _ & _ &
        Hla & Halla & _ & Hlq & Hallq & _).
  exists members, la, lq. split_and!; try done.
  - unfold SurveyViews.load_answers. apply Forall2_fmap_r.
    eapply Forall2_impl; [exact Halla|]. intros item kv Hg.
    by apply (answer_loaded_from_gathered _ _ _ _ Hg).
  - intros ->. apply Forall2_nil_inv_l in Halla.
    destruct (survey_studio_submit_success _ _ _ _ _ _ Hsubmit Hr)
      as (? & ? & ? & _ & _ & _ & _ & _ & _ & _ & _ & _ & Hne & _). done.
  - unfold SurveyViews.load_questions. apply Forall2_fmap_r.
    eapply Forall2_impl; [exact Hallq|]. intros item kv Hg.
    by apply (loaded_from_gathered _ _ _ _ Hg).
  - intros ->. apply Forall2_nil_inv_l in Hallq.
    destruct (survey_studio_submit_success _ _ _ _ _ _ Hsubmit Hr)
      as (? & ? & ? & _ & _ & _ & _ & _ & _ & _ & _ & _ & _ & _ & _ & Hne & _). done.
Qed.

Lemma survey_studio_submit_then_load_witness :
  ∃ r self',
    Survey.studio_submit no_strip no_int StudioForms.survey_form default_survey =
      Return r self' ∧
    ∃ members la lq,
      StudioForms.survey_form = JObj members ∧
      py_dict members !! "answers" = Some (JArr la) ∧
      Forall2 (answer_loaded_from no_strip) la (SurveyViews.load_answers self') ∧
      la ≠ [] ∧
      py_dict members !! "questions" = Some (JArr lq) ∧
      Forall2 (loaded_from no_strip) lq (SurveyViews.load_questions self') ∧
      lq ≠ [] ∧
      get_strip no_strip (py_dict members) "display_name" =
        Val (Survey.block_name self') ∧
      Survey.display_name self' = Survey.display_name default_survey.
Proof.
  eexists _, _. split; [vm_compute; reflexivity|].
  eapply (survey_studio_submit_then_load no_strip no_int StudioForms.survey_form
            default_survey); [vm_compute; reflexivity | reflexivity].
Defined.

(** X14. [studio_submit] never touches the votes: whatever it returns, the
    tally, the choice of the user and [submissions_count] are the ones the
    block had before, in both blocks. *)
Theorem studio_submit_keeps_votes strip parse_int (data : json) :
  (∀ (self self' : Poll.PollBlock) r,
     Poll.studio_submit strip parse_int data self = Return r self' →
     Poll.tally self' = Poll.tally self ∧ Poll.choice self' = Poll.choice self ∧
     submissions_count (Poll.base self') = submissions_count (Poll.base self)) ∧
  (∀ (self self' : Survey.SurveyBlock) r,
     Survey.studio_submit strip parse_int data self = Return r self' →
     Survey.tally self' = Survey.tally self ∧
     Survey.choices self' = Survey.choices self ∧
     submissions_count (Survey.base self') = submissions_count (Survey.base self)).
Proof.
  split; intros self self' r Hsubmit; destruct (success r) eqn:Hr.
  - by destruct (poll_studio_submit_success _ _ _ _ _ _ Hsubmit Hr)
      as (? & ? & _ & _ & _ & _ & _ & _ & _ & _ & _ & _ & _ & ? & ? & ? & _).
  - apply poll_studio_submit_spec in Hsubmit as (_ & Hsame & _). by rewrite Hsame.
  - by destruct (survey_studio_submit_success _ _ _ _ _ _ Hsubmit Hr)
      as (? & ? & ? & _ & _ & _ & _ & _ & _ & _ & _ & _ & _ & _ & _ & _ & ? & ? & ? & _).
  - apply survey_studio_submit_spec in Hsubmit as (_ & Hsame & _). by rewrite Hsame.
Qed.

Lemma studio_submit_keeps_votes_witness :
  ∃ r self',
    Poll.studio_submit no_strip no_int StudioForms.poll_form stale_poll = Return r self' ∧
    Poll.tally self' = Poll.tally stale_poll ∧
    Poll.choice self' = Poll.choice stale_poll ∧
    submissions_count (Poll.base self') = submissions_count (Poll.base stale_poll).
Proof.
  eexists _, _. split; [vm_compute; reflexivity|].
  eapply (proj1 (studio_submit_keeps_votes no_strip no_int StudioForms.poll_form) stale_poll).
  vm_compute; reflexivity.
Defined.

Lemma gathered_alt_text strip (self : PollBase) item (kv : string * entry) link :
  gathered strip self true item kv → truthy (img_alt_mandatory self) = true →
  img kv.2 = Some link → link ≠ "" →
  ∃ alt, img_alt kv.2 = Some alt ∧ alt ≠ "".
Proof.
  intros (members & key & text & link' & alt & _ & _ & _ & _ & _ & -> & _ & _ & Halt).
  simpl. intros Hmandatory [= ->] Hlink. exists alt. split; [done|].
  intros ->. specialize (Halt Hlink eq_refl). congruence.
Qed.

(** X24. Where alternative text is mandatory (which it is unless the
    settings service says otherwise), a successful [studio_submit] stores
    alternative text with every image: each item of [load_answers] of a poll
    and of [load_questions] of a survey that has a non-empty image has a
    non-empty [img_alt]. *)
Theorem studio_submit_alt_text strip parse_int (data : json) :
  (∀ (self self' : Poll.PollBlock) r item link,
     Poll.studio_submit strip parse_int data self = Return r self' → success r = true →
     truthy (img_alt_mandatory (Poll.base self)) = true →
     item ∈ PollViews.load_answers self' →
     PollViews.item_img item = Some link → link ≠ "" →
     ∃ alt, PollViews.item_img_alt item = Some alt ∧ alt ≠ "") ∧
  (∀ (self self' : Survey.SurveyBlock) r item link,
     Survey.studio_submit strip parse_int data self = Return r self' → success r = true →
     truthy (img_alt_mandatory (Survey.base self)) = true →
     item ∈ SurveyViews.load_questions self' →
     PollViews.item_img item = Some link → link ≠ "" →
     ∃ alt, PollViews.item_img_alt item = Some alt ∧ alt ≠ "").
Proof.
  split; intros self self' r item link Hsubmit Hr Hmandatory Hitem.
  - destruct (poll_studio_submit_success _ _ _ _ _ _ Hsubmit Hr)
      as (members & l & _ & _ & _ & _ & _ & _ & _ & _ & _ & Hall & _).
    apply list_elem_of_fmap in Hitem as (kv & -> & [i Hkv]%list_elem_of_lookup).
    destruct (Forall2_lookup_r _ _ _ _ _ Hall Hkv) as (source & _ & Hg).
    simpl. by apply (gathered_alt_text _ _ _ _ _ Hg).
  - destruct (survey_studio_submit_success _ _ _ _ _ _ Hsubmit Hr)
      as (members & la & lq & _ & _ & _ & _ & _ & _ & _ & _ & _ & _ & _ & Hall & _).
    apply list_elem_of_fmap in Hitem as (kv & -> & [i Hkv]%list_elem_of_lookup).
    destruct (Forall2_lookup_r _ _ _ _ _ Hall Hkv) as (source & _ & Hg).
    simpl. by apply (gathered_alt_text _ _ _ _ _ Hg).
Qed.

Lemma studio_submit_alt_text_witness :
  ∃ r self' item,
    Poll.studio_submit no_strip no_int StudioForms.poll_form default_poll =
      Return r self' ∧
    PollViews.load_answers self' !! 1%nat = Some item ∧
    PollViews.item_img item = Some "/static/salad.png" ∧
    ∃ alt, PollViews.item_img_alt item = Some alt ∧ alt ≠ "".
Proof.
  eexists _, _, _. split; [vm_compute; reflexivity|]. split; [reflexivity|].
  split; [reflexivity|].
  eapply (proj1 (studio_submit_alt_text no_strip no_int StudioForms.poll_form)
            default_poll);
    [vm_compute; reflexivity | reflexivity | reflexivity | right; by left
    | reflexivity | discriminate].
Defined.

(** ** The rows of PollBlock.tally_detail *)

Lemma od_set_fst {V} k (v : V) l :
  (Poll.od_set k v l).*1 = if bool_decide (k ∈ l.*1) then l.*1 else l.*1 ++ [k].
Proof.
  induction l as [|[k' v'] l IH]; simpl; [done|].
  destruct (String.eqb_spec k' k) as [->|Hne]; simpl.
  - rewrite bool_decide_true; [done | by left].
  - change ((Poll.od_set k v l).*1) with (fst <$> Poll.od_set k v l) in IH.
    change (k' :: (fst <$> Poll.od_set k v l) =
            if bool_decide (k ∈ k' :: l.*1) then k' :: l.*1 else k' :: l.*1 ++ [k]).
    rewrite IH. destruct (decide (k ∈ l.*1)) as [Hin|Hin].
    + rewrite !bool_decide_true; [done | by right | done].
    + rewrite !bool_decide_false; [done | | done].
      intros [->|?]%elem_of_cons; done.
Qed.

Lemma ordered_items_NoDup {V} (pairs : list (string * V)) :
  NoDup (Poll.ordered_items pairs).*1.
Proof.
  induction pairs as [|[k v] pairs IH] using rev_ind; [constructor|].
  unfold Poll.ordered_items in *. rewrite foldl_app. simpl. rewrite od_set_fst.
  case_bool_decide as Hin; [done|].
  apply NoDup_app. split_and!; [done| |apply NoDup_singleton].
  intros x Hx ->%list_elem_of_singleton. done.
Qed.

Lemma ordered_items_elem_of {V} (pairs : list (string * V)) k :
  k ∈ (Poll.ordered_items pairs).*1 ↔ k ∈ pairs.*1.
Proof.
  induction pairs as [|[k' v] pairs IH] using rev_ind; [done|].
  unfold Poll.ordered_items in *. rewrite foldl_app, fmap_app. simpl.
  rewrite od_set_fst, elem_of_app, list_elem_of_singleton.
  case_bool_decide as Hin.
  - rewrite IH. split; [by left|]. intros [?| ->]; [done|]. by apply IH.
  - by rewrite elem_of_app, list_elem_of_singleton, IH.
Qed.

Lemma ordered_items_subseteq {V} (pairs : list (string * V)) :
  Poll.ordered_items pairs ⊆ pairs.
Proof.
  induction pairs as [|[k v] pairs IH] using rev_ind; [done|].
  unfold Poll.ordered_items in *. rewrite foldl_app. simpl.
  revert IH. generalize (foldl (λ od kv, Poll.od_set kv.1 kv.2 od) [] pairs).
  intros l Hl x Hx. apply elem_of_app.
  assert (x ∈ l ∨ x = (k, v)) as [?| ->]; [|left; by apply Hl|right; by left].
  clear Hl. induction l as [|[k' v'] l IH]; simpl in Hx.
  - apply list_elem_of_singleton in Hx. by right.
  - destruct (String.eqb_spec k' k) as [->|Hne].
    + apply elem_of_cons in Hx as [->|Hx]; [by right | left; by right].
    + apply elem_of_cons in Hx as [->|Hx]; [left; by left|].
      destruct (IH Hx) as [?|?]; [left; by right | by right].
Qed.


Lemma poll_detail_rows_spec (t : gmap string Z) answers acc n :
  (∀ k, k ∈ answers.*1 → is_Some (t !! k)) →
  ∃ rows,
    Poll.detail_rows t answers (acc, n) =
      Val (acc ++ rows, n + foldr Z.add 0 (Poll.count <$> rows)) ∧
    Forall2 (fresh_row t) answers rows.
Proof.
  revert acc n. induction answers as [|[k e] answers IH]; intros acc n Hks; simpl.
  - exists []. simpl. by rewrite app_nil_r, Z.add_0_r.
  - destruct (Hks k) as [c Hc]; [by left|].
    unfold getitem. rewrite Hc. simpl.
    destruct (IH (acc ++ [{| Poll.count := c; Poll.answer := label e;
                             Poll.row_img := img e; Poll.row_img_alt := img_alt e;
                             Poll.key := k; Poll.first := false;
                             Poll.is_choice := false; Poll.last := false;
                             Poll.percent := 0 |}]) (n + c))
      as (rows & -> & Hrows).
    { intros k' Hk'. apply Hks. by right. }
    eexists (_ :: rows). split.
    + rewrite <-app_assoc. simpl. f_equal. f_equal. symmetry. apply Z.add_assoc.
    + constructor; [|done]. by repeat split.
Qed.

Lemma insert_by_count_Permutation r l : Poll.insert_by_count r l ≡ₚ r :: l.
Proof.
  induction l as [|r' l IH]; simpl; [done|].
  destruct (Poll.count r' <? Poll.count r); [done|].
  rewrite IH. apply Permutation_swap.
Qed.

Lemma sort_by_count_snoc l r :
  Poll.sort_by_count (l ++ [r]) = Poll.insert_by_count r (Poll.sort_by_count l).
Proof. unfold Poll.sort_by_count. by rewrite foldl_app. Qed.

Lemma sort_by_count_Permutation l : Poll.sort_by_count l ≡ₚ l.
Proof.
  induction l as [|r l IH] using rev_ind; [done|].
  rewrite sort_by_count_snoc, insert_by_count_Permutation, IH.
  by rewrite Permutation_app_comm.
Qed.

Lemma insert_by_count_sorted r l :
  StronglySorted (λ a b, Poll.count b ≤ Poll.count a) l →
  StronglySorted (λ a b, Poll.count b ≤ Poll.count a) (Poll.insert_by_count r l).
Proof.
  induction 1 as [|r' l Hl IH Hall]; simpl.
  - repeat constructor.
  - destruct (Z.ltb_spec (Poll.count r') (Poll.count r)) as [Hlt|Hge].
    + constructor; [by constructor|]. constructor; [lia|].
      eapply Forall_impl; [exact Hall|]. simpl. intros; lia.
    + constructor; [done|].
      apply insert_by_count_Forall; [lia | done].
Qed.

Lemma sort_by_count_sorted l :
  StronglySorted (λ a b, Poll.count b ≤ Poll.count a) (Poll.sort_by_count l).
Proof.
  induction l as [|r l IH] using rev_ind; [constructor|].
  rewrite sort_by_count_snoc. by apply insert_by_count_sorted.
Qed.

Lemma filter_count_nil c (l : list Poll.row) :
  Forall (λ x, Poll.count x ≠ c) l → filter (λ x, Poll.count x = c) l = [].
Proof.
  induction 1 as [|x l Hx Hl IH]; [done|]. by rewrite filter_cons_False.
Qed.

(** Rows with equal counts keep their order: the sort is stable. *)
Lemma insert_by_count_filter c r l :
  StronglySorted (λ a b, Poll.count b ≤ Poll.count a) l →
  filter (λ x, Poll.count x = c) (Poll.insert_by_count r l) =
  filter (λ x, Poll.count x = c) (l ++ [r]).
Proof.
  induction 1 as [|r' l Hl IH Hall]; simpl; [done|].
  destruct (Z.ltb_spec (Poll.count r') (Poll.count r)) as [Hlt|Hge].
  - rewrite (filter_app _ (r' :: l) [r]).
    destruct (decide (Poll.count r = c)) as [Hc|Hc].
    + rewrite (filter_cons_True _ r (r' :: l)) by done.
      rewrite (filter_cons_True _ r []) by done.
      assert (filter (λ x, Poll.count x = c) (r' :: l) = []) as ->; [|done].
      apply filter_count_nil. constructor; [lia|].
      eapply Forall_impl; [exact Hall|]. simpl. intros; lia.
    + rewrite (filter_cons_False _ r (r' :: l)) by done.
      rewrite (filter_cons_False _ r []) by done. by rewrite app_nil_r.
  - rewrite !filter_cons. by rewrite IH.
Qed.

Lemma sort_by_count_stable c l :
  filter (λ x, Poll.count x = c) (Poll.sort_by_count l) = filter (λ x, Poll.count x = c) l.
Proof.
  induction l as [|r l IH] using rev_ind; [done|].
  rewrite sort_by_count_snoc, insert_by_count_filter by apply sort_by_count_sorted.
  by rewrite !filter_app, IH.
Qed.

Lemma mark_last_snoc l r :
  Poll.mark_last (l ++ [r]) = l ++ [Poll.mark false false true (Poll.percent r) r].
Proof.
  unfold Poll.mark_last. rewrite reverse_snoc, reverse_cons. by rewrite reverse_involutive.
Qed.

Lemma mark_first_lookup l i r :
  Poll.mark_first l !! i = Some r ↔
  ∃ r0, l !! i = Some r0 ∧
        r = if bool_decide (i = 0%nat) then Poll.mark true false false (Poll.percent r0) r0
            else r0.
Proof.
  destruct l as [|r1 l]; simpl.
  - split; [done|]. by intros (? & ? & _).
  - destruct i as [|i]; simpl.
    + split; [intros [= <-]; by eexists | by intros (? & [= <-] & ->)].
    + split; [intros ?; by eexists | by intros (? & ? & ->)].
Qed.

Lemma mark_last_lookup l i r :
  Poll.mark_last l !! i = Some r ↔
  ∃ r0, l !! i = Some r0 ∧
        r = if bool_decide (S i = length l)
            then Poll.mark false false true (Poll.percent r0) r0
            else r0.
Proof.
  destruct l as [|r1 l _] using rev_ind.
  - split; [done|]. by intros (? & ? & _).
  - rewrite mark_last_snoc, length_app. simpl.
    destruct (decide (i < length l)%nat) as [Hlt|Hge].
    + rewrite !lookup_app_l by done. rewrite bool_decide_false by lia.
      split; [intros ?; by eexists | by intros (? & ? & ->)].
    + rewrite !lookup_app_r by lia.
      destruct (i - length l)%nat as [|j] eqn:Hj; simpl.
      * rewrite bool_decide_true by lia.
        split; [intros [= <-]; by eexists | by intros (? & [= <-] & ->)].
      * split; [done|]. by intros (? & ? & _).
Qed.

Lemma mark_first_length l : length (Poll.mark_first l) = length l.
Proof. by destruct l. Qed.

Lemma total_keys (t : gmap string Z) ks :
  NoDup ks → (∀ k, k ∈ ks ↔ is_Some (t !! k)) →
  total t = foldr Z.add 0 ((λ k, default 0 (t !! k)) <$> ks).
Proof.
  revert t. induction ks as [|k ks IH]; intros t Hnd Hdom.
  - assert (t = ∅) as ->; [|done].
    apply map_empty. intros k. apply eq_None_not_Some. rewrite <-Hdom. by intros ?%elem_of_nil.
  - apply NoDup_cons in Hnd as [Hnotin Hnd].
    destruct (proj1 (Hdom k)) as [c Hk]; [by left|].
    rewrite fmap_cons. simpl. rewrite Hk. simpl.
    rewrite <-(insert_id t k c Hk), <-insert_delete_eq at 1.
    rewrite total_insert_fresh by apply lookup_delete_eq.
    f_equal. rewrite (IH (delete k t)); [|done|].
    + f_equal. apply list_fmap_ext. intros i k' Hk'.
      rewrite lookup_delete_ne; [done|]. intros ->. apply Hnotin.
      by eapply list_elem_of_lookup_2.
    + intros k'. destruct (decide (k' = k)) as [->|Hne].
      * rewrite lookup_delete_eq. split; [done|]. by intros [? ?].
      * rewrite lookup_delete_ne by done. rewrite <-Hdom.
        split; [by right|]. by intros [->|?]%elem_of_cons.
Qed.

Lemma sum_counts_Permutation (l1 l2 : list Z) :
  l1 ≡ₚ l2 → foldr Z.add 0 l1 = foldr Z.add 0 l2.
Proof. induction 1; simpl; lia. Qed.

Lemma mark_last_length l : length (Poll.mark_last l) = length l.
Proof.
  destruct l as [|r l _] using rev_ind; [done|].
  by rewrite mark_last_snoc, !length_app.
Qed.

(** How [tally_detail] builds its result: the rows of the first loop, in
    the order of the answers, then the flags of the second loop, the sort
    and the marks of the first and last row. *)
Lemma poll_tally_detail_shape markdown round_percent (self : Poll.PollBlock) :
  ∃ choice rows0 total,
    Poll.get_choice self = Return choice self ∧
    Poll.tally_detail markdown round_percent self =
      Return
        (Poll.mark_last (Poll.mark_first (Poll.sort_by_count
           ((λ answer,
               Poll.mark false (bool_decide (Some (Poll.key answer) = choice)) false
                 (if total =? 0 then 0 else round_percent (Poll.count answer) total)
                 answer) <$> rows0))),
         total)
        (Poll.clean_tally self) ∧
    Forall2 (fresh_row (Poll.tally (Poll.clean_tally self)))
      (Poll.ordered_items (Poll.markdown_items markdown (Poll.answers self))) rows0 ∧
    total = foldr Z.add 0 (Poll.count <$> rows0).
Proof.
  unfold Poll.tally_detail.
  assert (∃ choice, Poll.get_choice self = Return choice self) as [choice Hchoice].
  { destruct (poll_get_choice_cases self) as [(c & _ & _ & _ & ->)|[_ ->]]; by eexists. }
  rewrite Hchoice.
  destruct (poll_detail_rows_spec (Poll.tally (Poll.clean_tally self))
              (Poll.ordered_items (Poll.markdown_items markdown (Poll.answers self))) [] 0)
    as (rows0 & -> & Hrows).
  { intros k Hk%ordered_items_keys. rewrite markdown_items_keys in Hk.
    rewrite poll_clean_tally_lookup, bool_decide_true by done. by eexists. }
  exists choice, rows0, (0 + foldr Z.add 0 (Poll.count <$> rows0)).
  split_and!; [done|done|done|lia].
Qed.

Lemma ordered_items_fst_ext {V W} (pairs1 : list (string * V)) (pairs2 : list (string * W)) :
  pairs1.*1 = pairs2.*1 → (Poll.ordered_items pairs1).*1 = (Poll.ordered_items pairs2).*1.
Proof.
  revert pairs2. induction pairs1 as [|[k v] pairs1 IH] using rev_ind; intros pairs2 Heq.
  - symmetry in Heq. by apply fmap_nil_inv in Heq as ->.
  - rewrite fmap_app in Heq. symmetry in Heq.
    apply fmap_app_inv in Heq as (l1 & l2 & Hl1 & Hl2 & ->).
    destruct l2 as [|[k' w] [|??]]; try done. simpl in Hl2. injection Hl2 as ->.
    unfold Poll.ordered_items in *. rewrite !foldl_app. simpl.
    rewrite !od_set_fst. by rewrite (IH l1).
Qed.

Lemma mark_first_fmap {A} (g : Poll.row → A) l :
  (∀ a b c p r, g (Poll.mark a b c p r) = g r) → g <$> Poll.mark_first l = g <$> l.
Proof. intros Hg. destruct l as [|r l]; [done|]. simpl. by rewrite Hg. Qed.

Lemma mark_last_fmap {A} (g : Poll.row → A) l :
  (∀ a b c p r, g (Poll.mark a b c p r) = g r) → g <$> Poll.mark_last l = g <$> l.
Proof.
  intros Hg. destruct l as [|r l _] using rev_ind; [done|].
  by rewrite mark_last_snoc, !fmap_app, !fmap_cons, Hg.
Qed.

Lemma sorted_counts (l : list Poll.row) :
  StronglySorted (λ a b, b ≤ a) (Poll.count <$> l) →
  StronglySorted (λ a b, Poll.count b ≤ Poll.count a) l.
Proof.
  induction l as [|r l IH]; [constructor|].
  rewrite fmap_cons. inversion 1 as [|? ? Hl Hall]; subst.
  constructor; [by apply IH|]. apply Forall_forall. intros x Hx.
  rewrite Forall_forall in Hall. apply Hall, list_elem_of_fmap. by exists x.
Qed.

Lemma filter_count_keys c (l1 l2 : list Poll.row) :
  (λ r, (Poll.key r, Poll.count r)) <$> l1 = (λ r, (Poll.key r, Poll.count r)) <$> l2 →
  Poll.key <$> filter (λ r, Poll.count r = c) l1 =
  Poll.key <$> filter (λ r, Poll.count r = c) l2.
Proof.
  revert l2. induction l1 as [|r1 l1 IH]; intros [|r2 l2] Heq; try done.
  rewrite !fmap_cons in Heq. injection Heq as Hk Hc Heq.
  rewrite !filter_cons, <-Hc.
  destruct (decide (Poll.count r1 = c)); [|by apply IH].
  rewrite !fmap_cons, Hk. f_equal. by apply IH.
Qed.

Lemma fresh_rows_counts (self : Poll.PollBlock) answers rows :
  Forall2 (fresh_row (Poll.tally (Poll.clean_tally self))) answers rows →
  (λ r, (Poll.key r, Poll.count r)) <$> rows =
  (λ k, (k, default 0 (Poll.tally self !! k))) <$> answers.*1.
Proof.
  induction 1 as [|kv r answers rows (Hk & _ & _ & _ & Hc & _) Hall IH]; [done|].
  rewrite !fmap_cons, IH, Hk. do 2 f_equal.
  rewrite poll_clean_tally_lookup in Hc. case_bool_decide; [|done]. by injection Hc.
Qed.

Lemma filter_pairs_keys c (f : string → Z) (ks : list string) :
  fst <$> filter (λ kc : string * Z, kc.2 = c) ((λ k, (k, f k)) <$> ks) =
  filter (λ k, f k = c) ks.
Proof.
  induction ks as [|k ks IH]; [done|].
  rewrite fmap_cons, !filter_cons. simpl.
  destruct (decide (f k = c)); [|done]. by rewrite fmap_cons, IH.
Qed.

Lemma filter_rows_pairs c (l : list Poll.row) :
  Poll.key <$> filter (λ r, Poll.count r = c) l =
  fst <$> filter (λ kc : string * Z, kc.2 = c) ((λ r, (Poll.key r, Poll.count r)) <$> l).
Proof.
  induction l as [|r l IH]; [done|].
  rewrite fmap_cons, !filter_cons. simpl.
  destruct (decide (Poll.count r = c)); [|done]. by rewrite !fmap_cons, IH.
Qed.

(** X15. [PollBlock.tally_detail] always returns and leaves the reconciled
    tally behind.  It returns one row per distinct configured answer key;
    the count of a row is the stored counter of its key, or 0 where the
    tally has none; the rows are in descending order of count, and rows
    with equal counts keep the order of the answers.  The total is the sum
    of the counts of the rows, which is the sum of the reconciled tally. *)
Theorem poll_tally_detail_rows markdown round_percent (self : Poll.PollBlock) :
  ∃ rows votes,
    Poll.tally_detail markdown round_percent self =
      Return (rows, votes) (Poll.clean_tally self) ∧
    NoDup (Poll.key <$> rows) ∧
    (∀ k, k ∈ Poll.key <$> rows ↔ k ∈ (Poll.answers self).*1) ∧
    Forall (λ r, Poll.count r = default 0 (Poll.tally self !! Poll.key r)) rows ∧
    StronglySorted (λ a b, Poll.count b ≤ Poll.count a) rows ∧
    (∀ c, Poll.key <$> filter (λ r, Poll.count r = c) rows =
          filter (λ k, default 0 (Poll.tally self !! k) = c)
            (Poll.ordered_items (Poll.answers self)).*1) ∧
    votes = foldr Z.add 0 (Poll.count <$> rows) ∧
    votes = total (Poll.tally (Poll.clean_tally self)).
Proof.
  destruct (poll_tally_detail_shape markdown round_percent self)
    as (choice & rows0 & votes & _ & -> & Hrows & Hvotes).
  set (f := λ answer, Poll.mark false _ false _ answer).
  set (g := λ r, (Poll.key r, Poll.count r)).
  set (rows := Poll.mark_last _).
  assert ((Poll.ordered_items (Poll.markdown_items markdown (Poll.answers self))).*1 =
          (Poll.ordered_items (Poll.answers self)).*1) as Hkeys.
  { apply ordered_items_fst_ext, markdown_items_keys. }
  apply fresh_rows_counts in Hrows. fold g in Hrows. rewrite Hkeys in Hrows.
  set (okeys := (Poll.ordered_items (Poll.answers self)).*1) in *.
  assert (g <$> rows = g <$> Poll.sort_by_count (f <$> rows0)) as Hmarks.
  { unfold rows. by rewrite mark_last_fmap, mark_first_fmap. }
  assert (g <$> (f <$> rows0) = g <$> rows0) as Hf.
  { rewrite <-list_fmap_compose. by apply list_fmap_ext. }
  assert (g <$> rows ≡ₚ g <$> rows0) as Hperm.
  { by rewrite Hmarks, sort_by_count_Permutation, Hf. }
  assert (Poll.key <$> rows ≡ₚ okeys) as Hk.
  { apply (fmap_Permutation fst) in Hperm. rewrite Hrows in Hperm.
    rewrite <-!list_fmap_compose in Hperm.
    rewrite <-(list_fmap_id okeys). exact Hperm. }
  assert (Poll.count <$> rows ≡ₚ Poll.count <$> rows0) as Hc.
  { apply (fmap_Permutation snd) in Hperm. by rewrite <-!list_fmap_compose in Hperm. }
  exists rows, votes. split_and!.
  - done.
  - rewrite Hk. apply ordered_items_NoDup.
  - intros k. rewrite Hk. unfold okeys. apply ordered_items_elem_of.
  - apply Forall_forall. intros r Hr.
    assert (g r ∈ g <$> rows) as Hg by (apply list_elem_of_fmap; by exists r).
    rewrite Hperm, Hrows in Hg.
    apply list_elem_of_fmap in Hg as (k & [= -> ->] & _). done.
  - apply sorted_counts.
    replace (Poll.count <$> rows) with (Poll.count <$> Poll.sort_by_count (f <$> rows0)).
    + apply (StronglySorted_fmap _ (λ a b, Poll.count b ≤ Poll.count a)); [done|].
      apply sort_by_count_sorted.
    + apply (f_equal (fmap snd)) in Hmarks. by rewrite <-!list_fmap_compose in Hmarks.
  - intros c. rewrite (filter_count_keys c rows _ Hmarks), sort_by_count_stable.
    rewrite (filter_count_keys c _ _ Hf), filter_rows_pairs. fold g. rewrite Hrows.
    apply filter_pairs_keys.
  - rewrite Hvotes. symmetry. by apply sum_counts_Permutation.
  - rewrite Hvotes.
    rewrite (total_keys _ okeys).
    + f_equal. apply (f_equal (fmap snd)) in Hrows.
      rewrite <-!list_fmap_compose in Hrows.
      etrans; [exact Hrows|]. apply list_fmap_ext. intros i k Hk'.
      change (default 0 (Poll.tally self !! k) =
              default 0 (Poll.tally (Poll.clean_tally self) !! k)).
      rewrite poll_clean_tally_lookup, bool_decide_true; [done|].
      apply ordered_items_elem_of. by eapply list_elem_of_lookup_2.
    + apply ordered_items_NoDup.
    + intros k. unfold okeys. rewrite ordered_items_elem_of, poll_clean_tally_lookup.
      case_bool_decide; split; try done; try (by eexists); by intros [? ?].
Qed.

(** X16. In the rows of [PollBlock.tally_detail] the flag [first] is set on
    the first row only, [last] on the last row only and [choice] on the row
    of the answer that [get_choice] returns; the percentage of a row is 0
    when there are no votes and the rounded share of its count otherwise. *)
Theorem poll_tally_detail_flags markdown round_percent (self self' : Poll.PollBlock)
    rows votes choice i r :
  Poll.tally_detail markdown round_percent self = Return (rows, votes) self' →
  Poll.get_choice self = Return choice self →
  rows !! i = Some r →
  Poll.first r = bool_decide (i = 0%nat) ∧
  Poll.last r = bool_decide (S i = length rows) ∧
  Poll.is_choice r = bool_decide (Some (Poll.key r) = choice) ∧
  Poll.percent r = if votes =? 0 then 0 else round_percent (Poll.count r) votes.
Proof.
  destruct (poll_tally_detail_shape markdown round_percent self)
    as (choice' & rows0 & votes' & -> & -> & Hrows & _).
  intros [= <- <- _] [= <-] Hr.
  rewrite mark_last_length.
  apply mark_last_lookup in Hr as (r1 & Hr1 & ->). rewrite mark_first_length.
  apply mark_first_lookup in Hr1 as (r2 & Hr2 & ->).
  assert (Poll.first r2 = false ∧ Poll.last r2 = false ∧
          Poll.is_choice r2 = bool_decide (Some (Poll.key r2) = choice') ∧
          Poll.percent r2 =
            if votes' =? 0 then 0 else round_percent (Poll.count r2) votes')
    as (Hfirst & Hlast & Hchoice & Hpercent).
  { revert r2 Hr2. intros r2 Hr2%list_elem_of_lookup_2. revert r2 Hr2.
    apply Forall_forall, sort_by_count_Forall, Forall_fmap, Forall_forall.
    intros r0 Hr0. apply list_elem_of_lookup in Hr0 as [j Hj].
    destruct (Forall2_lookup_r _ _ _ _ _ Hrows Hj)
      as (kv & _ & _ & _ & _ & _ & _ & Hf & Hc & Hl).
    simpl. rewrite Hf, Hc, Hl. done. }
  destruct (bool_decide (i = 0%nat)), (bool_decide (S i = length _)); simpl;
    rewrite ?Hfirst, ?Hlast, ?Hchoice, ?Hpercent, ?orb_false_r; done.
Qed.

Lemma poll_tally_detail_flags_witness :
  ∃ rows votes self' r,
    Poll.tally_detail no_strip Votes.whole_percent Votes.voted_poll =
      Return (rows, votes) self' ∧
    rows !! 0%nat = Some r ∧
    Poll.first r = bool_decide (0%nat = 0%nat) ∧
    Poll.last r = bool_decide (1%nat = length rows) ∧
    Poll.is_choice r = bool_decide (Some (Poll.key r) = Some "B") ∧
    Poll.percent r = if votes =? 0 then 0 else Votes.whole_percent (Poll.count r) votes.
Proof.
  eexists _, _, _, _. split; [vm_compute; reflexivity|]. split; [reflexivity|].
  eapply (poll_tally_detail_flags no_strip Votes.whole_percent Votes.voted_poll);
    [vm_compute; reflexivity | reflexivity | reflexivity].
Defined.

(** ** The rows of SurveyBlock.tally_detail *)

Lemma od_set_present {V} k (v : V) l :
  NoDup l.*1 → k ∈ l.*1 →
  Poll.od_set k v l = (λ kv, if String.eqb kv.1 k then (kv.1, v) else kv) <$> l.
Proof.
  induction l as [|[k' v'] l IH]; [by intros _ ?%elem_of_nil|].
  rewrite !fmap_cons. intros [Hk' Hnd]%NoDup_cons. simpl.
  destruct (String.eqb_spec k' k) as [->|Hne].
  - intros _. f_equal. rewrite <-(list_fmap_id l) at 1. apply list_fmap_ext.
    intros i [k2 v2] Hi. simpl. destruct (String.eqb_spec k2 k) as [->|?]; [|done].
    destruct Hk'. apply list_elem_of_fmap. exists (k, v2). split; [done|].
    by eapply list_elem_of_lookup_2.
  - intros [?|Hk]%elem_of_cons; [done|]. f_equal. by apply IH.
Qed.

Lemma foldl_od_set_spec {V} (l od : list (string * V)) :
  NoDup l.*1 → NoDup od.*1 → (∀ k, k ∈ l.*1 → k ∈ od.*1) →
  foldl (λ od kv, Poll.od_set kv.1 kv.2 od) od l =
  (λ kv, (kv.1, default kv.2 ((list_to_map l : gmap string V) !! kv.1))) <$> od.
Proof.
  revert od. induction l as [|[k v] l IH]; intros od Hl Hod Hin.
  - simpl. rewrite <-(list_fmap_id od) at 1. apply list_fmap_ext. by intros i [??] _.
  - rewrite fmap_cons in Hl. apply NoDup_cons in Hl as [Hk Hl].
    assert (k ∈ od.*1) as Hkod by (apply Hin; by left).
    assert ((Poll.od_set k v od).*1 = od.*1) as Hkeys.
    { by rewrite od_set_fst, bool_decide_true. }
    simpl. rewrite IH; [|done|by rewrite Hkeys|].
    + rewrite od_set_present, <-list_fmap_compose by done.
      apply list_fmap_ext. intros i [k2 v2] _. simpl.
      destruct (String.eqb_spec k2 k) as [->|Hne]; simpl.
      * rewrite lookup_insert_eq. simpl.
        by rewrite (not_elem_of_list_to_map_1 _ k Hk).
      * by rewrite lookup_insert_ne.
    + intros k' Hk'. rewrite Hkeys. apply Hin. by right.
Qed.

Lemma answer_set_spec (defaults : list (string * Z)) (counters : gmap string Z) :
  NoDup defaults.*1 → (∀ k, is_Some (counters !! k) → k ∈ defaults.*1) →
  SurveyViews.answer_set defaults counters =
  (λ kv, (kv.1, default kv.2 (counters !! kv.1))) <$> defaults.
Proof.
  intros Hnd Hin. unfold SurveyViews.answer_set.
  rewrite foldl_od_set_spec; [|apply NoDup_items|done|].
  - unfold items. by rewrite list_to_map_to_list.
  - intros k [[k' v] [-> Hkv]]%list_elem_of_fmap. apply Hin.
    apply elem_of_items in Hkv. by eexists.
Qed.

Lemma survey_detail_rows_spec (t : gmap string (gmap string Z)) defaults questions acc :
  (∀ k, k ∈ questions.*1 → is_Some (t !! k)) →
  ∃ rows,
    SurveyViews.detail_rows t defaults questions acc = Val (acc ++ rows) ∧
    Forall2 (fresh_question t defaults) questions rows.
Proof.
  revert acc. induction questions as [|[k e] questions IH]; intros acc Hks; simpl.
  - exists []. by rewrite app_nil_r.
  - destruct (Hks k) as [counters Hc]; [by left|].
    unfold getitem. rewrite Hc. simpl.
    edestruct IH as (rows & -> & Hrows).
    { intros k' Hk'. apply Hks. by right. }
    eexists (_ :: rows). split; [by rewrite <-app_assoc|].
    constructor; [|done]. split_and!; try done. by exists counters.
Qed.

Lemma scan_answers_spec round_percent chosen votes answers index highest top_index :
  ∃ top_index',
    SurveyViews.scan_answers round_percent chosen votes answers index highest top_index =
      (flag_answer round_percent chosen votes <$> answers, top_index') ∧
    ((top_index' = top_index ∧
      Forall (λ a, SurveyViews.a_count a ≤ highest) answers) ∨
     (∃ i, top_index' = Some (index + i)%nat ∧ first_highest highest answers i)).
Proof.
  revert index highest top_index.
  induction answers as [|a answers IH]; intros index highest top_index; simpl.
  - exists top_index. split; [done|]. left. by split.
  - assert (SurveyViews.a_count
              (if bool_decide (Some (SurveyViews.a_key a) = chosen)
               then SurveyViews.set_choice a else a) = SurveyViews.a_count a) as ->.
    { by case_bool_decide. }
    destruct (Z.ltb_spec highest (SurveyViews.a_count a)) as [Hlt|Hge].
    + destruct (IH (S index) (SurveyViews.a_count a) (Some index))
        as (top' & -> & Hrest).
      exists top'.
      split; [do 2 f_equal; unfold flag_answer; by case_bool_decide|]. right.
      destruct Hrest as [[-> Hall]|(i & -> & b & Hb & Hhi & Hmax & Hfirst)].
      * exists 0%nat. split; [f_equal; lia|]. exists a. split_and!; [done|done| |].
        -- intros [|j] b; simpl; [intros [= <-]; lia|].
           intros Hb%list_elem_of_lookup_2. rewrite Forall_forall in Hall. by apply Hall.
        -- intros j b Hj. lia.
      * exists (S i). split; [f_equal; lia|]. exists b. split_and!; [done|lia| |].
        -- intros [|j] c; simpl; [intros [= <-]; lia|]. apply Hmax.
        -- intros [|j] c Hj; simpl; [intros [= <-]; lia|]. apply Hfirst. lia.
    + destruct (IH (S index) highest top_index) as (top' & -> & Hrest).
      exists top'.
      split; [do 2 f_equal; unfold flag_answer; by case_bool_decide|].
      destruct Hrest as [[-> Hall]|(i & -> & b & Hb & Hhi & Hmax & Hfirst)].
      * left. split; [done|]. by constructor.
      * right. exists (S i). split; [f_equal; lia|]. exists b. split_and!; [done|done| |].
        -- intros [|j] c; simpl; [intros [= <-]; lia|]. apply Hmax.
        -- intros [|j] c Hj; simpl; [intros [= <-]; lia|]. apply Hfirst. lia.
Qed.

Lemma survey_tally_detail_shape markdown round_percent first_counters
    (self : Survey.SurveyBlock) :
  ∃ rows0 votes,
    votes = match first_counters (Survey.tally (Survey.clean_tally self)) with
            | Some counters => total counters
            | None => 0
            end ∧
    SurveyViews.tally_detail markdown round_percent first_counters self =
      Return
        (SurveyViews.mark_question round_percent (default ∅ (Survey.choices self)) votes
         <$> rows0, votes)
        (Survey.clean_tally self) ∧
    Forall2
      (fresh_question (Survey.tally (Survey.clean_tally self))
         (SurveyViews.default_answers (Survey.answers self)))
      (Poll.ordered_items (Poll.markdown_items markdown (Survey.questions self))) rows0.
Proof.
  unfold SurveyViews.tally_detail.
  destruct (survey_detail_rows_spec (Survey.tally (Survey.clean_tally self))
              (SurveyViews.default_answers (Survey.answers self))
              (Poll.ordered_items (Poll.markdown_items markdown (Survey.questions self)))
              [])
    as (rows0 & -> & Hrows).
  { intros k Hk%ordered_items_keys. rewrite markdown_items_keys in Hk.
    by apply survey_clean_tally_is_Some. }
  by eexists rows0, _.
Qed.

Lemma fresh_question_answers (self : Survey.SurveyBlock) kv q :
  fresh_question (Survey.tally (Survey.clean_tally self))
    (SurveyViews.default_answers (Survey.answers self)) kv q →
  kv.1 ∈ (Survey.questions self).*1 →
  SurveyViews.a_key <$> SurveyViews.q_answers q =
    (Poll.ordered_items (Survey.answers self)).*1 ∧
  Forall (λ a, SurveyViews.a_count a =
                 default 0 (Survey.tally self !! kv.1 ≫= (.!! SurveyViews.a_key a)) ∧
               SurveyViews.a_choice a = false ∧ SurveyViews.a_top a = false)
    (SurveyViews.q_answers q).
Proof.
  intros (_ & _ & _ & _ & _ & counters & Hcounters & ->) Hq.
  assert (∀ k, counters !! k =
               if bool_decide (k ∈ (Survey.answers self).*1)
               then Some (default 0 (Survey.tally self !! kv.1 ≫= (.!! k))) else None)
    as Hlookup.
  { intros k. pose proof (survey_clean_tally_counter self kv.1 k) as Hc.
    rewrite Hcounters in Hc. simpl in Hc. rewrite Hc.
    by rewrite (bool_decide_true _ Hq). }
  assert ((SurveyViews.default_answers (Survey.answers self)).*1 =
          (Poll.ordered_items (Survey.answers self)).*1) as Hkeys.
  { apply ordered_items_fst_ext. rewrite <-list_fmap_compose. by apply list_fmap_ext. }
  rewrite answer_set_spec.
  - rewrite <-!list_fmap_compose. split.
    + rewrite <-Hkeys. by apply list_fmap_ext.
    + apply Forall_fmap, Forall_forall. intros [k c] Hkc. simpl.
      assert (k ∈ (Survey.answers self).*1) as Hk.
      { apply (ordered_items_elem_of (Survey.answers self)). rewrite <-Hkeys.
        apply list_elem_of_fmap. by exists (k, c). }
      by rewrite Hlookup, bool_decide_true.
  - apply ordered_items_NoDup.
  - intros k Hk. rewrite Hlookup in Hk. case_bool_decide as Hin; [|by destruct Hk].
    rewrite Hkeys. by apply ordered_items_elem_of.
Qed.

Lemma alter_set_top_fmap {A} (g : SurveyViews.answer_row → A) (i : nat)
    (l : list SurveyViews.answer_row) :
  (∀ a, g (SurveyViews.set_top a) = g a) → g <$> alter SurveyViews.set_top i l = g <$> l.
Proof.
  intros Hg. revert i. induction l as [|a l IH]; intros [|i]; simpl; try done.
  - by rewrite Hg.
  - f_equal. apply IH.
Qed.

Lemma first_highest_unique highest answers i j :
  first_highest highest answers i → first_highest highest answers j → i = j.
Proof.
  intros (a & Ha & _ & Hmaxa & Hfirsta) (b & Hb & _ & Hmaxb & Hfirstb).
  destruct (Nat.lt_trichotomy i j) as [Hlt|[?|Hlt]]; [|done|].
  - specialize (Hfirstb i a Hlt Ha). specialize (Hmaxa j b Hb). lia.
  - specialize (Hfirsta j b Hlt Hb). specialize (Hmaxb i a Ha). lia.
Qed.

Lemma first_highest_counts highest l1 l2 i :
  SurveyViews.a_count <$> l1 = SurveyViews.a_count <$> l2 →
  first_highest highest l1 i → first_highest highest l2 i.
Proof.
  intros Heq (a & Ha & Hhi & Hmax & Hfirst).
  assert (∀ j c, (SurveyViews.a_count <$> l1) !! j = Some c ↔
                 (SurveyViews.a_count <$> l2) !! j = Some c) as Hc by (by rewrite Heq).
  assert (∀ j b, l2 !! j = Some b →
                 ∃ b', l1 !! j = Some b' ∧ SurveyViews.a_count b' = SurveyViews.a_count b)
    as Hback.
  { intros j b Hb.
    assert ((SurveyViews.a_count <$> l1) !! j = Some (SurveyViews.a_count b)) as Hj.
    { apply Hc. by rewrite list_lookup_fmap, Hb. }
    rewrite list_lookup_fmap in Hj. destruct (l1 !! j) as [b'|]; [|done].
    injection Hj as Hj. by exists b'. }
  assert ((SurveyViews.a_count <$> l2) !! i = Some (SurveyViews.a_count a)) as Hi.
  { apply Hc. by rewrite list_lookup_fmap, Ha. }
  rewrite list_lookup_fmap in Hi. destruct (l2 !! i) as [a'|] eqn:Ha'; [|done].
  injection Hi as Hi. exists a'. rewrite Hi. split_and!; [done|done| |].
  - intros j b Hb. destruct (Hback j b Hb) as (b' & Hb' & <-). by eapply Hmax.
  - intros j b Hj Hb. destruct (Hback j b Hb) as (b' & Hb' & <-). by eapply Hfirst.
Qed.

Lemma mark_question_spec round_percent (choices : gmap string string) votes
    (q0 : SurveyViews.question_row) :
  SurveyViews.q_key (SurveyViews.mark_question round_percent choices votes q0) =
    SurveyViews.q_key q0 ∧
  SurveyViews.q_choice (SurveyViews.mark_question round_percent choices votes q0) =
    SurveyViews.q_choice q0 ∧
  ∃ top,
    SurveyViews.q_answers (SurveyViews.mark_question round_percent choices votes q0) =
      match top with
      | Some i =>
          alter SurveyViews.set_top i
            (flag_answer round_percent (choices !! SurveyViews.q_key q0) votes
             <$> SurveyViews.q_answers q0)
      | None =>
          flag_answer round_percent (choices !! SurveyViews.q_key q0) votes
          <$> SurveyViews.q_answers q0
      end ∧
    match top with
    | Some i => first_highest 0 (SurveyViews.q_answers q0) i
    | None => Forall (λ a, SurveyViews.a_count a ≤ 0) (SurveyViews.q_answers q0)
    end.
Proof.
  unfold SurveyViews.mark_question.
  destruct (scan_answers_spec round_percent (choices !! SurveyViews.q_key q0) votes
              (SurveyViews.q_answers q0) 0 0 None) as (top & -> & Htop).
  destruct Htop as [[-> Hall]|(i & -> & Hi)]; simpl.
  - split_and!; [done|done|]. by exists None.
  - split_and!; [done|done|]. by exists (Some i).
Qed.

Lemma flag_answer_fields round_percent chosen votes a :
  SurveyViews.a_key (flag_answer round_percent chosen votes a) = SurveyViews.a_key a ∧
  SurveyViews.a_count (flag_answer round_percent chosen votes a) = SurveyViews.a_count a ∧
  SurveyViews.a_top (flag_answer round_percent chosen votes a) = SurveyViews.a_top a ∧
  SurveyViews.a_choice (flag_answer round_percent chosen votes a) =
    SurveyViews.a_choice a || bool_decide (Some (SurveyViews.a_key a) = chosen) ∧
  SurveyViews.a_percent (flag_answer round_percent chosen votes a) =
    if votes =? 0 then 0 else round_percent (SurveyViews.a_count a) votes.
Proof.
  unfold flag_answer.
  destruct (bool_decide (Some (SurveyViews.a_key a) = chosen)); simpl; split_and!;
    rewrite ?orb_true_r, ?orb_false_r; done.
Qed.

Lemma mark_question_fmap {A} (g : SurveyViews.answer_row → A) round_percent
    (choices : gmap string string) votes q0 :
  (∀ a, g (SurveyViews.set_top a) = g a) →
  (∀ a chosen, g (flag_answer round_percent chosen votes a) = g a) →
  g <$> SurveyViews.q_answers (SurveyViews.mark_question round_percent choices votes q0) =
  g <$> SurveyViews.q_answers q0.
Proof.
  intros Htop Hflag.
  destruct (mark_question_spec round_percent choices votes q0)
    as (_ & _ & top & -> & _).
  destruct top as [i|]; rewrite ?alter_set_top_fmap by done;
    rewrite <-list_fmap_compose; apply list_fmap_ext; intros ? a _; apply Hflag.
Qed.

Lemma fresh_question_keys t defaults questions rows :
  Forall2 (fresh_question t defaults) questions rows →
  SurveyViews.q_key <$> rows = questions.*1.
Proof.
  induction 1 as [|kv q questions rows (Hk & _) _ IH]; [done|].
  by rewrite !fmap_cons, Hk, IH.
Qed.

(** X17. [SurveyBlock.tally_detail] always returns and leaves the
    reconciled tally behind.  It returns one question per distinct
    configured question key, in the configured order, and in each question
    one answer per distinct configured answer key, in the configured order.
    The count of an answer is the stored counter, or 0 where the tally has
    none; its [choice] flag says whether the stored choices give this answer
    to the question, and its percentage is 0 when the total is 0 and the
    rounded share of its count otherwise.  No question has its own [choice]
    flag set. *)
Theorem survey_tally_detail_rows markdown round_percent first_counters
    (self : Survey.SurveyBlock) :
  ∃ rows votes,
    SurveyViews.tally_detail markdown round_percent first_counters self =
      Return (rows, votes) (Survey.clean_tally self) ∧
    SurveyViews.q_key <$> rows = (Poll.ordered_items (Survey.questions self)).*1 ∧
    Forall
      (λ q,
         SurveyViews.q_choice q = false ∧
         SurveyViews.a_key <$> SurveyViews.q_answers q =
           (Poll.ordered_items (Survey.answers self)).*1 ∧
         Forall
           (λ a,
              SurveyViews.a_count a =
                default 0 (Survey.tally self !! SurveyViews.q_key q
                           ≫= (.!! SurveyViews.a_key a)) ∧
              SurveyViews.a_choice a =
                bool_decide (default ∅ (Survey.choices self) !! SurveyViews.q_key q =
                             Some (SurveyViews.a_key a)) ∧
              SurveyViews.a_percent a =
                if votes =? 0 then 0 else round_percent (SurveyViews.a_count a) votes)
           (SurveyViews.q_answers q))
      rows.
Proof.
  destruct (survey_tally_detail_shape markdown round_percent first_counters self)
    as (rows0 & votes & _ & -> & Hrows).
  eexists _, votes. split; [done|]. split.
  - rewrite <-list_fmap_compose.
    rewrite <-(ordered_items_fst_ext _ _ (markdown_items_keys markdown (Survey.questions self))).
    rewrite <-(fresh_question_keys _ _ _ _ Hrows).
    apply list_fmap_ext. intros i q0 _. simpl.
    by destruct (mark_question_spec round_percent (default ∅ (Survey.choices self)) votes q0)
      as (-> & _).
  - apply Forall_fmap, Forall_forall. intros q0 Hq0.
    apply list_elem_of_lookup in Hq0 as [i Hq0].
    destruct (Forall2_lookup_r _ _ _ _ _ Hrows Hq0) as (kv & Hkv & Hfresh).
    assert (kv.1 ∈ (Survey.questions self).*1) as Hin.
    { rewrite <-(markdown_items_keys markdown). apply ordered_items_keys.
      apply list_elem_of_fmap. exists kv. split; [done|]. by eapply list_elem_of_lookup_2. }
    destruct (fresh_question_answers self kv q0 Hfresh Hin) as [Hkeys Hanswers].
    destruct Hfresh as (Hkey & _ & _ & _ & Hchoice & _).
    destruct (mark_question_spec round_percent (default ∅ (Survey.choices self)) votes q0)
      as (Hk & Hc & top & Htop & _).
    simpl. rewrite Hk, Hc. split_and!; [done| |].
    + rewrite <-Hkeys. apply mark_question_fmap; [done|]. intros a chosen.
      by destruct (flag_answer_fields round_percent chosen votes a) as (-> & _).
    + assert (Forall
        (λ a, SurveyViews.a_count a =
                default 0 (Survey.tally self !! SurveyViews.q_key q0
                           ≫= (.!! SurveyViews.a_key a)) ∧
              SurveyViews.a_choice a =
                bool_decide (default ∅ (Survey.choices self) !! SurveyViews.q_key q0 =
                             Some (SurveyViews.a_key a)) ∧
              SurveyViews.a_percent a =
                if votes =? 0 then 0 else round_percent (SurveyViews.a_count a) votes)
        (flag_answer round_percent
           (default ∅ (Survey.choices self) !! SurveyViews.q_key q0) votes
         <$> SurveyViews.q_answers q0)) as Hflagged.
      { apply Forall_fmap. eapply Forall_impl; [exact Hanswers|].
        intros a (Hcount & Hnot & _). unfold compose.
        destruct (flag_answer_fields round_percent
                    (default ∅ (Survey.choices self) !! SurveyViews.q_key q0) votes a)
          as (-> & -> & _ & -> & ->).
        rewrite Hnot, Hkey. simpl. split_and!; [done| |done].
        by apply bool_decide_ext. }
      rewrite Htop. destruct top as [j|]; [|done].
      apply Forall_alter; [done|]. by intros a _ ?.
Qed.

(** X18. In every question that [SurveyBlock.tally_detail] returns, an
    answer has the flag [top] exactly when its count is positive, no answer
    of the question has a larger count and every earlier answer has a
    smaller one: the first answer with the largest count, if any count is
    positive. *)
Theorem survey_tally_detail_top markdown round_percent first_counters
    (self self' : Survey.SurveyBlock) rows votes q i a :
  SurveyViews.tally_detail markdown round_percent first_counters self =
    Return (rows, votes) self' →
  q ∈ rows → SurveyViews.q_answers q !! i = Some a →
  SurveyViews.a_top a = true ↔ first_highest 0 (SurveyViews.q_answers q) i.
Proof.
  destruct (survey_tally_detail_shape markdown round_percent first_counters self)
    as (rows0 & votes' & _ & -> & Hrows).
  intros [= <- <- _] (q0 & -> & Hq0)%list_elem_of_fmap Ha.
  apply list_elem_of_lookup in Hq0 as [n Hq0].
  destruct (Forall2_lookup_r _ _ _ _ _ Hrows Hq0) as (kv & Hkv & Hfresh).
  assert (kv.1 ∈ (Survey.questions self).*1) as Hin.
  { rewrite <-(markdown_items_keys markdown). apply ordered_items_keys.
    apply list_elem_of_fmap. exists kv. split; [done|]. by eapply list_elem_of_lookup_2. }
  destruct (fresh_question_answers self kv q0 Hfresh Hin) as [_ Hanswers].
  assert (SurveyViews.a_count <$>
            SurveyViews.q_answers
              (SurveyViews.mark_question round_percent (default ∅ (Survey.choices self))
                 votes' q0) =
          SurveyViews.a_count <$> SurveyViews.q_answers q0) as Hcounts.
  { apply mark_question_fmap; [done|]. intros b chosen.
    by destruct (flag_answer_fields round_percent chosen votes' b) as (_ & -> & _). }
  destruct (mark_question_spec round_percent (default ∅ (Survey.choices self)) votes' q0)
    as (_ & _ & top & Htop & Hhighest).
  rewrite Htop in Ha.
  assert (∀ b, (flag_answer round_percent
                  (default ∅ (Survey.choices self) !! SurveyViews.q_key q0) votes'
                <$> SurveyViews.q_answers q0) !! i = Some b →
               SurveyViews.a_top b = false) as Hflagged.
  { intros b Hb. rewrite list_lookup_fmap in Hb.
    destruct (SurveyViews.q_answers q0 !! i) as [a0|] eqn:Ha0; [|done].
    injection Hb as <-.
    destruct (flag_answer_fields round_percent
                (default ∅ (Survey.choices self) !! SurveyViews.q_key q0) votes' a0)
      as (_ & _ & -> & _).
    apply list_elem_of_lookup_2 in Ha0. rewrite Forall_forall in Hanswers.
    by destruct (Hanswers a0 Ha0) as (_ & _ & ?). }
  destruct top as [j|].
  - destruct (decide (j = i)) as [->|Hne].
    + rewrite list_lookup_alter_eq in Ha.
      destruct (_ !! i) as [b|]; [|done]. injection Ha as <-.
      split; [|done]. intros _. by apply (first_highest_counts _ _ _ _ (eq_sym Hcounts)).
    + rewrite list_lookup_alter_ne in Ha by done. rewrite (Hflagged a Ha).
      split; [done|]. intros Hi%(first_highest_counts _ _ _ _ Hcounts).
      destruct Hne. by eapply first_highest_unique.
  - rewrite (Hflagged a Ha). split; [done|].
    intros (b & Hb & Hpos & _)%(first_highest_counts _ _ _ _ Hcounts).
    apply list_elem_of_lookup_2 in Hb. rewrite Forall_forall in Hhighest.
    specialize (Hhighest b Hb). lia.
Qed.

Lemma survey_tally_detail_top_witness :
  ∃ rows votes self' q a,
    SurveyViews.tally_detail no_strip Votes.whole_percent Votes.first_item
      Votes.voted_survey = Return (rows, votes) self' ∧
    q ∈ rows ∧ SurveyViews.q_answers q !! 0%nat = Some a ∧
    (SurveyViews.a_top a = true ↔ first_highest 0 (SurveyViews.q_answers q) 0).
Proof.
  eexists _, _, _, _, _. split; [vm_compute; reflexivity|].
  split; [by left|]. split; [reflexivity|].
  eapply (survey_tally_detail_top no_strip Votes.whole_percent Votes.first_item
            Votes.voted_survey); [vm_compute; reflexivity | by left | reflexivity].
Defined.

Lemma clean_counters_is_Some (self : Survey.SurveyBlock) q counters k :
  Survey.tally (Survey.clean_tally self) !! q = Some counters →
  is_Some (counters !! k) ↔ k ∈ (Survey.answers self).*1.
Proof.
  intros Hq. pose proof (survey_clean_tally_counter self q k) as Hc.
  rewrite Hq in Hc. simpl in Hc. rewrite Hc.
  assert (q ∈ (Survey.questions self).*1) as Hin.
  { apply survey_clean_tally_is_Some. by eexists. }
  rewrite (bool_decide_true _ Hin). simpl.
  destruct (decide (k ∈ (Survey.answers self).*1)) as [Hk|Hk].
  - rewrite bool_decide_true by done. split; [done | by eexists].
  - rewrite bool_decide_false by done. split; [by intros [? ?] | done].
Qed.

Lemma fresh_question_total (self : Survey.SurveyBlock) kv q counters :
  fresh_question (Survey.tally (Survey.clean_tally self))
    (SurveyViews.default_answers (Survey.answers self)) kv q →
  Survey.tally (Survey.clean_tally self) !! kv.1 = Some counters →
  total counters = foldr Z.add 0 (SurveyViews.a_count <$> SurveyViews.q_answers q).
Proof.
  intros (_ & _ & _ & _ & _ & counters' & Hcounters & ->) Hq.
  rewrite Hq in Hcounters. injection Hcounters as <-.
  assert (∀ k, k ∈ (SurveyViews.default_answers (Survey.answers self)).*1 ↔
               is_Some (counters !! k)) as Hdom.
  { intros k. rewrite (clean_counters_is_Some self kv.1 counters k Hq).
    unfold SurveyViews.default_answers. rewrite ordered_items_elem_of.
    rewrite <-list_fmap_compose. done. }
  rewrite answer_set_spec; [|apply ordered_items_NoDup|by intros k ?%Hdom].
  rewrite (total_keys counters (SurveyViews.default_answers (Survey.answers self)).*1);
    [|apply ordered_items_NoDup|done].
  f_equal. rewrite <-!list_fmap_compose. apply list_fmap_ext.
  intros i [k c] Hkc. simpl.
  assert (is_Some (counters !! k)) as [n ->]; [|done].
  apply Hdom, list_elem_of_fmap. exists (k, c). split; [done|].
  by eapply list_elem_of_lookup_2.
Qed.

Lemma first_item_picks (t : gmap string (gmap string Z)) :
  match Votes.first_item t with
  | Some counters => ∃ q, t !! q = Some counters
  | None => t = ∅
  end.
Proof.
  unfold Votes.first_item. destruct (map_to_list t) as [|[q counters] l] eqn:Hl; simpl.
  - by apply map_to_list_empty_iff.
  - exists q. apply elem_of_map_to_list. rewrite Hl. by left.
Qed.

(** X19. When the iteration over the tally yields one of its entries
    first, the total that [SurveyBlock.tally_detail] returns is the sum of
    the counts of one of the returned questions; without questions it is 0
    and no question is returned. *)
Theorem survey_tally_detail_total markdown round_percent first_counters
    (self self' : Survey.SurveyBlock) rows votes :
  (∀ t, match first_counters t with
        | Some counters => ∃ q, t !! q = Some counters
        | None => t = ∅
        end) →
  SurveyViews.tally_detail markdown round_percent first_counters self =
    Return (rows, votes) self' →
  (rows = [] ∧ votes = 0) ∨
  (∃ q, q ∈ rows ∧
        votes = foldr Z.add 0 (SurveyViews.a_count <$> SurveyViews.q_answers q)).
Proof.
  intros Hfirst.
  destruct (survey_tally_detail_shape markdown round_percent first_counters self)
    as (rows0 & votes' & Hvotes & -> & Hrows).
  intros [= <- <- _]. specialize (Hfirst (Survey.tally (Survey.clean_tally self))).
  destruct (first_counters (Survey.tally (Survey.clean_tally self))) as [counters|].
  - right. destruct Hfirst as [k Hk].
    assert (k ∈ (Poll.ordered_items
                   (Poll.markdown_items markdown (Survey.questions self))).*1) as Hin.
    { apply ordered_items_elem_of. rewrite markdown_items_keys.
      apply survey_clean_tally_is_Some. by eexists. }
    apply list_elem_of_fmap in Hin as (kv & -> & [i Hkv]%list_elem_of_lookup).
    destruct (Forall2_lookup_l _ _ _ _ _ Hrows Hkv) as (q0 & Hq0 & Hfresh).
    exists (SurveyViews.mark_question round_percent (default ∅ (Survey.choices self))
              votes' q0).
    split.
    + apply list_elem_of_fmap. exists q0. split; [done|]. by eapply list_elem_of_lookup_2.
    + rewrite mark_question_fmap.
      * rewrite Hvotes. by apply (fresh_question_total self kv).
      * done.
      * intros b chosen.
        by destruct (flag_answer_fields round_percent chosen votes' b) as (_ & -> & _).
  - left. split; [|done].
    assert (Poll.ordered_items (Poll.markdown_items markdown (Survey.questions self)) = [])
      as Hnone.
    { destruct (Poll.ordered_items _) as [|kv l] eqn:Hl; [done|].
      assert (is_Some (Survey.tally (Survey.clean_tally self) !! kv.1)) as [? Hsome].
      { apply survey_clean_tally_is_Some. rewrite <-(markdown_items_keys markdown).
        apply ordered_items_keys. rewrite Hl. by left. }
      by rewrite Hfirst in Hsome. }
    rewrite Hnone in Hrows. by apply Forall2_nil_inv_l in Hrows as ->.
Qed.

Lemma survey_tally_detail_total_witness :
  ∃ rows votes self',
    SurveyViews.tally_detail no_strip Votes.whole_percent Votes.first_item
      Votes.voted_survey = Return (rows, votes) self' ∧
    ((rows = [] ∧ votes = 0) ∨
     (∃ q, q ∈ rows ∧
           votes = foldr Z.add 0 (SurveyViews.a_count <$> SurveyViews.q_answers q))).
Proof.
  eexists _, _, _. split; [vm_compute; reflexivity|].
  eapply (survey_tally_detail_total no_strip Votes.whole_percent Votes.first_item
            Votes.voted_survey); [exact first_item_picks | vm_compute; reflexivity].
Defined.

(** ** get_results and private results *)

Lemma can_view_private_results_true (runtime : Runtime) :
  can_view_private_results runtime = true ↔
  user_is_staff runtime = Some true ∨
  (user_is_staff runtime = Some false ∧ has_group_profile runtime = true ∧
   extra_view_groups runtime ≠ [] ∧
   group_profile_exists runtime (extra_view_groups runtime) = true).
Proof.
  unfold can_view_private_results.
  destruct (user_is_staff runtime) as [[|]|]; [by split; [left|]| |].
  - destruct (has_group_profile runtime); simpl.
    + destruct (extra_view_groups runtime) as [|name names] eqn:Hnames.
      * split; [done|]. by intros [?|(_ & _ & ? & _)].
      * split; [by right|]. by intros [?|(_ & _ & _ & ?)].
    + split; [done|]. by intros [?|(_ & ? & _)].
  - split; [done|]. by intros [?|(? & _)].
Qed.

Lemma any_image_true (field : list (string * entry)) :
  any_image field = true ↔
  ∃ k e link, (k, e) ∈ field ∧ img e = Some link ∧ link ≠ "".
Proof.
  unfold any_image. rewrite existsb_exists. split.
  - intros ([k e] & Hin%list_elem_of_In & Himg). simpl in Himg.
    destruct (img e) as [link|] eqn:Hlink; [|done].
    exists k, e, link. split_and!; [done|done|]. intros ->. done.
  - intros (k & e & link & Hin & Hlink & Hne). exists (k, e).
    split; [by apply list_elem_of_In|]. simpl. rewrite Hlink.
    by destruct (String.eqb_spec link "").
Qed.

(** X20. [get_results] withholds private results from a user who is not
    course staff and is in no group with a profile named in the setting: it
    returns no tally and no total, [plural] is False, and the block is left
    as it was, with its tally not reconciled.  In both blocks. *)
Theorem get_results_withheld markdown round_percent first_counters (runtime : Runtime) :
  user_is_staff runtime ≠ Some true →
  has_group_profile runtime = false ∨ extra_view_groups runtime = [] ∨
    group_profile_exists runtime (extra_view_groups runtime) = false →
  (∀ self : Poll.PollBlock,
     private_results (Poll.base self) = true →
     ∃ res, PollViews.get_results markdown round_percent runtime self = Return res self ∧
            PollViews.res_tally res = None ∧ PollViews.res_total res = None ∧
            PollViews.res_plural res = false) ∧
  (∀ self : Survey.SurveyBlock,
     private_results (Survey.base self) = true →
     ∃ res, SurveyViews.get_results markdown round_percent first_counters runtime self =
              Return res self ∧
            SurveyViews.res_tally res = None ∧ SurveyViews.res_total res = None ∧
            SurveyViews.res_plural res = false).
Proof.
  intros Hstaff Hgroups.
  assert (can_view_private_results runtime = false) as Hview.
  { apply not_true_is_false. intros [?|(_ & Hp & Hn & Hg)]%can_view_private_results_true.
    - done.
    - destruct Hgroups as [?|[?|?]]; congruence. }
  split; intros self Hprivate.
  - unfold PollViews.get_results. rewrite Hprivate, Hview. simpl. by eexists.
  - unfold SurveyViews.get_results. rewrite Hprivate, Hview. simpl. by eexists.
Qed.

Lemma get_results_withheld_witness :
  ∃ res, PollViews.get_results no_strip Votes.whole_percent Votes.student
           Votes.private_poll = Return res Votes.private_poll ∧
         PollViews.res_tally res = None ∧ PollViews.res_total res = None ∧
         PollViews.res_plural res = false.
Proof.
  apply (proj1 (get_results_withheld no_strip Votes.whole_percent Votes.first_item
                  Votes.student ltac:(discriminate) (or_introl eq_refl))
           Votes.private_poll eq_refl).
Defined.

(** X21. Where the results are public, or the user is course staff or in
    a group with a profile named in the setting, [PollBlock.get_results]
    returns the rows and the total of [tally_detail] and leaves the
    reconciled tally behind; [plural] says whether the total is above 1 and
    [any_img] whether some answer has a non-empty image. *)
Theorem poll_get_results_shown markdown round_percent (runtime : Runtime)
    (self : Poll.PollBlock) :
  private_results (Poll.base self) = false ∨ user_is_staff runtime = Some true ∨
    (user_is_staff runtime = Some false ∧ has_group_profile runtime = true ∧
     extra_view_groups runtime ≠ [] ∧
     group_profile_exists runtime (extra_view_groups runtime) = true) →
  ∃ rows votes res,
    Poll.tally_detail markdown round_percent self =
      Return (rows, votes) (Poll.clean_tally self) ∧
    PollViews.get_results markdown round_percent runtime self =
      Return res (Poll.clean_tally self) ∧
    PollViews.res_tally res = Some rows ∧ PollViews.res_total res = Some votes ∧
    PollViews.res_plural res = bool_decide (1 < votes) ∧
    (PollViews.res_any_img res = true ↔
     ∃ k e link, (k, e) ∈ Poll.answers self ∧ img e = Some link ∧ link ≠ "").
Proof.
  intros Hshown.
  assert (private_results (Poll.base self) && negb (can_view_private_results runtime) =
          false) as Hgate.
  { destruct Hshown as [->|Hview]; [done|].
    apply can_view_private_results_true in Hview as ->. apply andb_false_r. }
  destruct (poll_tally_detail_shape markdown round_percent self)
    as (choice & rows0 & votes & _ & Hdetail & _).
  unfold PollViews.get_results. rewrite Hgate, Hdetail.
  eexists _, votes, _. split_and!; try done.
  - simpl. destruct (Z.ltb_spec 1 votes).
    + by rewrite bool_decide_true.
    + rewrite bool_decide_false; [done | lia].
  - apply any_image_true.
Qed.

Lemma poll_get_results_shown_witness :
  ∃ rows votes res,
    Poll.tally_detail no_strip Votes.whole_percent Votes.private_poll =
      Return (rows, votes) (Poll.clean_tally Votes.private_poll) ∧
    PollViews.get_results no_strip Votes.whole_percent Votes.staff Votes.private_poll =
      Return res (Poll.clean_tally Votes.private_poll) ∧
    PollViews.res_tally res = Some rows ∧ PollViews.res_total res = Some votes ∧
    PollViews.res_plural res = bool_decide (1 < votes) ∧
    (PollViews.res_any_img res = true ↔
     ∃ k e link, (k, e) ∈ Poll.answers Votes.private_poll ∧ img e = Some link ∧
                 link ≠ "").
Proof.
  apply (poll_get_results_shown no_strip Votes.whole_percent Votes.staff
           Votes.private_poll (or_intror (or_introl eq_refl))).
Defined.

(** X22. Where the results are public, or the user is course staff or in
    a group with a profile named in the setting, [SurveyBlock.get_results]
    returns the questions and the total of [tally_detail] and leaves the
    reconciled tally behind; [plural] says whether the total is above 1, and
    the answers it lists are the configured ones. *)
Theorem survey_get_results_shown markdown round_percent first_counters
    (runtime : Runtime) (self : Survey.SurveyBlock) :
  private_results (Survey.base self) = false ∨ user_is_staff runtime = Some true ∨
    (user_is_staff runtime = Some false ∧ has_group_profile runtime = true ∧
     extra_view_groups runtime ≠ [] ∧
     group_profile_exists runtime (extra_view_groups runtime) = true) →
  ∃ rows votes res,
    SurveyViews.tally_detail markdown round_percent first_counters self =
      Return (rows, votes) (Survey.clean_tally self) ∧
    SurveyViews.get_results markdown round_percent first_counters runtime self =
      Return res (Survey.clean_tally self) ∧
    SurveyViews.res_tally res = Some rows ∧ SurveyViews.res_total res = Some votes ∧
    SurveyViews.res_plural res = bool_decide (1 < votes) ∧
    SurveyViews.res_answers res = Survey.answers self.
Proof.
  intros Hshown.
  assert (private_results (Survey.base self) && negb (can_view_private_results runtime) =
          false) as Hgate.
  { destruct Hshown as [->|Hview]; [done|].
    apply can_view_private_results_true in Hview as ->. apply andb_false_r. }
  destruct (survey_tally_detail_shape markdown round_percent first_counters self)
    as (rows0 & votes & _ & Hdetail & _).
  unfold SurveyViews.get_results. rewrite Hgate, Hdetail.
  eexists _, votes, _. split_and!; try done.
  simpl. destruct (Z.ltb_spec 1 votes).
  - by rewrite bool_decide_true.
  - rewrite bool_decide_false; [done | lia].
Qed.

Lemma survey_get_results_shown_witness :
  ∃ rows votes res,
    SurveyViews.tally_detail no_strip Votes.whole_percent Votes.first_item
      Votes.voted_survey = Return (rows, votes) (Survey.clean_tally Votes.voted_survey) ∧
    SurveyViews.get_results no_strip Votes.whole_percent Votes.first_item Votes.student
      Votes.voted_survey = Return res (Survey.clean_tally Votes.voted_survey) ∧
    SurveyViews.res_tally res = Some rows ∧ SurveyViews.res_total res = Some votes ∧
    SurveyViews.res_plural res = bool_decide (1 < votes) ∧
    SurveyViews.res_answers res = Survey.answers Votes.voted_survey.
Proof.
  apply (survey_get_results_shown no_strip Votes.whole_percent Votes.first_item
           Votes.student Votes.voted_survey (or_introl eq_refl)).
Defined.

(** ** studio_submit reports real failures only *)

Lemma get_max_submissions_sound parse_int (data : gmap string json) r private n r' m :
  get_max_submissions parse_int data r private = Val (n, r') → m ∈ errors r' →
  m ∈ errors r ∨ max_submissions_failure parse_int data private m.
Proof.
  unfold get_max_submissions.
  destruct (getitem data "max_submissions" ≫= py_int parse_int) as [e|n0] eqn:Hint.
  - assert (e = KeyError ∨ e = ValueError →
            max_submissions_failure parse_int data private MaxSubmissionsNotInteger)
      as Hmissing.
    { unfold getitem in Hint.
      destruct (data !! "max_submissions") as [v|] eqn:Hv; [|intros _; by constructor].
      simpl in Hint. destruct v as [|b|z|s|l|l]; simpl in Hint; try done.
      - injection Hint as <-. by intros [?|?].
      - intros _. destruct (parse_int s) eqn:Hs; [done|]. by econstructor.
      - injection Hint as <-. by intros [?|?].
      - injection Hint as <-. by intros [?|?]. }
    destruct e; simpl; try done; intros [= <- <-]; simpl.
    + intros [?| ->%list_elem_of_singleton]%elem_of_app; [by left|]. right. auto.
    + intros [?| ->%list_elem_of_singleton]%elem_of_app; [by left|]. right. auto.
  - simpl. intros [= <- <-].
    destruct (negb (n0 =? 1) && negb private) eqn:Hc; [|by left]. simpl.
    intros [?| ->%list_elem_of_singleton]%elem_of_app; [by left|]. right.
    apply andb_true_iff in Hc as [Hn Hp]. apply negb_true_iff in Hn, Hp.
    apply (private_results_conflict _ _ _ n0); [done|lia|done].
Qed.

Lemma elem_of_failed_if (cond : bool) m m' (r : Result) :
  m ∈ errors (if cond then append_error m' (set_success false r) else r) →
  m ∈ errors r ∨ (cond = true ∧ m = m').
Proof.
  destruct cond; [|by left]. simpl.
  intros [?| ->%list_elem_of_singleton]%elem_of_app; [by left | by right].
Qed.

Lemma gather_item_sound strip (self : PollBase) noun image
    (items items' : list (item_type image)) (r r' : Result) item m :
  gather_item strip self noun image (items, r) item = Val (items', r') →
  m ∈ errors r' →
  m ∈ errors r ∨ item_failure strip self noun image item m.
Proof.
  unfold gather_item.
  assert (∀ v, (∀ members, v ≠ JObj members) →
               Val (items, append_error (NotAnObject noun v) (set_success false r)) =
                 Val (items', r') →
               m ∈ errors r' → m ∈ errors r ∨ item_failure strip self noun image v m)
    as Hother.
  { intros v Hv [= <- <-]. simpl.
    intros [?| ->%list_elem_of_singleton]%elem_of_app; [by left|]. right. by constructor. }
  destruct item as [|b|z|s|l|members]; try (by apply Hother).
  clear Hother. simpl.
  destruct (get_strip strip (py_dict members) "key") as [e|key] eqn:Hkey; [done|]. simpl.
  destruct (get_strip strip (py_dict members) "img") as [e|link] eqn:Hlink; [done|]. simpl.
  destruct (get_strip strip (py_dict members) "img_alt") as [e|alt] eqn:Halt; [done|].
  simpl.
  destruct (get_strip strip (py_dict members) "label") as [e|lbl] eqn:Hlbl; [done|].
  simpl. intros [= <- <-].
  intros [Hm|[Hc ->]]%elem_of_failed_if.
  - assert (m ∈ errors (if String.eqb key ""
                        then append_error (NoKey noun (JObj members)) (set_success false r)
                        else r) ∨
            item_failure strip self noun image (JObj members) m) as Hm'.
    { destruct (String.eqb_spec lbl "") as [->|Hne]; [|by left].
      destruct image; simpl in Hm.
      - apply elem_of_failed_if in Hm as [?|[Hl ->]]; [by left|]. right.
        apply String.eqb_eq in Hl as ->. by eapply no_text_or_img.
      - apply elem_of_app in Hm as [?| ->%list_elem_of_singleton]; [by left|]. right.
        by eapply no_label. }
    destruct Hm' as [Hm'|?]; [|by right].
    apply elem_of_failed_if in Hm' as [?|[Hk ->]]; [by left|]. right.
    apply String.eqb_eq in Hk as ->. by eapply no_key.
  - right. apply andb_true_iff in Hc as [Hc Hmandatory].
    apply andb_true_iff in Hc as [Hl Ha]. apply String.eqb_eq in Ha as ->.
    apply negb_true_iff, String.eqb_neq in Hl. by eapply no_img_alt.
Qed.

Lemma gather_loop_sound strip (self : PollBase) noun image source_items
    (items items' : list (item_type image)) (r r' : Result) m :
  gather_loop strip self noun image source_items (items, r) = Val (items', r') →
  m ∈ errors r' →
  m ∈ errors r ∨ ∃ item, item ∈ source_items ∧ item_failure strip self noun image item m.
Proof.
  revert items r. induction source_items as [|item rest IH]; intros items r.
  - intros [= <- <-]. by left.
  - rewrite gather_loop_cons.
    destruct (gather_item strip self noun image (items, r) item) as [e|[items1 r1]] eqn:Hi;
      [done|].
    intros Hrest Hm. destruct (IH _ _ Hrest Hm) as [Hm1|(it & Hit & Hfail)].
    + destruct (gather_item_sound _ _ _ _ _ _ _ _ _ _ Hi Hm1) as [?|?]; [by left|].
      right. exists item. split; [by left | done].
    + right. exists it. split; [by right | done].
Qed.

Lemma gather_loop_none strip (self : PollBase) noun image source_items
    (items : list (item_type image)) (r r' : Result) :
  gather_loop strip self noun image source_items (items, r) = Val ([], r') →
  ∀ item members, item ∈ source_items → item ≠ JObj members.
Proof.
  revert items r. induction source_items as [|item rest IH]; intros items r.
  - intros _ item members Hin. by apply elem_of_nil in Hin.
  - rewrite gather_loop_cons.
    destruct (gather_item strip self noun image (items, r) item) as [e|[items1 r1]] eqn:Hi;
      [done|].
    intros Hrest it members [->|Hin]%elem_of_cons; [|by eapply IH].
    intros ->. unfold gather_item in Hi. simpl in Hi.
    destruct (get_strip strip (py_dict members) "key"); [done|]. simpl in Hi.
    destruct (get_strip strip (py_dict members) "img"); [done|]. simpl in Hi.
    destruct (get_strip strip (py_dict members) "img_alt"); [done|]. simpl in Hi.
    destruct (get_strip strip (py_dict members) "label"); [done|]. simpl in Hi.
    injection Hi as <- _.
    assert (∀ source (acc : list (item_type image)) x r0 r1,
              gather_loop strip self noun image source (acc ++ [x], r0) ≠ Val ([], r1))
      as Hgrows.
    { clear. induction source as [|it source IH]; intros acc x r0 r1.
      - intros [= Hnil _]. by destruct acc.
      - rewrite gather_loop_cons.
        destruct (gather_item strip self noun image (acc ++ [x], r0) it)
          as [e|[acc1 r2]] eqn:Hi; [done|].
        assert (∃ y acc2, acc1 = acc2 ++ [y]) as (y & acc2 & ->); [|apply IH].
        unfold gather_item in Hi. destruct it; try (injection Hi as <- _; by eexists _, _).
        simpl in Hi.
        repeat (match type of Hi with
                | context [get_strip ?s ?d ?k] => destruct (get_strip s d k); [done|]
                end; simpl in Hi).
        injection Hi as <- _. by eexists _, _. }
    by apply Hgrows in Hrest.
Qed.

Lemma gather_items_sound strip (self : PollBase) (data : gmap string json) r noun field
    image (items' : list (item_type image)) r' m :
  gather_items strip self data r noun field image = Val (items', r') →
  m ∈ errors r' →
  m ∈ errors r ∨ items_failure strip self data noun field image m.
Proof.
  unfold gather_items.
  destruct (data !! field) as [v|] eqn:Hfield.
  2: { destruct (gather_loop strip self noun image [] _) as [e|[items1 r1]] eqn:Hloop;
         [done|]. simpl in Hloop. injection Hloop as <- <-. simpl. intros [= <- <-]. simpl.
       intros [[?| ->%list_elem_of_singleton]%elem_of_app| ->%list_elem_of_singleton]%elem_of_app.
       - by left.
       - right. apply field_not_array. intros l. by rewrite Hfield.
       - right. apply no_items. intros ??? Hl. by rewrite Hfield in Hl. }
  assert ((∀ l, v ≠ JArr l) →
          match
            gather_loop strip self noun image []
              ([], append_error (FieldNotArray field) (set_success false r))
          with
          | Throw e => Throw e
          | Val (items, result) =>
              Val (items,
                   match items with
                   | [] => set_success false (append_error (AtLeastOne noun) result)
                   | _ => result
                   end)
          end = Val (items', r') →
          m ∈ errors r' → m ∈ errors r ∨ items_failure strip self data noun field image m)
    as Hother.
  { intros Hv. simpl. intros [= <- <-]. simpl.
    intros [[?| ->%list_elem_of_singleton]%elem_of_app| ->%list_elem_of_singleton]%elem_of_app.
    - by left.
    - right. apply field_not_array. intros l Hl. rewrite Hfield in Hl.
      injection Hl as ->. by destruct (Hv l).
    - right. apply no_items. intros l ?? Hl. rewrite Hfield in Hl. injection Hl as ->.
      by destruct (Hv l). }
  destruct v as [|b|z|s|l|members]; try (by apply Hother).
  clear Hother.
  destruct (gather_loop strip self noun image l ([], r)) as [e|[items1 r1]] eqn:Hloop;
    [done|]. simpl. intros [= <- <-] Hm.
  assert (m ∈ errors r1 ∨ items_failure strip self data noun field image m) as Hm1.
  { destruct items1 as [|x items1]; [|by left]. simpl in Hm.
    apply elem_of_app in Hm as [?| ->%list_elem_of_singleton]; [by left|]. right.
    apply no_items. intros l' item members Hl'. rewrite Hfield in Hl'.
    injection Hl' as <-. intros Hin. by eapply gather_loop_none. }
  destruct Hm1 as [Hm1|?]; [|by right].
  destruct (gather_loop_sound _ _ _ _ _ _ _ _ _ _ Hloop Hm1) as [?|(item & Hin & Hfail)];
    [by left|]. right. by eapply bad_item.
Qed.

Lemma poll_studio_submit_sound strip parse_int (data : json)
    (self self' : Poll.PollBlock) r m :
  Poll.studio_submit strip parse_int data self = Return r self' → m ∈ errors r →
  ∃ members,
    data = JObj members ∧
    (max_submissions_failure parse_int (py_dict members)
       (truthy (default (JBool false) (py_dict members !! "private_results"))) m ∨
     (get_strip strip (py_dict members) "question" = Val "" ∧ m = NoQuestion) ∨
     items_failure strip (Poll.base self) (py_dict members) "Answer" "answers" true m).
Proof.
  unfold Poll.studio_submit. destruct data as [| | | | |members]; try done.
  set (d := py_dict members).
  set (private := truthy (default (JBool false) (d !! "private_results"))).
  destruct (get_strip strip d "question") as [e|question] eqn:Hq; simpl; [done|].
  destruct (get_strip strip d "feedback") as [e|fb] eqn:Hf; simpl; [done|].
  destruct (get_max_submissions parse_int d (new_result true) private)
    as [e|[n r1]] eqn:Hmax; simpl; [done|].
  destruct (get_strip strip d "display_name") as [e|name] eqn:Hn; simpl; [done|].
  set (r2 := if String.eqb question "" then _ else r1).
  destruct (gather_items strip (Poll.base self) d r2 "Answer" "answers" true)
    as [e|[answers r3]] eqn:Hitems; simpl; [done|].
  intros Hr Hm. assert (r = r3) as -> by (by destruct (success r3); injection Hr).
  exists members. split; [done|].
  destruct (gather_items_sound _ _ _ _ _ _ _ _ _ _ Hitems Hm) as [Hm2|?]; [|auto].
  assert (m ∈ errors r1 ∨ (question = "" ∧ m = NoQuestion)) as [Hm1|[-> ->]]; [|
    |right; left; by split].
  { unfold r2 in Hm2. destruct (String.eqb_spec question "") as [->|?]; [|by left].
    simpl in Hm2. apply elem_of_app in Hm2 as [?| ->%list_elem_of_singleton]; auto. }
  destruct (get_max_submissions_sound _ _ _ _ _ _ _ Hmax Hm1) as [Hnone|?]; [|auto].
  by apply elem_of_nil in Hnone.
Qed.

Lemma survey_studio_submit_sound strip parse_int (data : json)
    (self self' : Survey.SurveyBlock) r m :
  Survey.studio_submit strip parse_int data self = Return r self' → m ∈ errors r →
  ∃ members,
    data = JObj members ∧
    (max_submissions_failure parse_int (py_dict members)
       (truthy (default (JBool false) (py_dict members !! "private_results"))) m ∨
     items_failure strip (Survey.base self) (py_dict members) "Answer" "answers" false m ∨
     items_failure strip (Survey.base self) (py_dict members) "Question" "questions" true
       m).
Proof.
  unfold Survey.studio_submit. destruct data as [| | | | |members]; try done.
  set (d := py_dict members).
  set (private := truthy (default (JBool false) (d !! "private_results"))).
  destruct (get_strip strip d "feedback") as [e|fb] eqn:Hf; simpl; [done|].
  destruct (get_strip strip d "display_name") as [e|name] eqn:Hn; simpl; [done|].
  destruct (get_max_submissions parse_int d (new_result true) private)
    as [e|[n r1]] eqn:Hmax; simpl; [done|].
  destruct (gather_items strip (Survey.base self) d r1 "Answer" "answers" false)
    as [e|[answers r2]] eqn:Hanswers; simpl; [done|].
  destruct (gather_items strip (Survey.base self) d r2 "Question" "questions" true)
    as [e|[questions r3]] eqn:Hquestions; simpl; [done|].
  intros Hr Hm. assert (r = r3) as -> by (by destruct (success r3); injection Hr).
  exists members. split; [done|].
  destruct (gather_items_sound _ _ _ _ _ _ _ _ _ _ Hquestions Hm) as [Hm2|?]; [|auto].
  destruct (gather_items_sound _ _ _ _ _ _ _ _ _ _ Hanswers Hm2) as [Hm1|?]; [|auto].
  destruct (get_max_submissions_sound _ _ _ _ _ _ _ Hmax Hm1) as [Hnone|?]; [|auto].
  by apply elem_of_nil in Hnone.
Qed.

(** X23. Every message in the result of [studio_submit] stands for a
    failure of the submitted form: a missing or non-integer
    [max_submissions], public results with a limit other than 1, an empty
    question (in a poll), or a failure of the submitted answers or
    questions.  In both blocks. *)
Theorem studio_submit_reports_only_failures strip parse_int (data : json) m :
  (∀ (self self' : Poll.PollBlock) r,
     Poll.studio_submit strip parse_int data self = Return r self' → m ∈ errors r →
     ∃ members,
       data = JObj members ∧
       (max_submissions_failure parse_int (py_dict members)
          (truthy (default (JBool false) (py_dict members !! "private_results"))) m ∨
        (get_strip strip (py_dict members) "question" = Val "" ∧ m = NoQuestion) ∨
        items_failure strip (Poll.base self) (py_dict members) "Answer" "answers" true m)) ∧
  (∀ (self self' : Survey.SurveyBlock) r,
     Survey.studio_submit strip parse_int data self = Return r self' → m ∈ errors r →
     ∃ members,
       data = JObj members ∧
       (max_submissions_failure parse_int (py_dict members)
          (truthy (default (JBool false) (py_dict members !! "private_results"))) m ∨
        items_failure strip (Survey.base self) (py_dict members) "Answer" "answers" false
          m ∨
        items_failure strip (Survey.base self) (py_dict members) "Question" "questions"
          true m)).
Proof.
  split; intros self self' r.
  - apply poll_studio_submit_sound.
  - apply survey_studio_submit_sound.
Qed.

Lemma studio_submit_reports_only_witness :
  ∃ r self',
    Poll.studio_submit no_strip no_int empty_form default_poll = Return r self' ∧
    MaxSubmissionsNotInteger ∈ errors r ∧
    ∃ members,
      empty_form = JObj members ∧
      (max_submissions_failure no_int (py_dict members)
         (truthy (default (JBool false) (py_dict members !! "private_results")))
         MaxSubmissionsNotInteger ∨
       (get_strip no_strip (py_dict members) "question" = Val "" ∧
        MaxSubmissionsNotInteger = NoQuestion) ∨
       items_failure no_strip (Poll.base default_poll) (py_dict members) "Answer" "answers"
         true MaxSubmissionsNotInteger).
Proof.
  eexists _, _. split; [vm_compute; reflexivity|]. split; [by left|].
  eapply (proj1 (studio_submit_reports_only_failures no_strip no_int empty_form
                   MaxSubmissionsNotInteger) default_poll);
    [vm_compute; reflexivity | by left].
Defined.




(** ** The labels of tally_detail *)

Lemma od_set_elem_of {V} k (v : V) l k' v' :
  NoDup l.*1 →
  (k', v') ∈ Poll.od_set k v l ↔ (k' = k ∧ v' = v) ∨ (k' ≠ k ∧ (k', v') ∈ l).
Proof.
  induction l as [|[k0 v0] l IH].
  - intros _. simpl. rewrite list_elem_of_singleton. split.
    + intros [= -> ->]. by left.
    + intros [[-> ->]|[_ ?%elem_of_nil]]; done.
  - rewrite fmap_cons. intros [Hk0 Hnd]%NoDup_cons. simpl in Hk0. simpl.
    destruct (String.eqb_spec k0 k) as [->|Hne].
    + rewrite !elem_of_cons. split.
      * intros [[= -> ->]|Hin]; [by left|]. right. split; [|by right].
        intros ->. apply Hk0. apply list_elem_of_fmap. by exists (k, v').
      * intros [[-> ->]|[Hne [[= ? ?]|Hin]]]; [by left|done|by right].
    + rewrite !elem_of_cons, (IH Hnd). split.
      * intros [[= -> ->]|[[-> ->]|[? ?]]]; [right|by left|right]; split; auto.
      * intros [[-> ->]|[? [[= -> ->]|?]]]; [right; by left|by left|right; by right].
Qed.

Lemma ordered_items_lookup {V} (pairs : list (string * V)) k v :
  (k, v) ∈ Poll.ordered_items pairs ↔ py_dict pairs !! k = Some v.
Proof.
  revert k v. induction pairs as [|[k0 v0] pairs IH] using rev_ind; intros k v.
  - split; [by intros ?%elem_of_nil | done].
  - rewrite py_dict_snoc.
    assert (Poll.ordered_items (pairs ++ [(k0, v0)]) =
            Poll.od_set k0 v0 (Poll.ordered_items pairs)) as ->.
    { unfold Poll.ordered_items. by rewrite foldl_app. }
    rewrite od_set_elem_of by apply ordered_items_NoDup. rewrite IH.
    destruct (decide (k = k0)) as [->|Hne].
    + rewrite lookup_insert_eq. split.
      * by intros [[_ ->]|[? _]].
      * intros [= ->]. by left.
    + rewrite lookup_insert_ne by done. split.
      * by intros [[? _]|[_ ?]].
      * intros ?. by right.
Qed.

Lemma markdown_items_lookup markdown (l : list (string * entry)) k :
  py_dict (Poll.markdown_items markdown l) !! k =
  (λ e, {| label := markdown (label e); img := img e; img_alt := img_alt e |})
  <$> py_dict l !! k.
Proof.
  induction l as [|[k0 e0] l IH] using rev_ind; [done|].
  unfold Poll.markdown_items in *. rewrite fmap_app. simpl. rewrite !py_dict_snoc.
  destruct (decide (k = k0)) as [->|Hne].
  - by rewrite !lookup_insert_eq.
  - by rewrite !lookup_insert_ne.
Qed.

Lemma ordered_markdown_items markdown (l : list (string * entry)) kv :
  kv ∈ Poll.ordered_items (Poll.markdown_items markdown l) →
  ∃ e, py_dict l !! kv.1 = Some e ∧ label kv.2 = markdown (label e) ∧
       img kv.2 = img e ∧ img_alt kv.2 = img_alt e.
Proof.
  destruct kv as [k e']. intros Hin%ordered_items_lookup.
  rewrite markdown_items_lookup in Hin. simpl.
  destruct (py_dict l !! k) as [e|]; [|done]. injection Hin as <-. by exists e.
Qed.

(** X26. The rows of [tally_detail] show the configured entries: a row of a
    poll has the image and alternative text of the last configured answer
    with its key and the markdown rendering of that answer's label, and a
    question of a survey likewise. *)
Theorem tally_detail_labels markdown round_percent first_counters :
  (∀ (self self' : Poll.PollBlock) rows votes r,
     Poll.tally_detail markdown round_percent self = Return (rows, votes) self' →
     r ∈ rows →
     ∃ e, py_dict (Poll.answers self) !! Poll.key r = Some e ∧
          Poll.answer r = markdown (label e) ∧ Poll.row_img r = img e ∧
          Poll.row_img_alt r = img_alt e) ∧
  (∀ (self self' : Survey.SurveyBlock) rows votes q,
     SurveyViews.tally_detail markdown round_percent first_counters self =
       Return (rows, votes) self' →
     q ∈ rows →
     ∃ e, py_dict (Survey.questions self) !! SurveyViews.q_key q = Some e ∧
          SurveyViews.q_label q = markdown (label e) ∧ SurveyViews.q_img q = img e ∧
          SurveyViews.q_img_alt q = img_alt e).
Proof.
  split.
  - intros self self' rows votes r.
    destruct (poll_tally_detail_shape markdown round_percent self)
      as (choice & rows0 & votes' & _ & -> & Hrows & _).
    intros [= <- _ _] Hr.
    set (g := λ r, (Poll.key r, Poll.answer r, Poll.row_img r, Poll.row_img_alt r)).
    assert (g r ∈ g <$> rows0) as Hg.
    { apply (list_elem_of_fmap_2 g) in Hr.
      rewrite mark_last_fmap, mark_first_fmap, sort_by_count_Permutation in Hr by done.
      by rewrite <-list_fmap_compose in Hr. }
    apply list_elem_of_fmap in Hg as (r0 & Hr0 & [i Hi]%list_elem_of_lookup).
    injection Hr0 as -> -> -> ->.
    destruct (Forall2_lookup_r _ _ _ _ _ Hrows Hi)
      as (kv & Hkv%list_elem_of_lookup_2 & Hk & Ha & Himg & Halt & _).
    destruct (ordered_markdown_items _ _ _ Hkv) as (e & He & Hlabel & Himg' & Halt').
    exists e. rewrite Hk, Ha, Himg, Halt. by split_and!.
  - intros self self' rows votes q.
    destruct (survey_tally_detail_shape markdown round_percent first_counters self)
      as (rows0 & votes' & _ & -> & Hrows).
    intros [= <- _ _] (q0 & -> & [i Hi]%list_elem_of_lookup)%list_elem_of_fmap.
    destruct (Forall2_lookup_r _ _ _ _ _ Hrows Hi)
      as (kv & Hkv%list_elem_of_lookup_2 & Hk & Hl & Himg & Halt & _).
    destruct (ordered_markdown_items _ _ _ Hkv) as (e & He & Hlabel & Himg' & Halt').
    exists e. unfold SurveyViews.mark_question.
    destruct (SurveyViews.scan_answers _ _ _ _ _ _ _) as [answers [top|]]; simpl;
      rewrite Hk, Hl, Himg, Halt; by split_and!.
Qed.

Lemma tally_detail_labels_witness :
  ∃ rows votes self' r,
    Poll.tally_detail no_strip Votes.whole_percent Votes.voted_poll =
      Return (rows, votes) self' ∧
    rows !! 0%nat = Some r ∧
    ∃ e, py_dict (Poll.answers Votes.voted_poll) !! Poll.key r = Some e ∧
         Poll.answer r = no_strip (label e) ∧ Poll.row_img r = img e ∧
         Poll.row_img_alt r = img_alt e.
Proof.
  eexists _, _, _, _. split; [vm_compute; reflexivity|]. split; [reflexivity|].
  eapply (proj1 (tally_detail_labels no_strip Votes.whole_percent Votes.first_item)
            Votes.voted_poll); [vm_compute; reflexivity | by left].
Defined.
